(** * Moodle ELT: the extraction client and the raw-record loader

    A shallow embedding of [dags/utils/moodle_api.py] and of the extraction
    and load tasks of [dags/moodle4_dag.py], with the properties the
    specification states about them.

    Conventions of the embedding.
    - A Python [str] is a [string]; its characters are read as the code
      points 0..255.
    - A decoded JSON payload is a [json] value; a Python [dict] is an
      association list in insertion order.
    - Code that logs, sleeps, talks to the network, the clock, XCom or the
      database runs in the monad [M]: a function from a [world] to an outcome
      and the next [world].  A raised exception is the outcome [Raise e]. *)

From Stdlib Require Import ZArith List Bool Ascii String Lia QArith.
From Stdlib Require Import Permutation Sorted.
From Stdlib Require Import Numbers.DecimalString.
From Stdlib Require Numbers.DecimalZ.
Import ListNotations.

Open Scope string_scope.
Open Scope Z_scope.

(* ================================================================== *)
(** * Python strings *)

Module PyStr.

Definition code (c : ascii) : N := N_of_ascii c.

(** [str.isspace] on the code points below 256. *)
Definition isspace (c : ascii) : bool :=
  let n := code c in
  ((9 <=? n) && (n <=? 13) || (28 <=? n) && (n <=? 32)
   || (n =? 133) || (n =? 160))%N.

(** [str.lower] on one character: A-Z, and the Latin-1 capitals other than
    the multiplication sign. *)
Definition lower_char (c : ascii) : ascii :=
  let n := code c in
  if ((65 <=? n) && (n <=? 90)
      || (192 <=? n) && (n <=? 222) && negb (n =? 215))%N
  then ascii_of_N (n + 32) else c.

Fixpoint lower (s : string) : string :=
  match s with
  | EmptyString => EmptyString
  | String c r => String (lower_char c) (lower r)
  end.

(** [s.lstrip(chars)], with the stripped characters given as a predicate. *)
Fixpoint lstrip_by (p : ascii -> bool) (s : string) : string :=
  match s with
  | EmptyString => EmptyString
  | String c r => if p c then lstrip_by p r else s
  end.

(** [s.rstrip(chars)]: a character goes when all that follows it went and
    it is one of the stripped characters. *)
Fixpoint rstrip_by (p : ascii -> bool) (s : string) : string :=
  match s with
  | EmptyString => EmptyString
  | String c r =>
      match rstrip_by p r with
      | EmptyString => if p c then EmptyString else String c EmptyString
      | r' => String c r'
      end
  end.

Definition strip (s : string) : string := lstrip_by isspace (rstrip_by isspace s).

Definition is_char (x : ascii) (c : ascii) : bool := Ascii.eqb x c.

(** [s.rstrip(x)] for a one-character [x]. *)
Definition rstrip_char (x : ascii) (s : string) : string := rstrip_by (is_char x) s.

Definition startswith (s p : string) : bool := String.prefix p s.

Definition len (s : string) : Z := Z.of_nat (String.length s).

(** Truth value of a string: [not s] holds for the empty string only. *)
Definition truthy (s : string) : bool :=
  match s with EmptyString => false | _ => true end.

(** [s.split(sep)] for a one-character separator; [acc] is the field being
    read, reversed. *)
Fixpoint split_go (sep : ascii) (acc : string) (s : string) : list string :=
  match s with
  | EmptyString => [acc]
  | String c r =>
      if Ascii.eqb c sep then acc :: split_go sep EmptyString r
      else split_go sep (acc ++ String c EmptyString) r
  end.

Definition split (sep : ascii) (s : string) : list string :=
  split_go sep EmptyString s.

(** [str(n)] for an [int]. *)
Definition of_int (z : Z) : string := NilZero.string_of_int (Z.to_int z).

Fixpoint join (sep : string) (l : list string) : string :=
  match l with
  | [] => EmptyString
  | [x] => x
  | x :: r => x ++ sep ++ join sep r
  end.

End PyStr.

(* ================================================================== *)
(** * JSON values and Python dictionaries *)

(** A decoded JSON payload.  A [float] is kept as the text [float.__repr__]
    prints for it (with [NaN], [Infinity] and [-Infinity] as [json] prints
    them), which names the float. *)
#[warnings="-register-all"] Inductive json : Type :=
| JNull
| JBool (b : bool)
| JInt (z : Z)
| JFloat (repr : string)
| JString (s : string)
| JList (l : list json)
| JDict (items : list (string * json)).

(** A [dict] with [str] keys, in insertion order. *)
Definition dict : Type := list (string * json).

(** [d.get(k)], with [None] for Python's [None] default made explicit. *)
Fixpoint dict_get (d : dict) (k : string) : option json :=
  match d with
  | [] => None
  | (k', v) :: r => if String.eqb k' k then Some v else dict_get r k
  end.

(** [k in d] *)
Definition dict_has (d : dict) (k : string) : bool :=
  match dict_get d k with Some _ => true | None => false end.

(** [d.get(k, dflt)] *)
Definition dict_get_default (d : dict) (k : string) (dflt : json) : json :=
  match dict_get d k with Some v => v | None => dflt end.

(** [d[k] = v]: an existing key keeps its place, a new key goes last. *)
Fixpoint dict_set (d : dict) (k : string) (v : json) : dict :=
  match d with
  | [] => [(k, v)]
  | (k', v') :: r =>
      if String.eqb k' k then (k', v) :: r else (k', v') :: dict_set r k v
  end.

(** [d.update(other)] *)
Definition dict_update (d other : dict) : dict :=
  fold_left (fun acc kv => dict_set acc (fst kv) (snd kv)) other d.

(** Truth value of an object, as [if x:] and [x or y] test it. *)
Definition py_truthy (v : json) : bool :=
  match v with
  | JNull => false
  | JBool b => b
  | JInt z => negb (z =? 0)
  | JFloat r => negb (String.eqb r "0.0" || String.eqb r "-0.0")
  | JString s => PyStr.truthy s
  | JList l => match l with [] => false | _ => true end
  | JDict d => match d with [] => false | _ => true end
  end.

(** [x or y] *)
Definition py_or (x y : json) : json := if py_truthy x then x else y.

(** Keys of a well-formed [dict] are pairwise distinct, at every level. *)
Fixpoint nodup_keys (ks : list string) : bool :=
  match ks with
  | [] => true
  | k :: r => negb (existsb (String.eqb k) r) && nodup_keys r
  end.

Fixpoint json_wf (v : json) : bool :=
  match v with
  | JList l => forallb json_wf l
  | JDict items =>
      nodup_keys (map fst items)
      && (fix all (l : list (string * json)) : bool :=
            match l with
            | [] => true
            | (_, x) :: r => json_wf x && all r
            end) items
  | _ => true
  end.

(** Equality of payloads up to the order of the keys of every mapping:
    two mappings are equal when they have as many keys and every key of the
    first has an equal value in the second. *)
Fixpoint json_same (a b : json) : bool :=
  match a, b with
  | JNull, JNull => true
  | JBool x, JBool y => Bool.eqb x y
  | JInt x, JInt y => x =? y
  | JFloat x, JFloat y => String.eqb x y
  | JString x, JString y => String.eqb x y
  | JList la, JList lb =>
      (fix all2 (l : list json) (m : list json) : bool :=
         match l, m with
         | [], [] => true
         | x :: l', y :: m' => json_same x y && all2 l' m'
         | _, _ => false
         end) la lb
  | JDict da, JDict db =>
      (List.length da =? List.length db)%nat
      && (fix all (l : list (string * json)) : bool :=
            match l with
            | [] => true
            | (k, x) :: r =>
                match dict_get db k with
                | Some y => json_same x y
                | None => false
                end && all r
            end) da
  | _, _ => false
  end.

(* ================================================================== *)
(** * Text forms of a payload: [json.dumps], [repr] and [str] *)

Module PyJson.

Definition hex_digit (n : N) : ascii :=
  if (n <? 10)%N then ascii_of_N (48 + n) else ascii_of_N (87 + n).

(** Two lower-case hexadecimal digits of a value below 256. *)
Definition hex2 (n : N) : string :=
  String (hex_digit (n / 16)) (String (hex_digit (n mod 16)) EmptyString).

(** [ESCAPE_ASCII] of [json.encoder]: the named escapes, and [\u00XX] for
    every other character outside the printable ASCII range. *)
Definition escape_char (c : ascii) : string :=
  let n := PyStr.code c in
  if (n =? 34)%N then String "\" (String "034" EmptyString)
  else if (n =? 92)%N then "\\"
  else if (n =? 10)%N then "\n"
  else if (n =? 13)%N then "\r"
  else if (n =? 9)%N then "\t"
  else if (n =? 8)%N then "\b"
  else if (n =? 12)%N then "\f"
  else if ((32 <=? n) && (n <=? 126))%N then String c EmptyString
  else "\u00" ++ hex2 n.

Fixpoint escape (s : string) : string :=
  match s with
  | EmptyString => EmptyString
  | String c r => escape_char c ++ escape r
  end.

(** [py_encode_basestring_ascii] *)
Definition quote (s : string) : string :=
  String "034" EmptyString ++ escape s ++ String "034" EmptyString.

(** Place an item in a list ordered by key, before the first item whose key
    is not smaller. *)
Fixpoint insert_item (kv : string * string) (l : list (string * string))
  : list (string * string) :=
  match l with
  | [] => [kv]
  | h :: t =>
      if String.leb (fst kv) (fst h) then kv :: h :: t
      else h :: insert_item kv t
  end.

(** [sorted(dct.items())] on items whose values are already rendered: the
    order is that of the keys, by code point. *)
Fixpoint sort_items (l : list (string * string)) : list (string * string) :=
  match l with
  | [] => []
  | kv :: r => insert_item kv (sort_items r)
  end.

Definition render_item (kv : string * string) : string :=
  quote (fst kv) ++ ": " ++ snd kv.

(** [json.dumps(v, sort_keys=sort_keys)] with the default separators and
    [ensure_ascii]. *)
Fixpoint dumps (sort_keys : bool) (v : json) : string :=
  match v with
  | JNull => "null"
  | JBool true => "true"
  | JBool false => "false"
  | JInt z => PyStr.of_int z
  | JFloat r => r
  | JString s => quote s
  | JList l => "[" ++ PyStr.join ", " (map (dumps sort_keys) l) ++ "]"
  | JDict items =>
      let rendered :=
        (fix go (l : list (string * json)) : list (string * string) :=
           match l with
           | [] => []
           | (k, x) :: r => (k, dumps sort_keys x) :: go r
           end) items in
      let ordered := if sort_keys then sort_items rendered else rendered in
      "{" ++ PyStr.join ", " (map render_item ordered) ++ "}"
  end.

Fixpoint contains_char (x : ascii) (s : string) : bool :=
  match s with
  | EmptyString => false
  | String c r => Ascii.eqb c x || contains_char x r
  end.

(** One character of [repr] of a [str] quoted with [q]. *)
Definition repr_char (q : ascii) (c : ascii) : string :=
  let n := PyStr.code c in
  if Ascii.eqb c q || (n =? 92)%N then String "\" (String c EmptyString)
  else if (n =? 9)%N then "\t"
  else if (n =? 10)%N then "\n"
  else if (n =? 13)%N then "\r"
  else if ((n <? 32) || (n =? 127))%N then "\x" ++ hex2 n
  else if (n <? 127)%N then String c EmptyString
  else if ((161 <=? n) && negb (n =? 173))%N then String c EmptyString
  else "\x" ++ hex2 n.

(** [repr(s)] for a [str]: single quotes, unless the text has a single quote
    and no double quote. *)
Definition repr_str (s : string) : string :=
  let q := if contains_char "'" s && negb (contains_char "034" s)
           then "034"%char else "'"%char in
  String q ((fix go (t : string) : string :=
               match t with
               | EmptyString => EmptyString
               | String c r => repr_char q c ++ go r
               end) s ++ String q EmptyString).

(** [repr] of a float, from the text [json] prints for it. *)
Definition repr_float (r : string) : string :=
  if String.eqb r "NaN" then "nan"
  else if String.eqb r "Infinity" then "inf"
  else if String.eqb r "-Infinity" then "-inf"
  else r.

Fixpoint py_repr (v : json) : string :=
  match v with
  | JNull => "None"
  | JBool true => "True"
  | JBool false => "False"
  | JInt z => PyStr.of_int z
  | JFloat r => repr_float r
  | JString s => repr_str s
  | JList l => "[" ++ PyStr.join ", " (map py_repr l) ++ "]"
  | JDict items =>
      "{" ++ PyStr.join ", "
        ((fix go (l : list (string * json)) : list string :=
            match l with
            | [] => []
            | (k, x) :: r => (repr_str k ++ ": " ++ py_repr x) :: go r
            end) items) ++ "}"
  end.

(** [str(v)], as an f-string formats a value. *)
Definition py_str (v : json) : string :=
  match v with
  | JString s => s
  | _ => py_repr v
  end.

End PyJson.

(* ================================================================== *)
(** * [hashlib.md5] *)

Module MD5.

Definition mask32 : Z := 4294967295.

Definition add32 (a b : Z) : Z := Z.land (a + b) mask32.

Definition not32 (a : Z) : Z := Z.lxor a mask32.

Definition rotl32 (x c : Z) : Z :=
  Z.land (Z.lor (Z.shiftl x c) (Z.shiftr x (32 - c))) mask32.

(** [floor(2^32 * abs(sin(i + 1)))] for i = 0..63. *)
Definition K : list Z :=
  [
   3614090360; 3905402710; 606105819; 3250441966;
   4118548399; 1200080426; 2821735955; 4249261313;
   1770035416; 2336552879; 4294925233; 2304563134;
   1804603682; 4254626195; 2792965006; 1236535329;
   4129170786; 3225465664; 643717713; 3921069994;
   3593408605; 38016083; 3634488961; 3889429448;
   568446438; 3275163606; 4107603335; 1163531501;
   2850285829; 4243563512; 1735328473; 2368359562;
   4294588738; 2272392833; 1839030562; 4259657740;
   2763975236; 1272893353; 4139469664; 3200236656;
   681279174; 3936430074; 3572445317; 76029189;
   3654602809; 3873151461; 530742520; 3299628645;
   4096336452; 1126891415; 2878612391; 4237533241;
   1700485571; 2399980690; 4293915773; 2240044497;
   1873313359; 4264355552; 2734768916; 1309151649;
   4149444226; 3174756917; 718787259; 3951481745
  ].

(** The per-round shift amounts. *)
Definition S : list Z :=
  [ 7; 12; 17; 22; 7; 12; 17; 22; 7; 12; 17; 22; 7; 12; 17; 22;
    5; 9; 14; 20; 5; 9; 14; 20; 5; 9; 14; 20; 5; 9; 14; 20;
    4; 11; 16; 23; 4; 11; 16; 23; 4; 11; 16; 23; 4; 11; 16; 23;
    6; 10; 15; 21; 6; 10; 15; 21; 6; 10; 15; 21; 6; 10; 15; 21 ].

Record state : Type := mk_state { sa : Z; sb : Z; sc : Z; sd : Z }.

Definition init : state :=
  mk_state 1732584193 4023233417 2562383102 271733878.

(** The little-endian bytes of a value, [n] of them. *)
Fixpoint le_bytes (n : nat) (x : Z) : list Z :=
  match n with
  | O => []
  | Datatypes.S k => Z.land x 255 :: le_bytes k (Z.shiftr x 8)
  end.

(** The message followed by the bit 1, zeros up to 56 modulo 64, and its
    length in bits on 64 bits. *)
Definition pad (msg : list Z) : list Z :=
  let n := Z.of_nat (List.length msg) in
  msg ++ [128] ++ repeat 0 (Z.to_nat ((55 - n) mod 64))
      ++ le_bytes 8 (Z.land (8 * n) 18446744073709551615).

Fixpoint le_word (bs : list Z) : Z :=
  match bs with
  | [] => 0
  | b :: r => Z.lor b (Z.shiftl (le_word r) 8)
  end.

(** The sixteen 32-bit words of a 64-byte block. *)
Fixpoint words (n : nat) (block : list Z) : list Z :=
  match n with
  | O => []
  | Datatypes.S k => le_word (firstn 4 block) :: words k (skipn 4 block)
  end.

(** One of the 64 operations on a block. *)
Definition step (m : list Z) (st : state) (i : nat) : state :=
  let '(mk_state a b c d) := st in
  let iz := Z.of_nat i in
  let '(f, g) :=
    if iz <? 16 then (Z.lor (Z.land b c) (Z.land (not32 b) d), iz)
    else if iz <? 32 then
      (Z.lor (Z.land d b) (Z.land (not32 d) c), (5 * iz + 1) mod 16)
    else if iz <? 48 then (Z.lxor b (Z.lxor c d), (3 * iz + 5) mod 16)
    else (Z.lxor c (Z.lor b (not32 d)), (7 * iz) mod 16) in
  let f' := add32 (add32 (add32 f a) (nth i K 0)) (nth (Z.to_nat g) m 0) in
  mk_state d (add32 b (rotl32 f' (nth i S 0))) b c.

Definition block (st : state) (blk : list Z) : state :=
  let m := words 16 blk in
  let '(mk_state a b c d) := fold_left (step m) (seq 0 64) st in
  mk_state (add32 (sa st) a) (add32 (sb st) b) (add32 (sc st) c) (add32 (sd st) d).

Fixpoint blocks (n : nat) (st : state) (bs : list Z) : state :=
  match n with
  | O => st
  | Datatypes.S k => blocks k (block st (firstn 64 bs)) (skipn 64 bs)
  end.

(** The sixteen bytes of the digest. *)
Definition digest (msg : list Z) : list Z :=
  let p := pad msg in
  let st := blocks (List.length p / 64) init p in
  le_bytes 4 (sa st) ++ le_bytes 4 (sb st) ++ le_bytes 4 (sc st) ++ le_bytes 4 (sd st).

Fixpoint hex (bs : list Z) : string :=
  match bs with
  | [] => EmptyString
  | b :: r => PyJson.hex2 (Z.to_N b) ++ hex r
  end.

(** [hashlib.md5(msg).hexdigest()] *)
Definition hexdigest (msg : list Z) : string := hex (digest msg).

End MD5.

(** [s.encode()]: UTF-8, one byte below 128 and two bytes from there. *)
Fixpoint encode (s : string) : list Z :=
  match s with
  | EmptyString => []
  | String c r =>
      let n := Z.of_N (PyStr.code c) in
      if n <? 128 then n :: encode r
      else Z.lor 192 (Z.shiftr n 6) :: Z.lor 128 (Z.land n 63) :: encode r
  end.

(* ================================================================== *)
(** * Hashing ([moodle_api.py], [compute_hash]) *)

Definition compute_hash (data : json) : string :=
  let json_str := PyJson.dumps true data in
  MD5.hexdigest (encode json_str).

(* ================================================================== *)
(** * Exceptions, the environment and the effect monad *)

(** The subclasses of [requests.exceptions.RequestException] the transport
    raises. *)
Inductive request_error : Type :=
| ConnectionError | HTTPError | RetryError | JSONDecodeError | InvalidHeader.

(** The exceptions of the program; every one is an [Exception]. *)
Inductive exn : Type :=
| ValueError (msg : string)
| TypeError (msg : string)
| AttributeError (msg : string)
| KeyError (key : string)
| Exception_ (msg : string)
| RequestException (kind : request_error) (msg : string)
| DatabaseError (msg : string).

(** [str(e)] *)
Definition exn_str (e : exn) : string :=
  match e with
  | ValueError m | TypeError m | AttributeError m | Exception_ m
  | RequestException _ m | DatabaseError m => m
  | KeyError k => PyJson.repr_str k
  end.

Definition is_RequestException (e : exn) : bool :=
  match e with RequestException _ _ => true | _ => false end.

(** [requests]' [JSONDecodeError] and [InvalidHeader] are [ValueError]s
    too. *)
Definition is_ValueError (e : exn) : bool :=
  match e with
  | ValueError _ | RequestException JSONDecodeError _
  | RequestException InvalidHeader _ => true
  | _ => false
  end.

Definition is_KeyError (e : exn) : bool :=
  match e with KeyError _ => true | _ => false end.

Definition is_Exception (e : exn) : bool := true.

Inductive outcome (A : Type) : Type :=
| Return (a : A)
| Raise (e : exn).
Arguments Return {A} a.
Arguments Raise {A} e.

(** The form-encoded POST the client sends. *)
Record request : Type := mk_request {
  rq_url : string;
  rq_data : dict;
  rq_timeout : Z
}.

(** The header [Retry-After] of an answer: none, one that asks for a
    time - a number of seconds, or the seconds left until the date it
    gives - or one whose text [Retry.parse_retry_after] cannot read. *)
Inductive retry_after_header : Type :=
| NoRetryAfter
| RetryAfter (seconds : Q)
| InvalidRetryAfter (text : string).

(** What the remote service answers to one request on the wire: nothing (the
    connection failed or timed out), or a status line, its header
    [Retry-After], and a body, decoded when it is JSON. *)
Inductive reply : Type :=
| NoReply (reason : string)
| HttpReply (status : Z) (reason : string) (retry_after : retry_after_header)
    (body : option json).

Record response : Type := mk_response {
  status_code : Z;
  rs_reason : string;
  rs_url : string;
  rs_body : option json
}.

Inductive level : Type := INFO | WARNING | ERROR.

(** What the program does that an observer sees, in order. *)
Inductive event : Type :=
| Log (lv : level) (msg : string)
| Post (rq : request)
| Sleep (seconds : Q).

Record datetime : Type := mk_datetime {
  year : Z; month : Z; day : Z;
  hour : Z; minute : Z; second : Z; microsecond : Z
}.

(** A row of [moodle_raw]. *)
Record raw_row : Type := mk_row {
  row_instance : string;
  row_entity : string;
  row_moodle_id : option Z;
  row_data_json : string;
  row_ts_extract : string;
  row_hash_content : string
}.

Record world : Type := mk_world {
  (** the events so far, oldest first *)
  w_trace : list event;
  (** the remote service: its answer to the n-th request on the wire *)
  w_net : nat -> request -> reply;
  w_sent : nat;
  (** the clock: what the n-th reading returns *)
  w_clock : nat -> datetime;
  w_ticks : nat;
  (** XCom: values by task id and key, newest first *)
  w_xcom : list (string * string * json);
  (** the committed rows of [moodle_raw] *)
  w_db : list raw_row;
  (** the rows as the open transaction of the connection sees them *)
  w_db_txn : option (list raw_row);
  (** the failures of the database: the error of its n-th operation *)
  w_db_fault : nat -> option string;
  w_db_ops : nat;
  (** the value an [integer] column takes from a Python object, if any *)
  w_sql_integer : json -> option (option Z);
  (** the Airflow Variables *)
  w_variables : list (string * string)
}.

Definition M (A : Type) : Type := world -> outcome A * world.

Definition ret {A : Type} (a : A) : M A := fun w => (Return a, w).

Definition raise {A : Type} (e : exn) : M A := fun w => (Raise e, w).

Definition bind {A B : Type} (m : M A) (k : A -> M B) : M B :=
  fun w =>
    match m w with
    | (Return a, w') => k a w'
    | (Raise e, w') => (Raise e, w')
    end.

Declare Scope monad_scope.
Delimit Scope monad_scope with monad.
Notation "x <- m ;; k" := (bind m (fun x => k))
  (at level 61, m at next level, right associativity) : monad_scope.
Notation "m ;; k" := (bind m (fun _ => k))
  (at level 61, right associativity) : monad_scope.
Open Scope monad_scope.

(** [try: body  except E as e: handler e], for the exceptions [E] selects. *)
Definition try_except {A : Type} (body : M A) (E : exn -> bool)
  (handler : exn -> M A) : M A :=
  fun w =>
    match body w with
    | (Raise e, w') => if E e then handler e w' else (Raise e, w')
    | r => r
    end.

(** [try: body  finally: cleanup] *)
Definition try_finally {A : Type} (body : M A) (cleanup : M unit) : M A :=
  fun w =>
    match body w with
    | (r, w') =>
        match cleanup w' with
        | (Return _, w'') => (r, w'')
        | (Raise e, w'') => (Raise e, w'')
        end
    end.

(** [for x in l: acc = body x acc] *)
Fixpoint for_each {A S : Type} (l : list A) (body : A -> S -> M S) (acc : S)
  : M S :=
  match l with
  | [] => ret acc
  | x :: r => acc' <- body x acc ;; for_each r body acc'
  end.

Definition emit (e : event) : M unit :=
  fun w =>
    (Return tt,
     mk_world (w_trace w ++ [e]) (w_net w) (w_sent w) (w_clock w) (w_ticks w)
       (w_xcom w) (w_db w) (w_db_txn w) (w_db_fault w) (w_db_ops w)
       (w_sql_integer w) (w_variables w)).

(** [logger.info], [logger.warning], [logger.error] *)
Definition log (lv : level) (msg : string) : M unit := emit (Log lv msg).

(** [time.sleep]: a negative length is refused. *)
Definition sleep (seconds : Q) : M unit :=
  if Qle_bool 0 seconds then emit (Sleep seconds)
  else raise (ValueError "sleep length must be non-negative").

(* ------------------------------------------------------------------ *)
(** ** Operations on Python objects that can raise *)

Definition type_name (v : json) : string :=
  match v with
  | JNull => "NoneType"
  | JBool _ => "bool"
  | JInt _ => "int"
  | JFloat _ => "float"
  | JString _ => "str"
  | JList _ => "list"
  | JDict _ => "dict"
  end.

(** The items [for x in v] visits. *)
Definition py_iter (v : json) : M (list json) :=
  match v with
  | JList l => ret l
  | JDict d => ret (map (fun kv => JString (fst kv)) d)
  | JString s =>
      ret (map (fun c => JString (String c EmptyString)) (list_ascii_of_string s))
  | _ => raise (TypeError ("'" ++ type_name v ++ "' object is not iterable"))
  end.

(** [v.get(k)] *)
Definition py_get (v : json) (k : string) : M json :=
  match v with
  | JDict d => ret (dict_get_default d k JNull)
  | _ =>
      raise (AttributeError
               ("'" ++ type_name v ++ "' object has no attribute 'get'"))
  end.

(** [v[k] = x] for a [str] key; the result is the object after the
    assignment. *)
Definition py_setitem (v : json) (k : string) (x : json) : M json :=
  match v with
  | JDict d => ret (JDict (dict_set d k x))
  | JList _ =>
      raise (TypeError "list indices must be integers or slices, not str")
  | _ =>
      raise (TypeError
               ("'" ++ type_name v ++ "' object does not support item assignment"))
  end.

(** [len(v)] *)
Definition py_len (v : json) : M Z :=
  match v with
  | JList l => ret (Z.of_nat (List.length l))
  | JDict d => ret (Z.of_nat (List.length d))
  | JString s => ret (PyStr.len s)
  | _ => raise (TypeError ("object of type '" ++ type_name v ++ "' has no len()"))
  end.

(** [d[k]] on a [dict] *)
Definition dict_getitem (d : dict) (k : string) : M json :=
  match dict_get d k with
  | Some v => ret v
  | None => raise (KeyError k)
  end.

(* ------------------------------------------------------------------ *)
(** ** The HTTP session with its retry policy *)

(** [status_forcelist] of the [Retry] strategy of the session. *)
Definition status_forcelist : list Z := [429; 500; 502; 503; 504].

Definition in_forcelist (st : Z) : bool := existsb (Z.eqb st) status_forcelist.

(** Put one request on the wire and read the answer of the service. *)
Definition wire (rq : request) : M reply :=
  fun w =>
    (Return (w_net w (w_sent w) rq),
     mk_world (w_trace w ++ [Post rq]) (w_net w) (Datatypes.S (w_sent w))
       (w_clock w) (w_ticks w) (w_xcom w) (w_db w) (w_db_txn w)
       (w_db_fault w) (w_db_ops w) (w_sql_integer w) (w_variables w)).

(** [Retry.RETRY_AFTER_STATUS_CODES] *)
Definition RETRY_AFTER_STATUS_CODES : list Z := [413; 429; 503].

(** [Retry.DEFAULT_BACKOFF_MAX], and the [backoff_factor] of the strategy. *)
Definition DEFAULT_BACKOFF_MAX : Q := 120.

Definition backoff_factor : Q := 1.

(** [bool(response.headers.get("Retry-After"))] *)
Definition has_retry_after (h : retry_after_header) : bool :=
  match h with
  | NoRetryAfter => false
  | RetryAfter _ => true
  | InvalidRetryAfter text => PyStr.truthy text
  end.

(** [Retry.is_retry] for a POST, which is among the allowed methods, with
    [total] retries left: a status of the force list, or, while retries
    are left, a status of [RETRY_AFTER_STATUS_CODES] in an answer that has
    the header [Retry-After]. *)
Definition is_retry (total : nat) (st : Z) (has_retry_after : bool) : bool :=
  in_forcelist st
  || (negb (total =? 0)%nat
      && has_retry_after
      && existsb (Z.eqb st) RETRY_AFTER_STATUS_CODES).

(** [Retry.get_backoff_time] after [failures] consecutive failures. *)
Definition get_backoff_time (failures : nat) : Q :=
  if (failures <=? 1)%nat then 0%Q
  else
    let backoff_value :=
      (backoff_factor * inject_Z (2 ^ Z.of_nat (failures - 1)))%Q in
    if Qle_bool DEFAULT_BACKOFF_MAX backoff_value then DEFAULT_BACKOFF_MAX
    else backoff_value.

(** [Retry._sleep_backoff] *)
Definition _sleep_backoff (failures : nat) : M unit :=
  let backoff := get_backoff_time failures in
  if Qle_bool backoff 0 then ret tt else sleep backoff.

(** [Retry.sleep_for_retry]: the time the header [Retry-After] asks for
    is slept when there is some; a time that is past counts as none.  A
    header that cannot be read raises [InvalidHeader], which [requests]
    hands on as its own exception of that name. *)
Definition sleep_for_retry (retry_after : retry_after_header) : M bool :=
  match retry_after with
  | NoRetryAfter => ret false
  | RetryAfter seconds =>
      if Qle_bool seconds 0 then ret false else (sleep seconds ;; ret true)
  | InvalidRetryAfter text =>
      raise (RequestException InvalidHeader
               ("Invalid Retry-After header: " ++ text))
  end.

(** [Retry.sleep], before a request is tried again: [answer] is the
    [Retry-After] of the answer that is tried again, and [None] when it is
    a failed connection; [failures] counts the failures so far. *)
Definition retry_sleep (answer : option retry_after_header) (failures : nat)
  : M unit :=
  match answer with
  | Some retry_after =>
      slept <- sleep_for_retry retry_after ;;
      if slept then ret tt else _sleep_backoff failures
  | None => _sleep_backoff failures
  end.

(** [HTTPConnectionPool.urlopen] with
    [Retry(total=total, backoff_factor=1, status_forcelist=...,
    allowed_methods=GET, POST)], after [failures] failures: a failed
    connection, or an answer [is_retry] selects, is tried again after the
    pause of [Retry.sleep] while retries are left; out of retries the first
    raises [ConnectionError], the second [RetryError].  Any other answer
    is returned.  An exception of the pause ends the call.  The text of
    [RetryError] is the reason [urllib3] gives; what [requests] puts around
    it, the name of the connection pool and the URL, is left out. *)
Fixpoint urlopen (failures : nat) (total : nat) (rq : request) : M response :=
  r <- wire rq ;;
  match r with
  | NoReply reason =>
      match total with
      | O => raise (RequestException ConnectionError reason)
      | Datatypes.S k =>
          retry_sleep None (Datatypes.S failures) ;;
          urlopen (Datatypes.S failures) k rq
      end
  | HttpReply st reason retry_after body =>
      if is_retry total st (has_retry_after retry_after) then
        match total with
        | O =>
            raise (RequestException RetryError
                     ("too many " ++ PyStr.of_int st ++ " error responses"))
        | Datatypes.S k =>
            retry_sleep (Some retry_after) (Datatypes.S failures) ;;
            urlopen (Datatypes.S failures) k rq
        end
      else ret (mk_response st reason (rq_url rq) body)
  end.

(** [session.post] through the adapter mounted with that strategy: a
    timeout that is not positive is refused before anything is sent. *)
Definition session_post (retries : nat) (rq : request) : M response :=
  if rq_timeout rq <=? 0 then
    raise (ValueError
             ("Attempted to set connect timeout to " ++ PyStr.of_int (rq_timeout rq)
              ++ ", but the timeout cannot be set to a value less than or equal to 0."))
  else urlopen 0 retries rq.

(** [response.raise_for_status()] *)
Definition raise_for_status (r : response) : M unit :=
  let st := status_code r in
  if (400 <=? st) && (st <? 500) then
    raise (RequestException HTTPError
             (PyStr.of_int st ++ " Client Error: " ++ rs_reason r
              ++ " for url: " ++ rs_url r))
  else if (500 <=? st) && (st <? 600) then
    raise (RequestException HTTPError
             (PyStr.of_int st ++ " Server Error: " ++ rs_reason r
              ++ " for url: " ++ rs_url r))
  else ret tt.

(** [response.json()] *)
Definition response_json (r : response) : M json :=
  match rs_body r with
  | Some v => ret v
  | None =>
      raise (RequestException JSONDecodeError
               "Expecting value: line 1 column 1 (char 0)")
  end.

(* ================================================================== *)
(** * The API client ([moodle_api.py], class [MoodleAPIClient]) *)

Definition MIN_HTTPS_URL_LENGTH : Z := 12.

Module MoodleAPIClient.

Record client : Type := mk_client {
  base_url : string;
  token : string;
  rate_limit_delay : Q;
  timeout : Z;
  (** [total] of the retry strategy of the session *)
  max_retries : nat
}.

Definition _validate_url (url : string) : M string :=
  if negb (PyStr.truthy url) then raise (ValueError "Moodle URL cannot be empty")
  else
    let url := PyStr.strip url in
    if PyStr.startswith (PyStr.lower url) "http://" then
      raise (ValueError
               ("Insecure HTTP protocol detected. Please use HTTPS for Moodle URL: "
                ++ url ++ String "010" "Change 'http://' to 'https://'"))
    else
      url <- (if negb (PyStr.startswith (PyStr.lower url) "https://") then
                let url := "https://" ++ url in
                log INFO ("Added https:// protocol to URL: " ++ url) ;;
                ret url
              else ret url) ;;
      let url := PyStr.rstrip_char "/" url in
      if negb (PyStr.startswith url "https://")
         || (PyStr.len url <? MIN_HTTPS_URL_LENGTH)
      then raise (ValueError ("Invalid Moodle URL format: " ++ url))
      else ret url.

(** [__init__] *)
Definition new (base_url token : string) (rate_limit_delay : Q)
  (max_retries : nat) (timeout : Z) : M client :=
  url <- _validate_url base_url ;;
  ret (mk_client url token rate_limit_delay timeout max_retries).

(** [__init__] with the default [rate_limit_delay], [max_retries] and
    [timeout]. *)
Definition new_default (base_url token : string) : M client :=
  new base_url token 1%Q 3%nat 30.

Definition _call_api (self : client) (function : string)
  (params : option dict) : M json :=
  let url := base_url self ++ "/webservice/rest/server.php" in
  let payload : dict :=
    [("wstoken", JString (token self));
     ("wsfunction", JString function);
     ("moodlewsrestformat", JString "json")] in
  let payload :=
    match params with
    | Some (kv :: r) => dict_update payload (kv :: r)
    | _ => payload
    end in
  try_except
    (log INFO ("Calling Moodle API: " ++ function) ;;
     response <- session_post (max_retries self)
                   (mk_request url payload (timeout self)) ;;
     raise_for_status response ;;
     data <- response_json response ;;
     match data with
     | JDict d =>
         if dict_has d "exception" then
           raise (Exception_
                    ("Moodle API Error: "
                     ++ PyJson.py_str
                          (dict_get_default d "message" (JString "Unknown error"))))
         else ret tt
     | _ => ret tt
     end ;;
     sleep (rate_limit_delay self) ;;
     ret (match data with JList _ => data | _ => JList [data] end))
    is_RequestException
    (fun e =>
       log ERROR ("API call failed for " ++ function ++ ": " ++ exn_str e) ;;
       raise e).

(** The search criteria of [get_users], as form fields. *)
Fixpoint criteria_params (idx : Z) (criteria : list dict) (params : dict)
  : M dict :=
  match criteria with
  | [] => ret params
  | criterion :: r =>
      k <- dict_getitem criterion "key" ;;
      let params :=
        dict_set params ("criteria[" ++ PyStr.of_int idx ++ "][key]") k in
      v <- dict_getitem criterion "value" ;;
      let params :=
        dict_set params ("criteria[" ++ PyStr.of_int idx ++ "][value]") v in
      criteria_params (idx + 1) r params
  end.

(** [result.get(key, []) if isinstance(result, dict) else result] *)
Definition unwrap (key : string) (result : json) : json :=
  match result with
  | JDict d => dict_get_default d key (JList [])
  | _ => result
  end.

Definition get_users (self : client) (criteria : option (list dict)) : M json :=
  params <- match criteria with
            | Some (c :: r) => criteria_params 0 (c :: r) []
            | _ => ret []
            end ;;
  result <- _call_api self "core_user_get_users" (Some params) ;;
  ret (unwrap "users" result).

Definition get_courses (self : client) : M json :=
  _call_api self "core_course_get_courses" None.

Definition get_enrolled_users (self : client) (course_id : json) : M json :=
  let params := [("courseid", course_id)] in
  _call_api self "core_enrol_get_enrolled_users" (Some params).

Definition get_roles (self : client) : M json :=
  _call_api self "core_role_get_all_roles" None.

Definition get_enrolment_methods (self : client) (course_id : json) : M json :=
  let params := [("courseid", course_id)] in
  _call_api self "core_enrol_get_course_enrolment_methods" (Some params).

Definition get_course_grade_items (self : client) (course_id : json) : M json :=
  let params := [("courseid", course_id)] in
  result <- _call_api self "gradereport_user_get_grade_items" (Some params) ;;
  ret (unwrap "usergrades" result).

Definition get_grades (self : client) (course_id : json) (user_id : json)
  : M json :=
  let params := [("courseid", course_id)] in
  let params :=
    if py_truthy user_id then dict_set params "userid" user_id else params in
  result <- _call_api self "gradereport_user_get_grades_table" (Some params) ;;
  ret (unwrap "tables" result).

Definition get_course_completion (self : client) (course_id user_id : json)
  : M json :=
  let params := [("courseid", course_id); ("userid", user_id)] in
  result <- _call_api self "core_completion_get_course_completion_status"
              (Some params) ;;
  ret (match result with
       | JList (first :: _) => first
       | _ => result
       end).

End MoodleAPIClient.

(* ================================================================== *)
(** * Record preparation, schema validation and configuration
      ([moodle_api.py], module level) *)

Definition lift {A : Type} (o : outcome A) : M A := fun w => (o, w).

(** [datetime.utcnow()]: one reading of the clock. *)
Definition utcnow : M datetime :=
  fun w =>
    (Return (w_clock w (w_ticks w)),
     mk_world (w_trace w) (w_net w) (w_sent w) (w_clock w)
       (Datatypes.S (w_ticks w)) (w_xcom w) (w_db w) (w_db_txn w)
       (w_db_fault w) (w_db_ops w) (w_sql_integer w) (w_variables w)).

(** A number on at least [width] digits, zero-padded. *)
Definition zpad (width : nat) (z : Z) : string :=
  let t := PyStr.of_int z in
  string_of_list_ascii (repeat "0"%char (width - String.length t)) ++ t.

(** [datetime.isoformat()] of a naive datetime. *)
Definition isoformat (d : datetime) : string :=
  zpad 4 (year d) ++ "-" ++ zpad 2 (month d) ++ "-" ++ zpad 2 (day d)
  ++ "T" ++ zpad 2 (hour d) ++ ":" ++ zpad 2 (minute d) ++ ":"
  ++ zpad 2 (second d)
  ++ (if microsecond d =? 0 then "" else "." ++ zpad 6 (microsecond d)).

(** The dictionary [prepare_raw_record] returns, by key. *)
Record raw_record : Type := mk_record {
  rec_instance : string;
  rec_entity : string;
  rec_moodle_id : json;
  rec_data_json : string;
  rec_ts_extract : string;
  rec_hash_content : string
}.

Definition prepare_raw_record (instance entity : string) (moodle_id : json)
  (data : json) : M raw_record :=
  now <- utcnow ;;
  ret (mk_record instance entity moodle_id (PyJson.dumps false data)
         (isoformat now) (compute_hash data)).

Definition required_fields : list (string * list string) :=
  [("user", ["id"; "username"]);
   ("course", ["id"; "fullname"]);
   ("role", ["id"; "shortname"]);
   ("grade", ["userid"; "itemid"]);
   ("grade_item", ["id"; "itemname"]);
   ("completion", ["userid"; "completionstate"])].

Fixpoint lookup_fields (t : list (string * list string)) (entity : string)
  : option (list string) :=
  match t with
  | [] => None
  | (e, fs) :: r => if String.eqb e entity then Some fs else lookup_fields r entity
  end.

Fixpoint check_fields (data : dict) (entity : string) (fields : list string)
  : outcome bool :=
  match fields with
  | [] => Return true
  | field :: r =>
      if negb (dict_has data field) then
        Raise (ValueError ("Missing required field '" ++ field
                           ++ "' for entity '" ++ entity ++ "'"))
      else check_fields data entity r
  end.

Definition validate_json_schema (data : dict) (entity : string) : outcome bool :=
  match lookup_fields required_fields entity with
  | Some fields => check_fields data entity fields
  | None => Return true
  end.

(** One entry of the list [parse_moodle_config] returns, by key. *)
Record config : Type := mk_config {
  cfg_url : string;
  cfg_token : string;
  cfg_instance : string
}.

(** [[x.strip() for x in s.split(',') if x.strip()]] *)
Definition csv_fields (s : string) : list string :=
  map PyStr.strip
    (filter (fun x => PyStr.truthy (PyStr.strip x)) (PyStr.split "," s)).

(** The loop over [enumerate(zip(urls, tokens))]; [i] is the index. *)
Fixpoint build_configs (i : Z) (pairs : list (string * string))
  (configs : list config) : outcome (list config) :=
  match pairs with
  | [] => Return configs
  | (url, token) :: r =>
      if negb (PyStr.truthy url) || negb (PyStr.truthy token) then
        Raise (ValueError ("Empty URL or token at position " ++ PyStr.of_int (i + 1)))
      else
        build_configs (i + 1) r
          (configs ++ [mk_config url token ("moodle" ++ PyStr.of_int (i + 1))])
  end.

Definition parse_moodle_config (urls_str tokens_str : string)
  : outcome (list config) :=
  if negb (PyStr.truthy urls_str) || negb (PyStr.truthy tokens_str) then
    Raise (ValueError "Both URLs and tokens must be provided")
  else
    let urls := csv_fields urls_str in
    let tokens := csv_fields tokens_str in
    if negb (List.length urls =? List.length tokens)%nat then
      Raise (ValueError
               ("Number of URLs (" ++ PyStr.of_int (Z.of_nat (List.length urls))
                ++ ") must match number of tokens ("
                ++ PyStr.of_int (Z.of_nat (List.length tokens)) ++ "). "
                ++ "Ensure you have the same number of comma-separated URLs and tokens."))
    else
      match urls with
      | [] => Raise (ValueError "At least one Moodle URL and token must be provided")
      | _ => build_configs 0 (combine urls tokens) []
      end.

Definition get_moodle_instance_config (instance_id urls_str tokens_str : string)
  : outcome config :=
  match parse_moodle_config urls_str tokens_str with
  | Raise e => Raise e
  | Return configs =>
      match find (fun c => String.eqb (cfg_instance c) instance_id) configs with
      | Some c => Return c
      | None =>
          Raise (ValueError
                   ("Instance '" ++ instance_id ++ "' not found in configuration. "
                    ++ "Available instances: "
                    ++ PyJson.py_repr
                         (JList (map (fun c => JString (cfg_instance c)) configs))))
      end
  end.

(* ================================================================== *)
(** * The tasks of the DAG ([moodle4_dag.py]) *)

Definition MOODLE_INSTANCE : string := "moodle4".

(** [Variable.get(key)] *)
Definition Variable_get (key : string) : M string :=
  fun w =>
    match find (fun kv => String.eqb (fst kv) key) (w_variables w) with
    | Some kv => (Return (snd kv), w)
    | None => (Raise (KeyError ("Variable " ++ key ++ " does not exist")), w)
    end.

(** [ti.xcom_pull(task_ids=task, key=key)] *)
Definition xcom_pull (task key : string) : M json :=
  fun w =>
    match find (fun e => String.eqb (fst (fst e)) task
                         && String.eqb (snd (fst e)) key) (w_xcom w) with
    | Some e => (Return (snd e), w)
    | None => (Return JNull, w)
    end.

(** [ti.xcom_push(key=key, value=value)] from the task [task]. *)
Definition xcom_push (task key : string) (value : json) : M unit :=
  fun w =>
    (Return tt,
     mk_world (w_trace w) (w_net w) (w_sent w) (w_clock w) (w_ticks w)
       ((task, key, value) :: w_xcom w) (w_db w) (w_db_txn w) (w_db_fault w)
       (w_db_ops w) (w_sql_integer w) (w_variables w)).

Definition get_moodle_client : M MoodleAPIClient.client :=
  cfg <- try_except
           (base_url <- Variable_get (MOODLE_INSTANCE ++ "_url") ;;
            token <- Variable_get (MOODLE_INSTANCE ++ "_token") ;;
            log INFO ("Using individual variables for " ++ MOODLE_INSTANCE) ;;
            ret (base_url, token))
           is_KeyError
           (fun _ =>
              try_except
                (urls_str <- Variable_get "MOODLE_URLS" ;;
                 tokens_str <- Variable_get "MOODLE_TOKENS" ;;
                 config <- lift (get_moodle_instance_config MOODLE_INSTANCE
                                   urls_str tokens_str) ;;
                 log INFO ("Using comma-separated configuration for "
                           ++ MOODLE_INSTANCE) ;;
                 ret (cfg_url config, cfg_token config))
                is_KeyError
                (fun _ =>
                   raise (ValueError
                            ("Missing Moodle configuration for " ++ MOODLE_INSTANCE
                             ++ ". Please configure either:" ++ String "010"
                             ("1. Individual variables: " ++ MOODLE_INSTANCE
                              ++ "_url and " ++ MOODLE_INSTANCE ++ "_token"
                              ++ String "010"
                              "2. Comma-separated lists: MOODLE_URLS and MOODLE_TOKENS"))))) ;;
  MoodleAPIClient.new_default (fst cfg) (snd cfg).

(** The extraction of a whole list: [extract_users], [extract_courses],
    [extract_roles]. *)
Definition extract_list (what : string)
  (method : MoodleAPIClient.client -> M json) : M Z :=
  log INFO ("Extracting " ++ what ++ " from " ++ MOODLE_INSTANCE) ;;
  client <- get_moodle_client ;;
  items <- method client ;;
  n <- py_len items ;;
  log INFO ("Extracted " ++ PyStr.of_int n ++ " " ++ what) ;;
  xcom_push ("extract_" ++ what) what items ;;
  py_len items.

Definition extract_users : M Z :=
  extract_list "users" (fun c => MoodleAPIClient.get_users c None).

Definition extract_courses : M Z :=
  extract_list "courses" MoodleAPIClient.get_courses.

Definition extract_roles : M Z :=
  extract_list "roles" MoodleAPIClient.get_roles.

(** [for x in items: x['course_id'] = course_id], then the items. *)
Definition tag_items (items : json) (course_id : json) : M (list json) :=
  l <- py_iter items ;;
  for_each l
    (fun x tagged =>
       x' <- py_setitem x "course_id" course_id ;;
       ret (tagged ++ [x'])%list)
    [].

(** The body of the loop over the courses: the records of one course, added
    to those collected so far, unless its call or the tagging raises. *)
Definition per_course (what : string) (method : json -> M json)
  (course : json) (all : list json) : M (list json) :=
  course_id <- py_get course "id" ;;
  if py_truthy course_id then
    try_except
      (items <- method course_id ;;
       tagged <- tag_items items course_id ;;
       ret (all ++ tagged)%list)
      is_Exception
      (fun e =>
         log ERROR ("Failed to get " ++ what ++ " for course "
                    ++ PyJson.py_str course_id ++ ": " ++ exn_str e) ;;
         ret all)
  else ret all.

(** The extraction of the records of every course, one call per course:
    [extract_enrolments], [extract_enrolment_methods], [extract_grade_items],
    [extract_grades].  [what] is the name in the messages, [key] the XCom
    key and the suffix of the task id. *)
Definition extract_per_course (what key : string)
  (method : MoodleAPIClient.client -> json -> M json) : M Z :=
  log INFO ("Extracting " ++ what ++ " from " ++ MOODLE_INSTANCE) ;;
  client <- get_moodle_client ;;
  courses <- xcom_pull "extract_courses" "courses" ;;
  cs <- py_iter courses ;;
  all <- for_each cs (per_course what (method client)) [] ;;
  let n := Z.of_nat (List.length all) in
  log INFO ("Extracted " ++ PyStr.of_int n ++ " " ++ what) ;;
  xcom_push ("extract_" ++ key) key (JList all) ;;
  ret n.

Definition extract_enrolments : M Z :=
  extract_per_course "enrolments" "enrolments" MoodleAPIClient.get_enrolled_users.

Definition extract_enrolment_methods : M Z :=
  extract_per_course "enrolment methods" "enrolment_methods"
    MoodleAPIClient.get_enrolment_methods.

Definition extract_grade_items : M Z :=
  extract_per_course "grade items" "grade_items"
    MoodleAPIClient.get_course_grade_items.

Definition extract_grades : M Z :=
  extract_per_course "grades" "grades"
    (fun c course_id => MoodleAPIClient.get_grades c course_id JNull).

(** The body of the loop of [extract_completions] over the enrolments. *)
Definition per_enrolment (client : MoodleAPIClient.client) (enrolment : json)
  (all : list json) : M (list json) :=
  course_id <- py_get enrolment "course_id" ;;
  user_id <- py_get enrolment "id" ;;
  if py_truthy course_id && py_truthy user_id then
    try_except
      (completion <- MoodleAPIClient.get_course_completion client course_id user_id ;;
       completion <- py_setitem completion "course_id" course_id ;;
       completion <- py_setitem completion "userid" user_id ;;
       ret (all ++ [completion])%list)
      is_Exception
      (fun e =>
         log WARNING ("Failed to get completion for course "
                      ++ PyJson.py_str course_id ++ ", user "
                      ++ PyJson.py_str user_id ++ ": " ++ exn_str e) ;;
         ret all)
  else ret all.

Definition extract_completions : M Z :=
  log INFO ("Extracting completions from " ++ MOODLE_INSTANCE) ;;
  client <- get_moodle_client ;;
  enrolments <- xcom_pull "extract_enrolments" "enrolments" ;;
  es <- py_iter enrolments ;;
  all <- for_each es (per_enrolment client) [] ;;
  let n := Z.of_nat (List.length all) in
  log INFO ("Extracted " ++ PyStr.of_int n ++ " completions") ;;
  xcom_push "extract_completions" "completions" (JList all) ;;
  ret n.

(* ------------------------------------------------------------------ *)
(** ** The raw table and the load task *)

Definition set_db (committed : list raw_row) (txn : option (list raw_row))
  (ops : nat) (w : world) : world :=
  mk_world (w_trace w) (w_net w) (w_sent w) (w_clock w) (w_ticks w) (w_xcom w)
    committed txn (w_db_fault w) ops (w_sql_integer w) (w_variables w).

(** One operation on the connection: it fails when the database says so. *)
Definition db_op : M unit :=
  fun w =>
    let w' := set_db (w_db w) (w_db_txn w) (Datatypes.S (w_db_ops w)) w in
    match w_db_fault w (w_db_ops w) with
    | Some msg => (Raise (DatabaseError msg), w')
    | None => (Return tt, w')
    end.

(** Equality of two values of an [integer] column as a unique index sees
    it: an absent value is SQL [NULL], which is equal to nothing, not even
    to another [NULL]. *)
Definition sql_integer_eqb (a b : option Z) : bool :=
  match a, b with
  | Some x, Some y => x =? y
  | _, _ => false
  end.

(** Modelled from the spec: the table [moodle_raw] is declared in
    [sql/01_create_raw.sql], which is not among the sources.  The key of a
    row is [(instance, entity, moodle_id, ts_extract)], and two rows
    conflict when the four fields are equal as the unique index compares
    them: a row without [moodle_id] conflicts with no row. *)
Definition conflicts (a b : raw_row) : bool :=
  String.eqb (row_instance a) (row_instance b)
  && String.eqb (row_entity a) (row_entity b)
  && sql_integer_eqb (row_moodle_id a) (row_moodle_id b)
  && String.eqb (row_ts_extract a) (row_ts_extract b).

(** Modelled from the spec: [INSERT ... ON CONFLICT (instance, entity,
    moodle_id, ts_extract) DO NOTHING] on a table: a row that conflicts with
    a row of the table is dropped, any other goes last. *)
Definition insert_on_conflict_do_nothing (table : list raw_row) (r : raw_row)
  : list raw_row :=
  if existsb (conflicts r) table then table else (table ++ [r])%list.

(** The rows the connection sees: those of its open transaction, or the
    committed ones. *)
Definition db_view (w : world) : list raw_row :=
  match w_db_txn w with Some v => v | None => w_db w end.

(** [hook.get_conn()] *)
Definition get_conn : M unit := db_op.

(** [cursor.execute(insert_sql, record fields)] *)
Definition execute_insert (r : raw_record) : M unit :=
  db_op ;;
  fun w =>
    match w_sql_integer w (rec_moodle_id r) with
    | None =>
        (Raise (DatabaseError "invalid value for integer column moodle_id"), w)
    | Some mid =>
        let row := mk_row (rec_instance r) (rec_entity r) mid (rec_data_json r)
                     (rec_ts_extract r) (rec_hash_content r) in
        (Return tt,
         set_db (w_db w) (Some (insert_on_conflict_do_nothing (db_view w) row))
           (w_db_ops w) w)
    end.

(** [conn.commit()] *)
Definition commit : M unit :=
  db_op ;;
  fun w => (Return tt, set_db (db_view w) None (w_db_ops w) w).

(** [conn.rollback()] *)
Definition rollback : M unit :=
  fun w => (Return tt, set_db (w_db w) None (w_db_ops w) w).

(** [cursor.close(); conn.close()]: what was not committed is lost. *)
Definition close : M unit :=
  fun w => (Return tt, set_db (w_db w) None (w_db_ops w) w).

(** [entity.rstrip('s')] *)
Definition singular (entity : string) : string := PyStr.rstrip_char "s" entity.

(** The body of the loop of [load_raw_data] that prepares the records. *)
Definition prepare_item (entity : string) (item : json)
  (records : list raw_record) : M (list raw_record) :=
  id <- py_get item "id" ;;
  moodle_id <- (if py_truthy id then ret id else py_get item "course_id") ;;
  try_except
    (match item with
     | JDict d => lift (validate_json_schema d (singular entity)) ;; ret tt
     | _ => ret tt
     end)
    is_ValueError
    (fun e => log WARNING ("Schema validation failed: " ++ exn_str e)) ;;
  record <- prepare_raw_record MOODLE_INSTANCE (singular entity) moodle_id item ;;
  ret (records ++ [record])%list.

(** The part of [load_raw_data] from [hook.get_conn()] on: the bulk insert
    of the prepared records. *)
Definition bulk_insert (entity : string) (records : list raw_record) : M Z :=
  get_conn ;;
  try_finally
    (try_except
       (for_each records (fun record _ => execute_insert record) tt ;;
        commit ;;
        log INFO ("Loaded " ++ PyStr.of_int (Z.of_nat (List.length records))
                  ++ " " ++ entity ++ " records to moodle_raw"))
       is_Exception
       (fun e =>
          rollback ;;
          log ERROR ("Failed to load " ++ entity ++ " data: " ++ exn_str e) ;;
          raise e))
    close ;;
  ret (Z.of_nat (List.length records)).

Definition load_raw_data (entity : string) : M Z :=
  log INFO ("Loading " ++ entity ++ " data to moodle_raw") ;;
  data <- xcom_pull ("extract_" ++ entity) entity ;;
  if negb (py_truthy data) then
    log WARNING ("No " ++ entity ++ " data to load") ;;
    ret 0
  else
    items <- py_iter data ;;
    records <- for_each items (prepare_item entity) [] ;;
    bulk_insert entity records.

(* ------------------------------------------------------------------ *)
(** ** Auxiliary definitions of the statements *)

(** The configurations of the pairs of a list, the first one numbered
    [i + 1]. *)
Fixpoint numbered_configs (i : Z) (pairs : list (string * string)) : list config :=
  match pairs with
  | [] => []
  | (url, token) :: r =>
      mk_config url token ("moodle" ++ PyStr.of_int (i + 1))
      :: numbered_configs (i + 1) r
  end.





(** The events of [w'] that [w] does not have yet are [es]. *)
Definition events_since (w w' : world) (es : list event) : Prop :=
  w_trace w' = (w_trace w ++ es)%list.

(** The request [_call_api] sends. *)
Definition api_request (self : MoodleAPIClient.client) (function : string)
  (params : option dict) : request :=
  mk_request (MoodleAPIClient.base_url self ++ "/webservice/rest/server.php")
    (match params with
     | Some (kv :: r) =>
         dict_update
           [("wstoken", JString (MoodleAPIClient.token self));
            ("wsfunction", JString function);
            ("moodlewsrestformat", JString "json")] (kv :: r)
     | _ =>
         [("wstoken", JString (MoodleAPIClient.token self));
          ("wsfunction", JString function);
          ("moodlewsrestformat", JString "json")]
     end)
    (MoodleAPIClient.timeout self).

(** The remote service, XCom and the Variables are those of [w]. *)
Definition frame (w w' : world) : Prop :=
  w_net w' = w_net w /\ w_xcom w' = w_xcom w /\ w_variables w' = w_variables w.

(** A computation that leaves the remote service, XCom and the Variables
    as they are. *)
Definition framed {A : Type} (m : M A) : Prop :=
  forall w o w', m w = (o, w') -> frame w w'.

Definition is_dict (v : json) : bool :=
  match v with JDict _ => true | _ => false end.

(** [course.get('id')] of a course that is a mapping. *)
Definition course_id_of (course : json) : json :=
  match course with
  | JDict d => dict_get_default d "id" JNull
  | _ => JNull
  end.

(** A record with the identifier of its course. *)
Definition tag_course (course_id : json) (item : dict) : json :=
  JDict (dict_set item "course_id" course_id).

(** The mappings of a list that holds nothing else. *)
Fixpoint dicts_of (l : list json) : option (list dict) :=
  match l with
  | [] => Some []
  | JDict d :: r => option_map (cons d) (dicts_of r)
  | _ => None
  end.

(** The mappings of a value that is a list of mappings. *)
Definition mappings_of (v : json) : option (list dict) :=
  match v with
  | JList l => dicts_of l
  | _ => None
  end.

(** What a fan-out extraction gathers from a list, and the environment it
    leaves, when [step] says what each item contributes in the environment
    the items before it have left: the contributions, in the order of the
    items. *)
Fixpoint gather (step : json -> world -> list json * world) (l : list json)
  (w : world) : list json * world :=
  match l with
  | [] => ([], w)
  | x :: r =>
      ((fst (step x w) ++ fst (gather step r (snd (step x w))))%list,
       snd (gather step r (snd (step x w))))
  end.

(** What a course contributes to a fan-out extraction whose call for the
    course is [m], in the environment [w], and the environment it leaves.
    A course without an identifier contributes nothing, and no call is
    made.  When the call returns a list of mappings, the course contributes
    them all, each with the identifier of the course under [course_id].
    When the call raises, the course contributes nothing, and the failure
    is logged at ERROR.  When the call returns anything else, the course
    contributes nothing either: the tagging of what was returned raises,
    which is logged in the same way, unless there is nothing to tag. *)
Definition course_step (what : string) (m : json -> M json) (course : json)
  (w : world) : list json * world :=
  let course_id := course_id_of course in
  let logged e w1 :=
    snd (log ERROR ("Failed to get " ++ what ++ " for course "
                    ++ PyJson.py_str course_id ++ ": " ++ exn_str e) w1) in
  if py_truthy course_id then
    match m course_id w with
    | (Return items, w1) =>
        match mappings_of items with
        | Some ds => (map (tag_course course_id) ds, w1)
        | None =>
            ([], match fst (tag_items items course_id w1) with
                 | Raise e => logged e w1
                 | Return _ => w1
                 end)
        end
    | (Raise e, w1) => ([], logged e w1)
    end
  else ([], w).

(** What an enrolment contributes to the extraction of the completions
    whose call for a course and a user is [m], in the environment [w], and
    the environment it leaves.  An enrolment without the identifier of its
    course or of its user contributes nothing, and no call is made.  When
    the call returns a mapping, the enrolment contributes it, with the
    course under [course_id] and the user under [userid].  When the call
    raises, the enrolment contributes nothing, and the failure is logged at
    WARNING.  When the call returns anything else, the enrolment
    contributes nothing either: writing into what was returned raises,
    which is logged in the same way. *)
Definition enrolment_step (m : json -> json -> M json) (enrolment : json)
  (w : world) : list json * world :=
  match enrolment with
  | JDict e =>
      let course_id := dict_get_default e "course_id" JNull in
      let user_id := dict_get_default e "id" JNull in
      let logged e w1 :=
        snd (log WARNING ("Failed to get completion for course "
                          ++ PyJson.py_str course_id ++ ", user "
                          ++ PyJson.py_str user_id ++ ": " ++ exn_str e) w1) in
      if py_truthy course_id && py_truthy user_id then
        match m course_id user_id w with
        | (Return (JDict d), w1) =>
            ([JDict (dict_set (dict_set d "course_id" course_id)
                       "userid" user_id)], w1)
        | (Return completion, w1) =>
            ([], match fst (py_setitem completion "course_id" course_id w1) with
                 | Raise e => logged e w1
                 | Return _ => w1
                 end)
        | (Raise e, w1) => ([], logged e w1)
        end
      else ([], w)
  | _ => ([], w)
  end.

(** The row the database makes of a record. *)
Definition row_of (w : world) (r : raw_record) : raw_row :=
  mk_row (rec_instance r) (rec_entity r)
    (match w_sql_integer w (rec_moodle_id r) with
     | Some mid => mid
     | None => None
     end)
    (rec_data_json r) (rec_ts_extract r) (rec_hash_content r).

(** The insert of the record at position [i] of a batch fails: the
    database fails at that operation - the connection being operation 0 of
    the batch - or refuses the identifier of the record. *)
Definition insert_fails (w : world) (i : nat) (r : raw_record) : bool :=
  match w_db_fault w (w_db_ops w + 1 + i)%nat with
  | Some _ => true
  | None =>
      match w_sql_integer w (rec_moodle_id r) with
      | Some _ => false
      | None => true
      end
  end.

(** The table after the inserts of a batch from operation [ops] on, when
    none of them fails. *)
Fixpoint insert_all (fault : nat -> option string)
  (adapt : json -> option (option Z)) (ops : nat) (view : list raw_row)
  (records : list raw_record) : option (list raw_row) :=
  match records with
  | [] => Some view
  | r :: rest =>
      match fault ops, adapt (rec_moodle_id r) with
      | None, Some mid =>
          insert_all fault adapt (Datatypes.S ops)
            (insert_on_conflict_do_nothing view
               (mk_row (rec_instance r) (rec_entity r) mid (rec_data_json r)
                  (rec_ts_extract r) (rec_hash_content r)))
            rest
      | _, _ => None
      end
  end.

(** The four key fields of two rows are the same, an absent [moodle_id]
    being the same as an absent one: what a reader of the table sees. *)
Definition key_eqb (a b : raw_row) : bool :=
  String.eqb (row_instance a) (row_instance b)
  && String.eqb (row_entity a) (row_entity b)
  && match row_moodle_id a, row_moodle_id b with
     | Some x, Some y => x =? y
     | None, None => true
     | _, _ => false
     end
  && String.eqb (row_ts_extract a) (row_ts_extract b).

(** The number of rows of a table with the key fields of [r]. *)
Definition count_key (r : raw_row) (table : list raw_row) : nat :=
  List.length (filter (key_eqb r) table).

(** No two rows of the table conflict: the unique index of the key
    holds. *)
Fixpoint unique_keys (table : list raw_row) : bool :=
  match table with
  | [] => true
  | r :: rest => negb (existsb (conflicts r) rest) && unique_keys rest
  end.

(** What the database is, apart from its rows: its failures and the values
    it takes. *)
Definition same_database (w w' : world) : Prop :=
  w_db_fault w' = w_db_fault w /\ w_sql_integer w' = w_sql_integer w.

(** A lower-case hexadecimal digit. *)
Definition is_hex (c : ascii) : bool :=
  let n := PyStr.code c in
  ((48 <=? n) && (n <=? 57) || (97 <=? n) && (n <=? 102))%N.

Fixpoint all_chars (p : ascii -> bool) (s : string) : bool :=
  match s with
  | EmptyString => true
  | String c r => p c && all_chars p r
  end.




(** What an extraction task leaves in XCom: when it returns, one more
    entry, under the task id [extract_] followed by the key and under the
    key, with a list whose length the task returns; when it raises,
    nothing. *)
Definition pushes_list (task : M Z) (key : string) (w : world) : Prop :=
  match fst (task w) with
  | Return n =>
      exists l,
        n = Z.of_nat (List.length l)
        /\ w_xcom (snd (task w)) = ("extract_" ++ key, key, JList l) :: w_xcom w
  | Raise _ => w_xcom (snd (task w)) = w_xcom w
  end.

(** [item.get('id') or item.get('course_id')] of a mapping. *)
Definition moodle_id_of (d : dict) : json :=
  py_or (dict_get_default d "id" JNull) (dict_get_default d "course_id" JNull).

(** The record the load task prepares for a mapping at the time [now]. *)
Definition record_of (entity : string) (now : datetime) (d : dict) : raw_record :=
  mk_record MOODLE_INSTANCE (singular entity) (moodle_id_of d)
    (PyJson.dumps false (JDict d)) (isoformat now) (compute_hash (JDict d)).

(** The records of a list of mappings, each at the next reading of the
    clock, from the reading [tick] on. *)
Fixpoint records_of (entity : string) (clock : nat -> datetime) (tick : nat)
  (ds : list dict) : list raw_record :=
  match ds with
  | [] => []
  | d :: r =>
      record_of entity (clock tick) d
      :: records_of entity clock (Datatypes.S tick) r
  end.

(** A computation that leaves XCom and the clock as they are. *)
Definition keeps_clock {A : Type} (m : M A) : Prop :=
  forall w o w',
    m w = (o, w') ->
    w_xcom w' = w_xcom w /\ w_clock w' = w_clock w /\ w_ticks w' = w_ticks w.

(* ------------------------------------------------------------------ *)
(** ** A sample environment *)

(** The value of an [integer] column from [None] and from an [int] of four
    bytes; any other object is refused. *)
Definition sql_integer_of_int (v : json) : option (option Z) :=
  match v with
  | JNull => Some None
  | JInt z =>
      if (z >=? -2147483648) && (z <=? 2147483647) then Some (Some z) else None
  | _ => None
  end.

Definition epoch : datetime := mk_datetime 2024 1 1 0 0 0 0.

(** An environment with nothing in it: no service answers, the clock stands
    still, XCom and the table are empty, the database never fails. *)
Definition quiet_world : world :=
  mk_world [] (fun _ _ => NoReply "connection refused") 0 (fun _ => epoch) 0
    [] [] None (fun _ => None) 0 sql_integer_of_int [].

(** The same environment with a remote service. *)
Definition world_with (net : nat -> request -> reply) : world :=
  mk_world [] net 0 (fun _ => epoch) 0 [] [] None (fun _ => None) 0
    sql_integer_of_int [].

Definition sample_client : MoodleAPIClient.client :=
  MoodleAPIClient.mk_client "https://moodle.example.com" "token123" 1%Q 30 3.



(** A service that answers every request with HTTP 200 and one user, in an
    object under the key [users]. *)
Definition users_service (n : nat) (rq : request) : reply :=
  HttpReply 200 "OK" NoRetryAfter
    (Some (JDict [("users",
                   JList [JDict [("id", JInt 1);
                                 ("username", JString "testuser")]])])).

(** A service with the enrolled users of the courses: it answers the
    request for course 2, and a request without the number of a course,
    with an application error, and the request for any other course with
    one user whose identifier is ten times the course's. *)
Definition three_courses_service (n : nat) (rq : request) : reply :=
  match dict_get (rq_data rq) "courseid" with
  | Some (JInt z) =>
      if z =? 2 then
        HttpReply 200 "OK" NoRetryAfter
          (Some (JDict [("exception", JString "moodle_exception");
                        ("message", JString "Course not found")]))
      else
        HttpReply 200 "OK" NoRetryAfter
          (Some (JList [JDict [("id", JInt (10 * z))]]))
  | _ =>
      HttpReply 200 "OK" NoRetryAfter
        (Some (JDict [("exception", JString "invalid_parameter_exception");
                      ("message", JString "Invalid parameter value detected")]))
  end.

(** An environment with that service, the Variables of the instance, and
    the three courses in XCom. *)
Definition three_courses_world : world :=
  mk_world [] three_courses_service 0 (fun _ => epoch) 0
    [("extract_courses", "courses",
      JList [JDict [("id", JInt 1)]; JDict [("id", JInt 2)]; JDict [("id", JInt 3)]])]
    [] None (fun _ => None) 0 sql_integer_of_int
    [("moodle4_url", "https://moodle.example.com"); ("moodle4_token", "token123")].

Definition sample_record (id : Z) : raw_record :=
  mk_record "moodle4" "user" (JInt id)
    (PyJson.dumps false (JDict [("id", JInt id)]))
    "2024-01-01T00:00:00" (compute_hash (JDict [("id", JInt id)])).

(** A record of a grade that has no identifier, as [load_raw_data] prepares
    it of an item with neither [id] nor [course_id]. *)
Definition unidentified_record : raw_record :=
  mk_record "moodle4" "grade" JNull
    (PyJson.dumps false (JDict [("courseid", JInt 1)]))
    "2024-01-01T00:00:00" (compute_hash (JDict [("courseid", JInt 1)])).

(** An environment whose table has the row of user 7 and whose database
    fails at its operation 2: the second insert of a batch. *)
Definition faulty_world : world :=
  mk_world [] (fun _ _ => NoReply "connection refused") 0 (fun _ => epoch) 0 []
    [mk_row "moodle4" "user" (Some 7) "{}" "2023-12-31T00:00:00" ""]
    None
    (fun n => if (n =? 2)%nat then Some "server closed the connection" else None)
    0 sql_integer_of_int [].

(** Two payloads with the same content, their keys in different orders at
    both levels. *)
Definition payload_a : json :=
  JDict [("id", JInt 1); ("name", JString "test");
         ("meta", JDict [("tags", JList [JString "t1"; JString "t2"]);
                         ("created", JString "2024-01-01")])].

Definition payload_b : json :=
  JDict [("meta", JDict [("created", JString "2024-01-01");
                         ("tags", JList [JString "t1"; JString "t2"])]);
         ("name", JString "test"); ("id", JInt 1)].

(** An environment configured with the comma-separated lists only, for
    four instances. *)
Definition lists_world : world :=
  mk_world [] (fun _ _ => NoReply "connection refused") 0 (fun _ => epoch) 0
    [] [] None (fun _ => None) 0 sql_integer_of_int
    [("MOODLE_URLS",
      "https://m1.example.com,https://m2.example.com,https://m3.example.com,https://m4.example.com");
     ("MOODLE_TOKENS", "t1,t2,t3,t4")].


(** An environment with one user in XCom, as [extract_users] leaves it. *)
Definition one_user_world : world :=
  mk_world [] (fun _ _ => NoReply "connection refused") 0 (fun _ => epoch) 0
    [("extract_users", "users",
      JList [JDict [("id", JInt 7); ("username", JString "ana")]])]
    [] None (fun _ => None) 0 sql_integer_of_int [].

(** The same environment with a clock that moves on by a second at every
    reading. *)
Definition ticking_world : world :=
  mk_world [] (fun _ _ => NoReply "connection refused") 0
    (fun n => mk_datetime 2024 1 1 0 0 (Z.of_nat n) 0) 0
    [("extract_users", "users",
      JList [JDict [("id", JInt 7); ("username", JString "ana")]])]
    [] None (fun _ => None) 0 sql_integer_of_int [].

(** A service with the completion of the courses: it answers a request for
    the user 30 with an application error, and any other request with a
    completion status. *)
Definition completions_service (n : nat) (rq : request) : reply :=
  match dict_get (rq_data rq) "userid" with
  | Some (JInt z) =>
      if z =? 30 then
        HttpReply 200 "OK" NoRetryAfter
          (Some (JDict [("exception", JString "moodle_exception");
                        ("message", JString "No permission")]))
      else
        HttpReply 200 "OK" NoRetryAfter
          (Some (JDict [("completed", JBool true)]))
  | _ =>
      HttpReply 200 "OK" NoRetryAfter (Some (JDict [("completed", JBool true)]))
  end.

(** An environment with that service, the Variables of the instance, and
    three enrolments in XCom, the last without a course. *)
Definition completions_world : world :=
  mk_world [] completions_service 0 (fun _ => epoch) 0
    [("extract_enrolments", "enrolments",
      JList [JDict [("id", JInt 10); ("course_id", JInt 1)];
             JDict [("id", JInt 30); ("course_id", JInt 3)];
             JDict [("id", JInt 7)]])]
    [] None (fun _ => None) 0 sql_integer_of_int
    [("moodle4_url", "https://moodle.example.com"); ("moodle4_token", "token123")].

(* ================================================================== *)
(** * Properties *)

Ltac mstep :=
  unfold bind, ret, raise, lift, log, sleep, emit, try_except in *; simpl in *.

(* ------------------------------------------------------------------ *)
(** ** The URL validator *)

Section UrlValidator.

Import MoodleAPIClient.

Lemma rstrip_by_cons (p : ascii -> bool) (c : ascii) (r : string) :
  PyStr.rstrip_by p (String c r)
  = match PyStr.rstrip_by p r with
    | EmptyString => if p c then EmptyString else String c EmptyString
    | r' => String c r'
    end.
Proof. reflexivity. Qed.

Lemma rstrip_by_idem (p : ascii -> bool) (s : string) :
  PyStr.rstrip_by p (PyStr.rstrip_by p s) = PyStr.rstrip_by p s.
Proof.
  induction s as [|c r IH]; [reflexivity|].
  rewrite rstrip_by_cons.
  destruct (PyStr.rstrip_by p r) as [|c' r'] eqn:E.
  - destruct (p c) eqn:Pc; [reflexivity|].
    rewrite rstrip_by_cons. simpl. now rewrite Pc.
  - rewrite rstrip_by_cons, IH. reflexivity.
Qed.

Lemma startswith_https_inv (s : string) :
  PyStr.startswith s "https://" = true -> exists r, s = "https://" ++ r.
Proof.
  unfold PyStr.startswith. intros H.
  do 8 (destruct s as [|? s]; [discriminate H|];
        simpl in H;
        match type of H with
        | (if ?d then _ else _) = true => destruct d; [subst|discriminate H]
        end).
  now exists s.
Qed.

Lemma https_not_http (r : string) :
  PyStr.startswith (PyStr.lower ("https://" ++ r)) "http://" = false.
Proof. reflexivity. Qed.

Lemma https_lower_https (r : string) :
  PyStr.startswith (PyStr.lower ("https://" ++ r)) "https://" = true.
Proof. unfold PyStr.startswith. simpl. now destruct (PyStr.lower r). Qed.

(** What an accepted URL looks like. *)
Lemma validate_url_accepted (u v : string) (w w1 : world) :
  _validate_url u w = (Return v, w1) ->
  PyStr.rstrip_char "/" v = v
  /\ PyStr.startswith v "https://" = true
  /\ (PyStr.len v <? MIN_HTTPS_URL_LENGTH) = false.
Proof.
  unfold _validate_url.
  destruct (negb (PyStr.truthy u)); [discriminate|].
  destruct (PyStr.startswith (PyStr.lower (PyStr.strip u)) "http://");
    [discriminate|].
  set (x := PyStr.strip u).
  destruct (negb (PyStr.startswith (PyStr.lower x) "https://")); mstep.
  - destruct (negb (PyStr.startswith (PyStr.rstrip_char "/" (String "h" (String "t" (String "t" (String "p" (String "s" (String ":" (String "/" (String "/" x))))))))) "https://")
              || (PyStr.len (PyStr.rstrip_char "/" (String "h" (String "t" (String "t" (String "p" (String "s" (String ":" (String "/" (String "/" x))))))))) <? MIN_HTTPS_URL_LENGTH)) eqn:E;
      [discriminate|].
    intros H; inversion H; subst; clear H.
    apply orb_false_iff in E. destruct E as [E1 E2].
    apply negb_false_iff in E1.
    repeat split; auto. apply rstrip_by_idem.
  - destruct (negb (PyStr.startswith (PyStr.rstrip_char "/" x) "https://")
              || (PyStr.len (PyStr.rstrip_char "/" x) <? MIN_HTTPS_URL_LENGTH)) eqn:E;
      [discriminate|].
    intros H; inversion H; subst; clear H.
    apply orb_false_iff in E. destruct E as [E1 E2].
    apply negb_false_iff in E1.
    repeat split; auto. apply rstrip_by_idem.
Qed.

Example validate_url_adds_scheme :
  _validate_url "x.com" quiet_world
  = (Return "https://x.com",
     snd (log INFO "Added https:// protocol to URL: https://x.com" quiet_world)).
Proof. reflexivity. Qed.

Example validate_url_rejects_http :
  exists msg, _validate_url "http://x.com" quiet_world
              = (Raise (ValueError msg), quiet_world).
Proof. eexists. reflexivity. Qed.

Example validate_url_strips_slash :
  _validate_url "https://x.com/" quiet_world = (Return "https://x.com", quiet_world).
Proof. reflexivity. Qed.

Example validate_url_too_short :
  _validate_url "https://a" quiet_world
  = (Raise (ValueError "Invalid Moodle URL format: https://a"), quiet_world).
Proof. reflexivity. Qed.

(** C10, as stated, fails: the URL ["https://a.b /"] is accepted and comes
    out as ["https://a.b "], with the blank the slash hid at its end; that
    result is refused when validated again, being one character short once
    the blank is stripped. *)
Lemma validate_url_not_idempotent :
  _validate_url "https://a.b /" quiet_world
  = (Return "https://a.b ", quiet_world)
  /\ _validate_url "https://a.b " quiet_world
     = (Raise (ValueError "Invalid Moodle URL format: https://a.b"), quiet_world).
Proof. split; reflexivity. Qed.

(** C10, amended: an accepted URL that has no blank at its end (stripping it
    changes nothing) is accepted again and returned unchanged, with no
    further effect. *)
Theorem validate_url_idempotent_stripped (u v : string) (w w1 : world) :
  _validate_url u w = (Return v, w1) ->
  PyStr.strip v = v ->
  _validate_url v w1 = (Return v, w1).
Proof.
  intros Hok Hstrip.
  destruct (validate_url_accepted _ _ _ _ Hok) as (Hslash & Hhttps & Hlen).
  destruct (startswith_https_inv _ Hhttps) as [r Hr].
  unfold _validate_url.
  replace (PyStr.truthy v) with true by (rewrite Hr; reflexivity).
  simpl negb. cbv iota.
  rewrite Hstrip.
  replace (PyStr.startswith (PyStr.lower v) "http://") with false
    by (rewrite Hr; symmetry; apply https_not_http).
  replace (PyStr.startswith (PyStr.lower v) "https://") with true
    by (rewrite Hr; symmetry; apply https_lower_https).
  simpl negb. cbv iota.
  unfold bind, ret. cbn [negb]. cbv beta iota.
  rewrite Hslash, Hhttps, Hlen. reflexivity.
Qed.

Lemma validate_url_idempotent_stripped_witness :
  _validate_url "https://x.com" quiet_world = (Return "https://x.com", quiet_world).
Proof.
  apply (validate_url_idempotent_stripped "https://x.com/" "https://x.com"
           quiet_world quiet_world); reflexivity.
Defined.

End UrlValidator.

(* ------------------------------------------------------------------ *)
(** ** The configuration parser *)

Section ConfigParser.

Lemma csv_fields_truthy (s : string) :
  Forall (fun x => PyStr.truthy x = true) (csv_fields s).
Proof.
  unfold csv_fields. apply Forall_forall. intros x Hx.
  apply in_map_iff in Hx. destruct Hx as (y & <- & Hy).
  apply filter_In in Hy. tauto.
Qed.

Lemma build_configs_ok (pairs : list (string * string)) :
  Forall (fun p => PyStr.truthy (fst p) = true /\ PyStr.truthy (snd p) = true) pairs ->
  forall i acc,
    build_configs i pairs acc = Return (acc ++ numbered_configs i pairs)%list.
Proof.
  induction 1 as [|[u t] r [Hu Ht] _ IH]; intros i acc; simpl.
  - now rewrite app_nil_r.
  - simpl in Hu, Ht. rewrite Hu, Ht. simpl.
    rewrite IH, <- app_assoc. reflexivity.
Qed.

Lemma numbered_configs_length (pairs : list (string * string)) (i : Z) :
  List.length (numbered_configs i pairs) = List.length pairs.
Proof.
  revert i; induction pairs as [|[u t] r IH]; intros i; simpl; auto.
Qed.

Lemma numbered_configs_nth (pairs : list (string * string)) :
  forall (i : Z) (k : nat) (u t : string),
    nth_error pairs k = Some (u, t) ->
    nth_error (numbered_configs i pairs) k
    = Some (mk_config u t ("moodle" ++ PyStr.of_int (i + Z.of_nat k + 1))).
Proof.
  induction pairs as [|[u' t'] r IH]; intros i k u t H.
  - destruct k; discriminate.
  - destruct k as [|k].
    + simpl in *. inversion H; subst. now rewrite Z.add_0_r.
    + replace (i + Z.of_nat (Datatypes.S k) + 1) with (i + 1 + Z.of_nat k + 1) by lia.
      simpl in H. simpl nth_error. apply IH, H.
Qed.

Lemma combine_nth_error {A B : Type} (l : list A) (m : list B) :
  List.length l = List.length m ->
  forall (k : nat) (a : A) (b : B),
    (k < List.length l)%nat ->
    nth_error (combine l m) k = Some (nth k l a, nth k m b).
Proof.
  revert m; induction l as [|x l IH]; intros [|y m] Hlen k a b Hk;
    simpl in *; try lia.
  destruct k as [|k]; simpl; [reflexivity|].
  apply IH; lia.
Qed.

Lemma truthy_false_empty (s : string) : PyStr.truthy s = false <-> s = "".
Proof. destruct s; simpl; split; congruence. Qed.

(** C8, as stated, fails: the two configurations of the example of the
    specification are named [moodle1] and [moodle2], not [instance1] and
    [instance2]. *)
Lemma parse_config_names_are_moodle :
  exists configs,
    parse_moodle_config "https://m1.com,https://m2.com" "t1,t2" = Return configs
    /\ map cfg_instance configs = ["moodle1"; "moodle2"]
    /\ map cfg_instance configs <> ["instance1"; "instance2"].
Proof.
  eexists. split; [reflexivity|]. split; [reflexivity|]. discriminate.
Qed.

(** C8, amended: when the fields that remain of the URLs and of the tokens,
    once stripped and the empty ones dropped, are as many and at least one,
    the parser returns as many configurations, the i-th with the i-th URL,
    the i-th token and the name [moodle] followed by its position counted
    from one; it fails with a [ValueError] when either input is empty or
    when the two counts differ. *)
Theorem parse_moodle_config_positional (urls_str tokens_str : string) :
  (List.length (csv_fields urls_str) = List.length (csv_fields tokens_str) ->
   csv_fields urls_str <> [] ->
   exists configs,
     parse_moodle_config urls_str tokens_str = Return configs
     /\ List.length configs = List.length (csv_fields urls_str)
     /\ forall k : nat,
          (k < List.length (csv_fields urls_str))%nat ->
          nth_error configs k
          = Some (mk_config (nth k (csv_fields urls_str) "")
                    (nth k (csv_fields tokens_str) "")
                    ("moodle" ++ PyStr.of_int (Z.of_nat k + 1))))
  /\ (urls_str = "" \/ tokens_str = ""
      \/ List.length (csv_fields urls_str) <> List.length (csv_fields tokens_str) ->
      exists msg, parse_moodle_config urls_str tokens_str = Raise (ValueError msg)).
Proof.
  split.
  - intros Hlen Hne.
    assert (Hu : PyStr.truthy urls_str = true).
    { destruct urls_str; [now elim Hne|reflexivity]. }
    assert (Ht : PyStr.truthy tokens_str = true).
    { destruct tokens_str; [|reflexivity].
      destruct (csv_fields urls_str); [now elim Hne|discriminate Hlen]. }
    unfold parse_moodle_config. rewrite Hu, Ht. simpl negb. cbv iota.
    rewrite Hlen, Nat.eqb_refl. simpl negb. cbv iota.
    destruct (csv_fields urls_str) as [|u0 us] eqn:Eu; [now elim Hne|].
    rewrite <- Eu in *.
    rewrite build_configs_ok.
    + simpl app. eexists. split; [reflexivity|]. split.
      * rewrite numbered_configs_length, length_combine, <- Hlen. apply Nat.min_id.
      * intros k Hk.
        apply numbered_configs_nth with (i := 0).
        apply combine_nth_error; [exact Hlen|lia].
    + apply Forall_forall. intros [u t] Hin. simpl.
      pose proof (csv_fields_truthy urls_str) as Fu.
      pose proof (csv_fields_truthy tokens_str) as Ft.
      rewrite Forall_forall in Fu, Ft.
      split; [apply Fu; eapply in_combine_l|apply Ft; eapply in_combine_r]; eauto.
  - intros H. unfold parse_moodle_config.
    destruct (negb (PyStr.truthy urls_str) || negb (PyStr.truthy tokens_str)) eqn:E;
      [eexists; reflexivity|].
    apply orb_false_iff in E. destruct E as [E1 E2].
    apply negb_false_iff in E1, E2.
    destruct H as [-> | [-> | H]]; try discriminate.
    apply Nat.eqb_neq in H. rewrite H. simpl. eexists; reflexivity.
Qed.

Lemma parse_moodle_config_positional_witness :
  exists configs,
    parse_moodle_config "https://m1.com , https://m2.com" "t1,t2,," = Return configs
    /\ List.length configs = 2%nat
    /\ nth_error configs 1
       = Some (mk_config "https://m2.com" "t2" "moodle2").
Proof.
  destruct (proj1 (parse_moodle_config_positional
                     "https://m1.com , https://m2.com" "t1,t2,,")
              eq_refl ltac:(discriminate))
    as (configs & H1 & H2 & H3).
  exists configs. split; [exact H1|]. split; [exact H2|].
  apply (H3 1%nat). vm_compute. lia.
Defined.

End ConfigParser.

(* ------------------------------------------------------------------ *)
(** ** Record preparation *)

Section RecordPreparation.

Lemma rstrip_by_snoc (p : ascii -> bool) (c : ascii) (s : string) :
  p c = true ->
  PyStr.rstrip_by p s = s ->
  PyStr.rstrip_by p (s ++ String c EmptyString) = s.
Proof.
  intros Pc. induction s as [|a r IH]; intros H.
  - simpl. now rewrite Pc.
  - change (String a r ++ String c "") with (String a (r ++ String c "")).
    rewrite rstrip_by_cons in *.
    destruct (PyStr.rstrip_by p r) as [|b r'] eqn:E.
    + destruct (p a) eqn:Pa; [discriminate|].
      inversion H; subst r. simpl. now rewrite Pc.
    + inversion H; subst r. rewrite IH by reflexivity. reflexivity.
Qed.

Lemma validate_json_schema_raises (d : dict) (entity : string) (e : exn) :
  validate_json_schema d entity = Raise e -> is_ValueError e = true.
Proof.
  unfold validate_json_schema.
  destruct (lookup_fields required_fields entity) as [fields|]; [|discriminate].
  induction fields as [|f r IH]; simpl; [discriminate|].
  destruct (negb (dict_has d f)); [|exact IH].
  intros H; inversion H; reflexivity.
Qed.

(** The loop body of [load_raw_data] on an item that is a mapping. *)
Lemma prepare_item_dict (entity : string) (d : dict)
  (records : list raw_record) (w : world) :
  exists r w',
    prepare_item entity (JDict d) records w = (Return (records ++ [r])%list, w')
    /\ rec_entity r = singular entity
    /\ rec_instance r = MOODLE_INSTANCE
    /\ rec_data_json r = PyJson.dumps false (JDict d)
    /\ rec_hash_content r = compute_hash (JDict d).
Proof.
  unfold prepare_item, py_get.
  unfold bind at 1. unfold ret at 1.
  assert (Hid : forall w0, exists m,
             (if py_truthy (dict_get_default d "id" JNull)
              then ret (dict_get_default d "id" JNull)
              else ret (dict_get_default d "course_id" JNull)) w0
             = (Return m, w0)).
  { intros w0. destruct (py_truthy _); eexists; reflexivity. }
  unfold bind at 1. destruct (Hid w) as [m ->].
  unfold bind at 1. unfold try_except, bind, ret, lift, log, emit.
  destruct (validate_json_schema d (singular entity)) as [b|e] eqn:V.
  - do 2 eexists. split; [reflexivity|]. simpl. repeat split.
  - rewrite (validate_json_schema_raises _ _ _ V).
    do 2 eexists. split; [reflexivity|]. simpl. repeat split.
Qed.

(** C7, as stated, fails: [prepare_raw_record] called with the plural label
    [users] returns a record whose entity is [users]. *)
Lemma prepare_raw_record_keeps_plural :
  exists r w',
    prepare_raw_record "moodle4" "users" (JInt 1) (JDict [("id", JInt 1)])
      quiet_world = (Return r, w')
    /\ rec_entity r = "users"
    /\ rec_entity r <> "user".
Proof.
  do 2 eexists. split; [reflexivity|]. split; [reflexivity|]. discriminate.
Qed.

(** C7, amended: [prepare_raw_record] returns the entity label it is given;
    the singular form is made by its caller, the loop of [load_raw_data],
    which passes [entity.rstrip('s')] - the label without its final [s]
    when what precedes that [s] does not end in [s].  The record carries
    the reading of the clock in ISO form, the content hash of the data and
    the data serialized to a string, and reading the clock is the only
    effect. *)
Theorem prepare_raw_record_fields (instance entity : string)
  (moodle_id data : json) (w : world) :
  (exists w',
     prepare_raw_record instance entity moodle_id data w
     = (Return (mk_record instance entity moodle_id (PyJson.dumps false data)
                  (isoformat (w_clock w (w_ticks w))) (compute_hash data)), w')
     /\ w_ticks w' = Datatypes.S (w_ticks w)
     /\ w_trace w' = w_trace w /\ w_sent w' = w_sent w
     /\ w_xcom w' = w_xcom w /\ w_db w' = w_db w /\ w_db_txn w' = w_db_txn w
     /\ w_db_ops w' = w_db_ops w)
  /\ (forall (d : dict) (records : list raw_record),
        exists r w',
          prepare_item entity (JDict d) records w = (Return (records ++ [r])%list, w')
          /\ rec_entity r = singular entity
          /\ rec_instance r = MOODLE_INSTANCE
          /\ rec_data_json r = PyJson.dumps false (JDict d)
          /\ rec_hash_content r = compute_hash (JDict d))
  /\ (forall base : string,
        PyStr.rstrip_char "s" base = base -> singular (base ++ "s") = base).
Proof.
  split; [|split].
  - eexists. split; [reflexivity|]. simpl. repeat split.
  - intros d records. apply prepare_item_dict.
  - intros base H. unfold singular, PyStr.rstrip_char.
    apply rstrip_by_snoc; [reflexivity|exact H].
Qed.

Lemma prepare_raw_record_fields_witness :
  singular ("user" ++ "s") = "user"
  /\ singular ("enrolment_method" ++ "s") = "enrolment_method".
Proof.
  split.
  - apply (proj2 (proj2 (prepare_raw_record_fields "moodle4" "users" JNull JNull
                           quiet_world)) "user").
    reflexivity.
  - apply (proj2 (proj2 (prepare_raw_record_fields "moodle4" "users" JNull JNull
                           quiet_world)) "enrolment_method").
    reflexivity.
Defined.

End RecordPreparation.

(* ------------------------------------------------------------------ *)
(** ** The API call executor *)

Section Executor.

Import MoodleAPIClient.

Lemma emit_events (e : event) (w : world) :
  exists w', emit e w = (Return tt, w') /\ events_since w w' [e]
             /\ w_sent w' = w_sent w /\ w_net w' = w_net w.
Proof. eexists. split; [reflexivity|]. repeat split. Qed.

Lemma wire_events (rq : request) (w : world) :
  exists w', wire rq w = (Return (w_net w (w_sent w) rq), w')
             /\ events_since w w' [Post rq]
             /\ w_sent w' = Datatypes.S (w_sent w) /\ w_net w' = w_net w.
Proof. eexists. split; [reflexivity|]. repeat split. Qed.







(** With retries left, [is_retry] does not depend on their number. *)
Lemma is_retry_left (k : nat) (st : Z) (has : bool) :
  is_retry (Datatypes.S k) st has = is_retry 1 st has.
Proof. reflexivity. Qed.







(** An answer that is not tried again is returned at once. *)
Lemma session_post_first (retries : nat) (rq : request) (w : world)
  (st : Z) (reason : string) (retry_after : retry_after_header)
  (body : option json) :
  0 < rq_timeout rq ->
  w_net w (w_sent w) rq = HttpReply st reason retry_after body ->
  is_retry retries st (has_retry_after retry_after) = false ->
  session_post retries rq w
  = (Return (mk_response st reason (rq_url rq) body), snd (wire rq w)).
Proof.
  intros Ht Hnet Hst. unfold session_post.
  destruct (Z.leb_spec (rq_timeout rq) 0) as [L|_]; [lia|].
  destruct retries; cbn [urlopen]; unfold bind at 1;
    change (wire rq w) with (Return (w_net w (w_sent w) rq), snd (wire rq w));
    cbv beta iota; rewrite Hnet, Hst; reflexivity.
Qed.



(** The executor always returns a list. *)
Lemma call_api_returns_list (self : client) (function : string)
  (params : option dict) (w : world) (v : json) (w' : world) :
  _call_api self function params w = (Return v, w') -> exists l, v = JList l.
Proof.
  unfold _call_api. set (rq := mk_request _ _ _). intros H.
  unfold try_except, bind, log, sleep, ret, raise, emit in H.
  cbv beta iota in H.
  destruct (session_post (max_retries self) rq _) as [[resp|e] w2];
    [|destruct (is_RequestException e); discriminate H].
  destruct (raise_for_status resp w2) as [[[]|e] w3];
    [|destruct (is_RequestException e); discriminate H].
  destruct (response_json resp w3) as [[data|e] w4];
    [|destruct (is_RequestException e); discriminate H].
  destruct (Qle_bool 0 (rate_limit_delay self));
    destruct data as [| | | | |l|d]; cbv beta iota in H;
    try (inversion H; eexists; reflexivity);
    try discriminate H;
    destruct (dict_has d "exception"); cbv beta iota in H;
    try discriminate H; inversion H; eexists; reflexivity.
Qed.








(** C6: the claim is right and the code misses it.  The wrapping object of
    the answer to [core_user_get_users] reaches the caller of [get_users]
    inside a one-element list: the executor has put it there, so the test of
    [get_users] for an object never holds and the list under [users] is not
    taken out. *)
Theorem get_users_keeps_wrapper :
  fst (get_users sample_client None (world_with users_service))
  = Return (JList [JDict [("users",
                           JList [JDict [("id", JInt 1);
                                         ("username", JString "testuser")]])]])
  /\ fst (get_users sample_client None (world_with users_service))
     <> Return (JList [JDict [("id", JInt 1); ("username", JString "testuser")]]).
Proof. split; [vm_compute; reflexivity|vm_compute; discriminate]. Qed.

(** Whatever the executor returns, the unwrapping of [get_users],
    [get_course_grade_items] and [get_grades] leaves it as it is. *)
Lemma unwrap_after_call_api (key : string) (self : client) (function : string)
  (params : option dict) (w : world) (v : json) (w' : world) :
  _call_api self function params w = (Return v, w') -> unwrap key v = v.
Proof.
  intros H. destruct (call_api_returns_list _ _ _ _ _ _ H) as [l ->]. reflexivity.
Qed.

End Executor.

(* ------------------------------------------------------------------ *)
(** ** What a computation leaves untouched *)

Section Frames.

Import MoodleAPIClient.

Lemma frame_refl (w : world) : frame w w.
Proof. repeat split. Qed.

Lemma frame_trans (w1 w2 w3 : world) : frame w1 w2 -> frame w2 w3 -> frame w1 w3.
Proof.
  unfold frame. intros (A & B & C) (D & E & F).
  repeat split; congruence.
Qed.

Lemma framed_ret {A : Type} (a : A) : framed (ret a).
Proof. intros w o w' H. inversion H. apply frame_refl. Qed.

Lemma framed_raise {A : Type} (e : exn) : framed (@raise A e).
Proof. intros w o w' H. inversion H. apply frame_refl. Qed.

Lemma framed_lift {A : Type} (o : outcome A) : framed (lift o).
Proof. intros w o' w' H. inversion H. apply frame_refl. Qed.

Lemma framed_bind {A B : Type} (m : M A) (k : A -> M B) :
  framed m -> (forall a, framed (k a)) -> framed (bind m k).
Proof.
  intros Hm Hk w o w' H. unfold bind in H.
  destruct (m w) as [[a|e] w1] eqn:E.
  - eapply frame_trans; [eapply Hm; eassumption|eapply Hk; eassumption].
  - inversion H; subst. eapply Hm; eassumption.
Qed.

Lemma framed_try_except {A : Type} (body : M A) (E : exn -> bool)
  (handler : exn -> M A) :
  framed body -> (forall e, framed (handler e)) ->
  framed (try_except body E handler).
Proof.
  intros Hb Hh w o w' H. unfold try_except in H.
  destruct (body w) as [[a|e] w1] eqn:Eb.
  - inversion H; subst. eapply Hb; eassumption.
  - destruct (E e).
    + eapply frame_trans; [eapply Hb; eassumption|eapply Hh; eassumption].
    + inversion H; subst. eapply Hb; eassumption.
Qed.

Lemma framed_emit (e : event) : framed (emit e).
Proof. intros w o w' H. inversion H. repeat split. Qed.

Lemma framed_log (lv : level) (msg : string) : framed (log lv msg).
Proof. apply framed_emit. Qed.

Lemma framed_sleep (q : Q) : framed (sleep q).
Proof.
  unfold sleep. destruct (Qle_bool 0 q); [apply framed_emit|apply framed_raise].
Qed.

Lemma framed_wire (rq : request) : framed (wire rq).
Proof. intros w o w' H. inversion H. repeat split. Qed.

Lemma framed_Variable_get (key : string) : framed (Variable_get key).
Proof.
  intros w o w' H. unfold Variable_get in H.
  destruct (find _ (w_variables w)); inversion H; apply frame_refl.
Qed.

Lemma framed_xcom_pull (task key : string) : framed (xcom_pull task key).
Proof.
  intros w o w' H. unfold xcom_pull in H.
  destruct (find _ (w_xcom w)); inversion H; apply frame_refl.
Qed.

Lemma framed_for_each {A S : Type} (l : list A) (body : A -> S -> M S) :
  (forall x acc, framed (body x acc)) -> forall acc, framed (for_each l body acc).
Proof.
  intros Hb. induction l as [|x r IH]; intros acc; simpl.
  - apply framed_ret.
  - apply framed_bind; [apply Hb|intros; apply IH].
Qed.

Lemma framed_py_iter (v : json) : framed (py_iter v).
Proof. destruct v; simpl; auto using framed_ret, framed_raise. Qed.

Lemma framed_py_get (v : json) (k : string) : framed (py_get v k).
Proof. destruct v; simpl; auto using framed_ret, framed_raise. Qed.

Lemma framed_py_setitem (v : json) (k : string) (x : json) :
  framed (py_setitem v k x).
Proof. destruct v; simpl; auto using framed_ret, framed_raise. Qed.

Lemma framed_retry_sleep (answer : option retry_after_header) (failures : nat) :
  framed (retry_sleep answer failures).
Proof.
  assert (Hb : forall n, framed (_sleep_backoff n)).
  { intros n. unfold _sleep_backoff.
    destruct (Qle_bool (get_backoff_time n) 0);
      [apply framed_ret|apply framed_sleep]. }
  destruct answer as [h|]; cbn [retry_sleep]; [|apply Hb].
  apply framed_bind; [|intros [|]; [apply framed_ret|apply Hb]].
  destruct h as [|s|text]; cbn [sleep_for_retry];
    [apply framed_ret| |apply framed_raise].
  destruct (Qle_bool s 0); [apply framed_ret|].
  apply framed_bind; [apply framed_sleep|intros; apply framed_ret].
Qed.

Lemma framed_urlopen (rq : request) :
  forall total failures, framed (urlopen failures total rq).
Proof.
  induction total as [|k IH]; intros failures; cbn [urlopen];
    (apply framed_bind; [apply framed_wire|]);
    intros [reason|st reason retry_after body];
    try destruct (is_retry _ st _);
    try (apply framed_bind; [apply framed_retry_sleep|intros; apply IH]);
    auto using framed_ret, framed_raise.
Qed.

Lemma framed_session_post (retries : nat) (rq : request) :
  framed (session_post retries rq).
Proof.
  unfold session_post.
  destruct (rq_timeout rq <=? 0); [apply framed_raise|apply framed_urlopen].
Qed.

Lemma framed_raise_for_status (r : response) : framed (raise_for_status r).
Proof.
  unfold raise_for_status.
  destruct (_ && _); [apply framed_raise|].
  destruct (_ && _); [apply framed_raise|apply framed_ret].
Qed.

Lemma framed_response_json (r : response) : framed (response_json r).
Proof.
  unfold response_json. destruct (rs_body r); auto using framed_ret, framed_raise.
Qed.

Lemma framed_call_api (self : client) (function : string) (params : option dict) :
  framed (_call_api self function params).
Proof.
  unfold _call_api.
  apply framed_try_except.
  - apply framed_bind; [apply framed_log|intros _].
    apply framed_bind; [apply framed_session_post|intros resp].
    apply framed_bind; [apply framed_raise_for_status|intros _].
    apply framed_bind; [apply framed_response_json|intros data].
    apply framed_bind.
    + destruct data; try apply framed_ret.
      destruct (dict_has items "exception"); auto using framed_ret, framed_raise.
    + intros _. apply framed_bind; [apply framed_sleep|intros; apply framed_ret].
  - intros e. apply framed_bind; [apply framed_log|intros; apply framed_raise].
Qed.

Lemma framed_validate_url (url : string) : framed (_validate_url url).
Proof.
  unfold _validate_url.
  destruct (negb (PyStr.truthy url)); [apply framed_raise|].
  destruct (PyStr.startswith _ "http://"); [apply framed_raise|].
  apply framed_bind.
  - destruct (negb _); [|apply framed_ret].
    apply framed_bind; [apply framed_log|intros; apply framed_ret].
  - intros u. destruct (_ || _); auto using framed_ret, framed_raise.
Qed.

Lemma framed_get_moodle_client : framed get_moodle_client.
Proof.
  unfold get_moodle_client.
  apply framed_bind.
  - apply framed_try_except.
    + repeat (apply framed_bind;
              [first [apply framed_Variable_get|apply framed_log]|intros]).
      apply framed_ret.
    + intros _. apply framed_try_except.
      * repeat (apply framed_bind;
                [first [apply framed_Variable_get|apply framed_log|apply framed_lift]
                |intros]).
        apply framed_ret.
      * intros _. apply framed_raise.
  - intros cfg. unfold new_default, new.
    apply framed_bind; [apply framed_validate_url|intros; apply framed_ret].
Qed.

End Frames.

(* ------------------------------------------------------------------ *)
(** ** The extraction of the records of every course *)

Section FanOut.

Import MoodleAPIClient.

Lemma xcom_pull_same (task key : string) (w w' : world) :
  w_xcom w' = w_xcom w ->
  xcom_pull task key w' = (fst (xcom_pull task key w), w').
Proof.
  intros H. unfold xcom_pull. rewrite H.
  destruct (find _ (w_xcom w)); reflexivity.
Qed.

Lemma xcom_pull_pushed (task key : string) (v : json) (w : world) :
  fst (xcom_pull task key (snd (xcom_push task key v w))) = Return v.
Proof.
  unfold xcom_pull, xcom_push. simpl. now rewrite !String.eqb_refl.
Qed.

Lemma dicts_of_map (items : list dict) : dicts_of (map JDict items) = Some items.
Proof.
  induction items as [|d r IH]; [reflexivity|].
  cbn [map dicts_of]. now rewrite IH.
Qed.

(** The loop that tags the items: it tags them all when all are mappings,
    and raises at the first that is not; the environment stays as it is. *)
Lemma tag_loop (id : json) (l : list json) :
  forall (tagged : list json) (w : world),
    exists o,
      for_each l
        (fun x tagged =>
           x' <- py_setitem x "course_id" id ;; ret (tagged ++ [x'])%list)
        tagged w = (o, w)
      /\ match dicts_of l with
         | Some items => o = Return (tagged ++ map (tag_course id) items)%list
         | None => exists e, o = Raise e
         end.
Proof.
  induction l as [|x r IH]; intros tagged w.
  - exists (Return tagged). cbn. now rewrite app_nil_r.
  - cbn [for_each]. unfold bind at 1.
    destruct x as [| | | | | |d];
      try (eexists; split; [reflexivity|cbn; eexists; reflexivity]).
    cbn [py_setitem]. unfold bind at 1, ret at 1. unfold ret at 1.
    destruct (IH (tagged ++ [JDict (dict_set d "course_id" id)])%list w)
      as (o & E & Ho).
    exists o. split; [exact E|].
    cbn [dicts_of]. destruct (dicts_of r) as [items|]; [|exact Ho].
    cbn [option_map map]. rewrite Ho, <- app_assoc. reflexivity.
Qed.

(** The tagging of what a call has returned: a list of mappings is tagged;
    of anything else nothing is left. *)
Lemma tag_items_run (v id : json) (w : world) :
  exists o,
    tag_items v id w = (o, w)
    /\ match mappings_of v with
       | Some items => o = Return (map (tag_course id) items)
       | None => match o with Return tagged => tagged = [] | Raise _ => True end
       end.
Proof.
  assert (Hl : forall l,
             match dicts_of l with Some [] | None => True | Some _ => False end ->
             exists o,
               (l0 <- ret l ;;
                for_each l0
                  (fun x tagged =>
                     x' <- py_setitem x "course_id" id ;;
                     ret (tagged ++ [x'])%list) []) w = (o, w)
               /\ match o with Return tagged => tagged = [] | Raise _ => True end).
  { intros l Hd. unfold bind at 1, ret at 1.
    destruct (tag_loop id l [] w) as (o & E & Ho).
    exists o. split; [exact E|].
    destruct (dicts_of l) as [[|d r]|]; [|contradiction|].
    - subst o. reflexivity.
    - destruct Ho as [e ->]. exact I. }
  unfold tag_items.
  destruct v as [| | | |s|l|d]; cbn [py_iter mappings_of];
    try (eexists; split; [reflexivity|exact I]).
  - apply Hl. destruct (list_ascii_of_string s); exact I.
  - unfold bind at 1, ret at 1.
    destruct (tag_loop id l [] w) as (o & E & Ho).
    exists o. split; [exact E|].
    destruct (dicts_of l); [exact Ho|]. destruct Ho as [e ->]. exact I.
  - apply Hl. destruct d; exact I.
Qed.

(** The body of the loop over the courses contributes what [course_step]
    says, and never raises. *)
Lemma per_course_step (what : string) (m : json -> M json) (course : json)
  (all : list json) (w : world) :
  is_dict course = true ->
  per_course what m course all w
  = (Return (all ++ fst (course_step what m course w))%list,
     snd (course_step what m course w)).
Proof.
  intros Hd. destruct course as [| | | | | |d]; try discriminate Hd.
  unfold per_course, course_step. cbn [py_get course_id_of].
  unfold bind at 1, ret at 1.
  set (id := dict_get_default d "id" JNull).
  destruct (py_truthy id); [|now rewrite app_nil_r].
  unfold try_except, bind at 1.
  destruct (m id w) as [[v|e] w1].
  - destruct (tag_items_run v id w1) as (o & E & Ho).
    unfold bind at 1. rewrite E. cbn [fst].
    destruct (mappings_of v) as [items|].
    + subst o. reflexivity.
    + destruct o as [tagged|e].
      * subst tagged. reflexivity.
      * cbn [is_Exception fst snd]. unfold bind, log, emit, ret.
        now rewrite app_nil_r.
  - cbn [is_Exception fst snd]. unfold bind, log, emit, ret.
    now rewrite app_nil_r.
Qed.

(** The body of the loop over the enrolments contributes what
    [enrolment_step] says, and never raises. *)
Lemma per_enrolment_step (c : client) (enrolment : json) (all : list json)
  (w : world) :
  is_dict enrolment = true ->
  per_enrolment c enrolment all w
  = (Return (all ++ fst (enrolment_step (get_course_completion c) enrolment w))%list,
     snd (enrolment_step (get_course_completion c) enrolment w)).
Proof.
  intros Hd. destruct enrolment as [| | | | | |d]; try discriminate Hd.
  unfold per_enrolment, enrolment_step. cbn [py_get].
  unfold bind at 1, ret at 1. unfold bind at 1, ret at 1.
  set (cid := dict_get_default d "course_id" JNull).
  set (uid := dict_get_default d "id" JNull).
  destruct (py_truthy cid && py_truthy uid); [|now rewrite app_nil_r].
  unfold try_except, bind at 1.
  destruct (get_course_completion c cid uid w) as [[v|e] w1].
  - destruct v as [| | | | | |it];
      try (cbn [py_setitem is_Exception fst snd];
           unfold bind, raise, log, emit, ret; cbn [is_Exception];
           now rewrite app_nil_r).
    cbn [py_setitem]. unfold bind, ret. reflexivity.
  - cbn [is_Exception fst snd]. unfold bind, log, emit, ret.
    now rewrite app_nil_r.
Qed.

(** A loop whose body contributes what [step] says gathers what [gather]
    says. *)
Lemma for_each_gather (body : json -> list json -> M (list json))
  (step : json -> world -> list json * world) (l : list json) :
  (forall x, In x l ->
     forall all w,
       body x all w = (Return (all ++ fst (step x w))%list, snd (step x w))) ->
  forall (all : list json) (w : world),
    for_each l body all w
    = (Return (all ++ fst (gather step l w))%list, snd (gather step l w)).
Proof.
  induction l as [|x r IH]; intros Hb all w; cbn [for_each gather fst snd].
  - unfold ret. now rewrite app_nil_r.
  - unfold bind. rewrite (Hb x (or_introl eq_refl)).
    rewrite IH by (intros y Hy; apply Hb; now right).
    now rewrite app_assoc.
Qed.

Lemma forallb_is_dict (l : list json) :
  forallb is_dict l = true -> forall x, In x l -> is_dict x = true.
Proof. intros H. now apply forallb_forall. Qed.

(** C9: a fan-out extraction never raises because of a sub-call, and what
    it hands over is what [gather] says.  For the extractions that make one
    call per course - enrolments, enrolment methods, grade items, grades,
    each an instance of [extract_per_course] - over courses that are
    mappings: the list pushed to XCom holds, in the order of the courses,
    the contribution of every course as [course_step] has it in the
    environment the courses before it have left.  A course whose call
    raises, or returns something that is not a list of mappings, contributes
    nothing; a course whose call returns a list of mappings contributes them
    all, each with the identifier of the course under [course_id]; every
    other course is visited whatever happened before.  The task returns the
    length of the list.  The same holds for the completions, with one call
    per enrolment: [enrolment_step] has the contribution of an enrolment,
    the mapping returned with the course under [course_id] and the user
    under [userid], and nothing when the call raises. *)
Theorem extract_per_course_skips_failed (c : client) (w : world)
  (l : list json) :
  forallb is_dict l = true ->
  (forall (what key : string) (method : client -> json -> M json) (w0 : world),
     fst (xcom_pull "extract_courses" "courses" w) = Return (JList l) ->
     get_moodle_client
       (snd (log INFO ("Extracting " ++ what ++ " from " ++ MOODLE_INSTANCE) w))
     = (Return c, w0) ->
     exists w',
       extract_per_course what key method w
       = (Return (Z.of_nat (List.length
                              (fst (gather (course_step what (method c)) l w0)))),
          w')
       /\ fst (xcom_pull ("extract_" ++ key) key w')
          = Return (JList (fst (gather (course_step what (method c)) l w0))))
  /\ (forall (w0 : world),
        fst (xcom_pull "extract_enrolments" "enrolments" w) = Return (JList l) ->
        get_moodle_client
          (snd (log INFO ("Extracting completions from " ++ MOODLE_INSTANCE) w))
        = (Return c, w0) ->
        exists w',
          extract_completions w
          = (Return (Z.of_nat
                       (List.length
                          (fst (gather (enrolment_step (get_course_completion c))
                                  l w0)))),
             w')
          /\ fst (xcom_pull "extract_completions" "completions" w')
             = Return (JList (fst (gather
                                     (enrolment_step (get_course_completion c))
                                     l w0)))).
Proof.
  intros Hl. split.
  - intros what key method w0 Hx Hc.
    unfold extract_per_course.
    set (msg := "Extracting " ++ what ++ " from " ++ MOODLE_INSTANCE) in *.
    set (w1 := snd (log INFO msg w)) in *.
    assert (F1 : frame w w1)
      by (apply (framed_log INFO msg w (Return tt) w1 eq_refl)).
    assert (F2 : frame w1 w0) by (eapply framed_get_moodle_client; exact Hc).
    pose proof (frame_trans _ _ _ F1 F2) as (_ & Hx2 & _).
    unfold bind at 1. change (log INFO msg w) with (Return tt, w1).
    cbv beta iota. unfold bind at 1. rewrite Hc.
    unfold bind at 1. rewrite (xcom_pull_same _ _ w w0 Hx2), Hx.
    cbn [py_iter]. unfold bind at 1, ret at 1. unfold bind at 1.
    rewrite (for_each_gather (per_course what (method c))
               (course_step what (method c)) l)
      by (intros x Hin all0 w2; apply per_course_step;
          now apply (forallb_is_dict l Hl)).
    cbn [app]. unfold bind, log, emit, ret.
    eexists. split; [reflexivity|]. apply xcom_pull_pushed.
  - intros w0 Hx Hc.
    unfold extract_completions.
    set (msg := "Extracting completions from " ++ MOODLE_INSTANCE) in *.
    set (w1 := snd (log INFO msg w)) in *.
    assert (F1 : frame w w1)
      by (apply (framed_log INFO msg w (Return tt) w1 eq_refl)).
    assert (F2 : frame w1 w0) by (eapply framed_get_moodle_client; exact Hc).
    pose proof (frame_trans _ _ _ F1 F2) as (_ & Hx2 & _).
    unfold bind at 1. change (log INFO msg w) with (Return tt, w1).
    cbv beta iota. unfold bind at 1. rewrite Hc.
    unfold bind at 1. rewrite (xcom_pull_same _ _ w w0 Hx2), Hx.
    cbn [py_iter]. unfold bind at 1, ret at 1. unfold bind at 1.
    rewrite (for_each_gather (per_enrolment c)
               (enrolment_step (get_course_completion c)) l)
      by (intros x Hin all0 w2; apply per_enrolment_step;
          now apply (forallb_is_dict l Hl)).
    cbn [app]. unfold bind, log, emit, ret.
    eexists. split; [reflexivity|]. apply xcom_pull_pushed.
Qed.

Lemma extract_per_course_skips_failed_witness :
  (exists w',
     extract_enrolments three_courses_world = (Return 2, w')
     /\ fst (xcom_pull "extract_enrolments" "enrolments" w')
        = Return (JList [JDict [("id", JInt 10); ("course_id", JInt 1)];
                         JDict [("id", JInt 30); ("course_id", JInt 3)]]))
  /\ (exists w',
        extract_completions completions_world = (Return 1, w')
        /\ fst (xcom_pull "extract_completions" "completions" w')
           = Return (JList [JDict [("completed", JBool true);
                                   ("course_id", JInt 1);
                                   ("userid", JInt 10)]])).
Proof.
  split.
  - destruct (proj1 (extract_per_course_skips_failed sample_client
                       three_courses_world
                       [JDict [("id", JInt 1)]; JDict [("id", JInt 2)];
                        JDict [("id", JInt 3)]] eq_refl)
                "enrolments" "enrolments" get_enrolled_users
                (snd (get_moodle_client
                        (snd (log INFO ("Extracting enrolments from "
                                        ++ MOODLE_INSTANCE)
                                three_courses_world))))
                eq_refl eq_refl) as (w' & H1 & H2).
    exists w'. split; [exact H1|exact H2].
  - destruct (proj2 (extract_per_course_skips_failed sample_client
                       completions_world
                       [JDict [("id", JInt 10); ("course_id", JInt 1)];
                        JDict [("id", JInt 30); ("course_id", JInt 3)];
                        JDict [("id", JInt 7)]] eq_refl)
                (snd (get_moodle_client
                        (snd (log INFO ("Extracting completions from "
                                        ++ MOODLE_INSTANCE)
                                completions_world))))
                eq_refl eq_refl) as (w' & H1 & H2).
    exists w'. split; [exact H1|exact H2].
Defined.

End FanOut.

(* ------------------------------------------------------------------ *)
(** ** The bulk insert into the raw table *)

Section BulkInsert.

Lemma bind_return {A B : Type} (m : M A) (k : A -> M B) (w w1 : world) (a : A) :
  m w = (Return a, w1) -> bind m k w = k a w1.
Proof. intros H. unfold bind. now rewrite H. Qed.

Lemma bind_raise {A B : Type} (m : M A) (k : A -> M B) (w w1 : world) (e : exn) :
  m w = (Raise e, w1) -> bind m k w = (Raise e, w1).
Proof. intros H. unfold bind. now rewrite H. Qed.

Lemma execute_loop (records : list raw_record) :
  forall w : world,
    exists o w',
      for_each records (fun record _ => execute_insert record) tt w = (o, w')
      /\ w_db w' = w_db w
      /\ same_database w w'
      /\ match insert_all (w_db_fault w) (w_sql_integer w) (w_db_ops w)
                 (db_view w) records with
         | Some view =>
             o = Return tt /\ db_view w' = view
             /\ w_db_ops w' = (w_db_ops w + List.length records)%nat
         | None => exists e, o = Raise e
         end.
Proof.
  induction records as [|r rest IH]; intros w.
  - exists (Return tt), w. simpl. repeat split. lia.
  - simpl for_each. unfold bind at 1. unfold execute_insert at 1.
    unfold bind at 1. unfold db_op at 1. simpl insert_all.
    destruct (w_db_fault w (w_db_ops w)) as [msg|] eqn:Ef.
    { do 2 eexists. split; [reflexivity|]. simpl.
      repeat split. eexists; reflexivity. }
    simpl w_sql_integer.
    destruct (w_sql_integer w (rec_moodle_id r)) as [mid|] eqn:Ea.
    2:{ do 2 eexists. split; [reflexivity|]. simpl.
        repeat split. eexists; reflexivity. }
    set (w1 := set_db _ (Some _) _ _).
    destruct (IH w1) as (o & w' & E & Hdb & (Hf & Hs) & Hm).
    exists o, w'. split; [exact E|]. split; [exact Hdb|]. split; [split; assumption|].
    simpl in Hm.
    destruct (insert_all _ _ _ _ rest) as [view|].
    + destruct Hm as (-> & Hv & Ho). repeat split; auto. rewrite Ho. simpl. lia.
    + exact Hm.
Qed.

(** The outcome of the bulk insert, by what fails: the connection, one of
    the inserts, the commit, or nothing. *)
Lemma bulk_insert_outcome (entity : string) (records : list raw_record)
  (w : world) :
  w_db_txn w = None ->
  exists o w',
    bulk_insert entity records w = (o, w')
    /\ w_db_txn w' = None
    /\ same_database w w'
    /\ match w_db_fault w (w_db_ops w),
             insert_all (w_db_fault w) (w_sql_integer w)
               (Datatypes.S (w_db_ops w)) (w_db w) records,
             w_db_fault w (Datatypes.S (w_db_ops w) + List.length records)%nat with
       | None, Some view, None =>
           o = Return (Z.of_nat (List.length records)) /\ w_db w' = view
       | _, _, _ => (exists e, o = Raise e) /\ w_db w' = w_db w
       end.
Proof.
  intros Htxn. unfold bulk_insert, get_conn.
  unfold bind at 1. unfold db_op at 1.
  destruct (w_db_fault w (w_db_ops w)) as [msg|] eqn:Ef.
  { do 2 eexists. split; [reflexivity|]. simpl. split; [exact Htxn|].
    split; [split; reflexivity|].
    split; [eexists; reflexivity|reflexivity]. }
  set (w1 := set_db (w_db w) (w_db_txn w) (Datatypes.S (w_db_ops w)) w).
  destruct (execute_loop records w1) as (o1 & w2 & E1 & Hdb & (Hf & Hs) & Hm).
  assert (Hv1 : db_view w1 = w_db w) by (unfold db_view; simpl; now rewrite Htxn).
  simpl w_db_fault in Hm. simpl w_sql_integer in Hm. simpl w_db_ops in Hm.
  rewrite Hv1 in Hm.
  unfold bind at 1. unfold try_finally, try_except. cbv beta.
  destruct (insert_all _ _ _ _ records) as [view|].
  - destruct Hm as (-> & Hview & Hops).
    rewrite (bind_return _ _ _ _ _ E1).
    unfold bind at 1. unfold commit at 1. unfold bind at 1. unfold db_op at 1.
    rewrite Hf, Hops. simpl w_db_fault. simpl w_db_ops.
    change (Datatypes.S (w_db_ops w) + List.length records)%nat
      with (Datatypes.S (w_db_ops w + List.length records)).
    destruct (w_db_fault w (Datatypes.S (w_db_ops w + List.length records)))
      as [msg|].
    + do 2 eexists. split; [reflexivity|]. simpl.
      split; [reflexivity|]. split; [split; assumption|].
      split; [eexists; reflexivity|exact Hdb].
    + do 2 eexists. split; [reflexivity|]. simpl.
      split; [reflexivity|]. split; [split; assumption|].
      split; [reflexivity|].
      unfold db_view in *. simpl. exact Hview.
  - destruct Hm as [e ->].
    rewrite (bind_raise _ _ _ _ _ E1).
    do 2 eexists. split; [reflexivity|]. simpl.
    split; [reflexivity|]. split; [split; assumption|].
    destruct (w_db_fault w _); (split; [eexists; reflexivity|exact Hdb]).
Qed.

Lemma insert_all_value (w : world) (fault : nat -> option string)
  (records : list raw_record) :
  forall (ops : nat) (view v : list raw_row),
    insert_all fault (w_sql_integer w) ops view records = Some v ->
    v = fold_left insert_on_conflict_do_nothing (map (row_of w) records) view.
Proof.
  induction records as [|r rest IH]; intros ops view v H; simpl in H.
  - now inversion H.
  - destruct (fault ops); [discriminate|].
    destruct (w_sql_integer w (rec_moodle_id r)) as [mid|] eqn:Ea; [|discriminate].
    simpl map. simpl fold_left.
    replace (row_of w r)
      with (mk_row (rec_instance r) (rec_entity r) mid (rec_data_json r)
              (rec_ts_extract r) (rec_hash_content r))
      by (unfold row_of; now rewrite Ea).
    eapply IH; eassumption.
Qed.

Lemma insert_all_fails (fault : nat -> option string)
  (adapt : json -> option (option Z)) (records : list raw_record) :
  forall (ops : nat) (view : list raw_row) (i : nat) (r : raw_record),
    nth_error records i = Some r ->
    fault (ops + i)%nat <> None \/ adapt (rec_moodle_id r) = None ->
    insert_all fault adapt ops view records = None.
Proof.
  induction records as [|x rest IH]; intros ops view i r Hn Hf.
  - destruct i; discriminate.
  - simpl. destruct i as [|i]; simpl in Hn.
    + inversion Hn; subst x. rewrite Nat.add_0_r in Hf.
      destruct (fault ops); [reflexivity|].
      destruct Hf as [Hf| ->]; [now elim Hf|reflexivity].
    + destruct (fault ops); [reflexivity|].
      destruct (adapt (rec_moodle_id x)); [|reflexivity].
      apply (IH (Datatypes.S ops) _ i r Hn).
      now rewrite Nat.add_succ_comm.
Qed.

Lemma insert_all_ok (fault : nat -> option string)
  (adapt : json -> option (option Z)) (records : list raw_record) :
  forall (ops : nat) (view : list raw_row),
    (forall i, (i < List.length records)%nat -> fault (ops + i)%nat = None) ->
    (forall r, In r records -> adapt (rec_moodle_id r) <> None) ->
    exists v, insert_all fault adapt ops view records = Some v.
Proof.
  induction records as [|x rest IH]; intros ops view Hf Ha; simpl.
  - eexists; reflexivity.
  - pose proof (Hf 0%nat ltac:(simpl; lia)) as H0.
    rewrite Nat.add_0_r in H0. rewrite H0.
    destruct (adapt (rec_moodle_id x)) eqn:E;
      [|now elim (Ha x (or_introl eq_refl))].
    apply IH.
    + intros i Hi. rewrite Nat.add_succ_comm. apply Hf. simpl. lia.
    + intros r Hr. apply Ha. now right.
Qed.

(** C3: the bulk insert of a batch is atomic.  When it raises, the table is
    as it was and no transaction is left open; when it returns, it returns
    the size of the batch and the table is the one the inserts of all the
    records make of it, in their order.  It raises as soon as one insert of
    the batch fails, and returns when neither the connection, nor an insert,
    nor the commit fails. *)
Theorem bulk_insert_atomic (entity : string) (records : list raw_record)
  (w : world) :
  w_db_txn w = None ->
  exists o w',
    bulk_insert entity records w = (o, w')
    /\ w_db_txn w' = None
    /\ (forall e, o = Raise e -> w_db w' = w_db w)
    /\ (forall n, o = Return n ->
          n = Z.of_nat (List.length records)
          /\ w_db w'
             = fold_left insert_on_conflict_do_nothing
                 (map (row_of w) records) (w_db w))
    /\ (forall i r,
          nth_error records i = Some r -> insert_fails w i r = true ->
          exists e, o = Raise e)
    /\ ((forall k, (k <= Datatypes.S (List.length records))%nat ->
                   w_db_fault w (w_db_ops w + k)%nat = None) ->
        (forall r, In r records -> w_sql_integer w (rec_moodle_id r) <> None) ->
        o = Return (Z.of_nat (List.length records))).
Proof.
  intros Htxn.
  destruct (bulk_insert_outcome entity records w Htxn)
    as (o & w' & E & Ht & _ & Hm).
  exists o, w'. split; [exact E|]. split; [exact Ht|].
  destruct (w_db_fault w (w_db_ops w)) as [msg|] eqn:E0.
  { destruct Hm as ([e ->] & Hdb).
    split; [intros; exact Hdb|]. split; [discriminate|].
    split; [intros; eexists; reflexivity|].
    intros Hk _. specialize (Hk 0%nat ltac:(lia)).
    rewrite Nat.add_0_r in Hk. congruence. }
  destruct (insert_all (w_db_fault w) (w_sql_integer w) (Datatypes.S (w_db_ops w))
              (w_db w) records) as [view|] eqn:Ei.
  2:{ destruct Hm as ([e ->] & Hdb).
      split; [intros; exact Hdb|]. split; [discriminate|].
      split; [intros; eexists; reflexivity|].
      intros Hk Ha.
      destruct (insert_all_ok (w_db_fault w) (w_sql_integer w) records
                  (Datatypes.S (w_db_ops w)) (w_db w)) as [v Hv].
      - intros i Hi. replace (Datatypes.S (w_db_ops w) + i)%nat
          with (w_db_ops w + Datatypes.S i)%nat by lia.
        apply Hk. lia.
      - exact Ha.
      - congruence. }
  assert (Hnofail : forall i r,
             nth_error records i = Some r -> insert_fails w i r = true -> False).
  { intros i r Hn Hfail. unfold insert_fails in Hfail.
    assert (insert_all (w_db_fault w) (w_sql_integer w)
              (Datatypes.S (w_db_ops w)) (w_db w) records = None); [|congruence].
    apply (insert_all_fails _ _ _ _ _ i r Hn).
    replace (Datatypes.S (w_db_ops w) + i)%nat with (w_db_ops w + 1 + i)%nat by lia.
    destruct (w_db_fault w (w_db_ops w + 1 + i)%nat); [left; discriminate|].
    destruct (w_sql_integer w (rec_moodle_id r)); [discriminate|now right]. }
  destruct (w_db_fault w (Datatypes.S (w_db_ops w) + List.length records)%nat)
    as [msg|] eqn:Ec.
  - destruct Hm as ([e ->] & Hdb).
    split; [intros; exact Hdb|]. split; [discriminate|].
    split; [intros; eexists; reflexivity|].
    intros Hk _. specialize (Hk (Datatypes.S (List.length records)) ltac:(lia)).
    replace (w_db_ops w + Datatypes.S (List.length records))%nat
      with (Datatypes.S (w_db_ops w) + List.length records)%nat in Hk by lia.
    congruence.
  - destruct Hm as (-> & Hdb).
    split; [discriminate|]. split.
    + intros n Hn. inversion Hn. split; [reflexivity|].
      rewrite Hdb. eapply insert_all_value; eassumption.
    + split; [|reflexivity].
      intros i r Hn Hfail. elim (Hnofail i r Hn Hfail).
Qed.

Lemma bulk_insert_atomic_witness :
  exists e w',
    bulk_insert "users" [sample_record 1; sample_record 2; sample_record 3]
      faulty_world = (Raise e, w')
    /\ w_db w' = w_db faulty_world
    /\ w_db_txn w' = None.
Proof.
  destruct (bulk_insert_atomic "users"
              [sample_record 1; sample_record 2; sample_record 3]
              faulty_world eq_refl)
    as (o & w' & E & Ht & Hraise & _ & Hfail & _).
  destruct (Hfail 1%nat (sample_record 2) eq_refl eq_refl) as [e ->].
  exists e, w'. split; [exact E|]. split; [exact (Hraise e eq_refl)|exact Ht].
Defined.

Lemma conflicts_sym (a b : raw_row) : conflicts a b = conflicts b a.
Proof.
  unfold conflicts, sql_integer_eqb.
  rewrite (String.eqb_sym (row_instance a)), (String.eqb_sym (row_entity a)),
    (String.eqb_sym (row_ts_extract a)).
  destruct (row_moodle_id a), (row_moodle_id b);
    try reflexivity. now rewrite Z.eqb_sym.
Qed.

(** Two rows that conflict have the same key fields, with an identifier. *)
Lemma conflicts_fields (a b : raw_row) :
  conflicts a b = true ->
  row_instance a = row_instance b /\ row_entity a = row_entity b
  /\ row_moodle_id a = row_moodle_id b
  /\ row_ts_extract a = row_ts_extract b.
Proof.
  unfold conflicts, sql_integer_eqb. rewrite !andb_true_iff, !String.eqb_eq.
  intros [[[H1 H2] H3] H4]. repeat split; try assumption.
  destruct (row_moodle_id a), (row_moodle_id b); try discriminate H3.
  apply Z.eqb_eq in H3. now subst.
Qed.

Lemma conflicts_same (a b : raw_row) :
  conflicts a b = true -> forall x, conflicts a x = conflicts b x.
Proof.
  intros H x. destruct (conflicts_fields _ _ H) as (H1 & H2 & H3 & H4).
  unfold conflicts. now rewrite H1, H2, H3, H4.
Qed.

(** For a row with an identifier, the rows with its key fields are the
    rows it conflicts with. *)
Lemma key_eqb_conflicts (r x : raw_row) (z : Z) :
  row_moodle_id r = Some z -> key_eqb r x = conflicts r x.
Proof.
  intros H. unfold key_eqb, conflicts, sql_integer_eqb. rewrite H.
  destruct (row_moodle_id x); reflexivity.
Qed.

Lemma conflicts_refl (r : raw_row) (z : Z) :
  row_moodle_id r = Some z -> conflicts r r = true.
Proof.
  intros H. unfold conflicts, sql_integer_eqb.
  now rewrite H, !String.eqb_refl, Z.eqb_refl.
Qed.

Lemma count_key_conflicts (r : raw_row) (z : Z) (table : list raw_row) :
  row_moodle_id r = Some z ->
  count_key r table = List.length (filter (conflicts r) table).
Proof.
  intros H. unfold count_key. f_equal. apply filter_ext.
  intros x. now apply key_eqb_conflicts with z.
Qed.

Lemma no_conflict_none (r : raw_row) (table : list raw_row) :
  existsb (conflicts r) table = false ->
  List.length (filter (conflicts r) table) = 0%nat.
Proof.
  induction table as [|x rest IH]; simpl; [reflexivity|].
  intros H. apply orb_false_iff in H. destruct H as [Hx Hr].
  rewrite Hx. now apply IH.
Qed.

Lemma one_conflict (r : raw_row) (table : list raw_row) :
  unique_keys table = true ->
  existsb (conflicts r) table = true ->
  List.length (filter (conflicts r) table) = 1%nat.
Proof.
  induction table as [|x rest IH]; simpl; [discriminate|].
  intros Hu He. apply andb_prop in Hu. destruct Hu as [Hx Hu].
  apply negb_true_iff in Hx.
  destruct (conflicts r x) eqn:Erx.
  - simpl. f_equal. apply no_conflict_none.
    rewrite <- Hx. clear -Erx.
    induction rest as [|y rest IH]; simpl; [reflexivity|].
    now rewrite IH, (conflicts_same _ _ Erx y).
  - simpl in He. now apply IH.
Qed.

Lemma unique_keys_insert (table : list raw_row) (r : raw_row) :
  unique_keys table = true ->
  unique_keys (insert_on_conflict_do_nothing table r) = true.
Proof.
  unfold insert_on_conflict_do_nothing.
  destruct (existsb (conflicts r) table) eqn:E; [trivial|].
  induction table as [|x rest IH]; simpl; [reflexivity|].
  intros Hu. apply andb_prop in Hu. destruct Hu as [Hx Hu].
  simpl in E. apply orb_false_iff in E. destruct E as [Erx Er].
  rewrite (IH Er Hu), andb_true_r.
  rewrite existsb_app. simpl. rewrite orb_false_r.
  apply negb_true_iff in Hx. rewrite Hx. simpl.
  apply negb_true_iff. now rewrite conflicts_sym.
Qed.

Lemma count_key_insert (table : list raw_row) (r : raw_row) (z : Z) :
  row_moodle_id r = Some z ->
  unique_keys table = true ->
  count_key r (insert_on_conflict_do_nothing table r) = 1%nat
  /\ existsb (conflicts r) (insert_on_conflict_do_nothing table r) = true.
Proof.
  intros Hz Hu. rewrite (count_key_conflicts _ z _ Hz).
  unfold insert_on_conflict_do_nothing.
  destruct (existsb (conflicts r) table) eqn:E.
  - split; [now apply one_conflict|exact E].
  - split.
    + rewrite filter_app, length_app, (no_conflict_none _ _ E).
      simpl. now rewrite (conflicts_refl _ _ Hz).
    + rewrite existsb_app. simpl.
      now rewrite (conflicts_refl _ _ Hz), orb_true_r.
Qed.

(** The bulk insert of one record on a database that does not fail. *)
Lemma bulk_insert_single (entity : string) (r : raw_record) (w : world) :
  w_db_txn w = None ->
  (forall k, w_db_fault w k = None) ->
  w_sql_integer w (rec_moodle_id r) <> None ->
  exists w1,
    bulk_insert entity [r] w = (Return 1, w1)
    /\ w_db w1 = insert_on_conflict_do_nothing (w_db w) (row_of w r)
    /\ w_db_txn w1 = None
    /\ same_database w w1.
Proof.
  intros Htxn Hf Ha.
  destruct (bulk_insert_outcome entity [r] w Htxn) as (o & w1 & E & Ht & Hs & Hm).
  rewrite !Hf in Hm. simpl insert_all in Hm. rewrite Hf in Hm.
  unfold row_of.
  destruct (w_sql_integer w (rec_moodle_id r)) as [mid|]; [|now elim Ha].
  destruct Hm as (-> & Hdb).
  exists w1. repeat split; try assumption; apply Hs.
Qed.

(** C2, as stated, fails for a record without an identifier, such as the
    task that loads the raw data prepares of an item without [id]: the
    unique index of the key takes no two absent identifiers for equal, so
    persisting the record twice leaves two rows with its key fields. *)
Lemma persist_twice_two_rows :
  fst (bulk_insert "grades" [unidentified_record] quiet_world) = Return 1
  /\ fst (bulk_insert "grades" [unidentified_record]
            (snd (bulk_insert "grades" [unidentified_record] quiet_world)))
     = Return 1
  /\ unique_keys (w_db quiet_world) = true
  /\ count_key (row_of quiet_world unidentified_record)
       (w_db (snd (bulk_insert "grades" [unidentified_record]
                     (snd (bulk_insert "grades" [unidentified_record]
                             quiet_world)))))
     = 2%nat.
Proof. repeat split; vm_compute; reflexivity. Qed.

(** C2, amended: on a database that does not fail and whose table has no
    two rows that conflict, persisting twice a record that has an
    identifier returns both times - no error of a duplicate key reaches the
    caller - and leaves exactly one row with the key fields of the record;
    the second time the table does not change, and neither does it the
    first time when a row with the key was already there. *)
Theorem persist_twice_one_row (entity : string) (r : raw_record) (w : world)
  (z : Z) :
  w_db_txn w = None ->
  (forall k, w_db_fault w k = None) ->
  w_sql_integer w (rec_moodle_id r) = Some (Some z) ->
  unique_keys (w_db w) = true ->
  exists w1 w2,
    bulk_insert entity [r] w = (Return 1, w1)
    /\ bulk_insert entity [r] w1 = (Return 1, w2)
    /\ count_key (row_of w r) (w_db w2) = 1%nat
    /\ w_db w2 = w_db w1
    /\ unique_keys (w_db w2) = true
    /\ (existsb (conflicts (row_of w r)) (w_db w) = true -> w_db w1 = w_db w).
Proof.
  intros Htxn Hf Hz Hu.
  assert (Ha : w_sql_integer w (rec_moodle_id r) <> None) by congruence.
  assert (Hid : row_moodle_id (row_of w r) = Some z)
    by (unfold row_of; now rewrite Hz).
  destruct (bulk_insert_single entity r w Htxn Hf Ha)
    as (w1 & E1 & Hdb1 & Ht1 & (Hf1 & Ha1)).
  assert (Hrow : row_of w1 r = row_of w r) by (unfold row_of; now rewrite Ha1).
  destruct (bulk_insert_single entity r w1 Ht1) as (w2 & E2 & Hdb2 & _ & _).
  { intros k. rewrite Hf1. apply Hf. }
  { rewrite Ha1. exact Ha. }
  rewrite Hrow in Hdb2.
  destruct (count_key_insert (w_db w) (row_of w r) z Hid Hu) as [Hc He].
  rewrite <- Hdb1 in Hc, He.
  assert (Hsame : w_db w2 = w_db w1).
  { rewrite Hdb2. unfold insert_on_conflict_do_nothing. now rewrite He. }
  exists w1, w2. split; [exact E1|]. split; [exact E2|].
  split; [now rewrite Hsame|]. split; [exact Hsame|]. split.
  - rewrite Hsame, Hdb1. now apply unique_keys_insert.
  - intros Hex. rewrite Hdb1. unfold insert_on_conflict_do_nothing. now rewrite Hex.
Qed.

Lemma persist_twice_one_row_witness :
  exists w1 w2,
    bulk_insert "users" [sample_record 7] quiet_world = (Return 1, w1)
    /\ bulk_insert "users" [sample_record 7] w1 = (Return 1, w2)
    /\ count_key (row_of quiet_world (sample_record 7)) (w_db w2) = 1%nat.
Proof.
  destruct (persist_twice_one_row "users" (sample_record 7) quiet_world 7
              eq_refl (fun _ => eq_refl) eq_refl eq_refl)
    as (w1 & w2 & H1 & H2 & H3 & _).
  exists w1, w2. split; [exact H1|]. split; [exact H2|exact H3].
Defined.

End BulkInsert.

(* ------------------------------------------------------------------ *)
(** ** The content hash *)

Section ContentHash.

Import PyJson.

Lemma string_compare_trans (a : string) :
  forall b c : string,
    String.compare a b <> Gt -> String.compare b c <> Gt -> String.compare a c <> Gt.
Proof.
  induction a as [|x a IH]; intros [|y b] [|z c]; simpl; try congruence.
  unfold Ascii.compare.
  destruct (N.compare_spec (N_of_ascii x) (N_of_ascii y)) as [Exy|Lxy|Gxy];
    destruct (N.compare_spec (N_of_ascii y) (N_of_ascii z)) as [Eyz|Lyz|Gyz];
    try congruence.
  - rewrite Exy, Eyz, N.compare_refl. apply IH.
  - intros _ _. rewrite Exy. apply N.compare_lt_iff in Lyz. now rewrite Lyz.
  - intros _ _. rewrite <- Eyz. apply N.compare_lt_iff in Lxy. now rewrite Lxy.
  - intros _ _.
    assert (L : (N_of_ascii x < N_of_ascii z)%N) by lia.
    apply N.compare_lt_iff in L. now rewrite L.
Qed.

Lemma string_leb_trans (a b c : string) :
  String.leb a b = true -> String.leb b c = true -> String.leb a c = true.
Proof.
  unfold String.leb. intros H1 H2.
  pose proof (string_compare_trans a b c) as T.
  destruct (String.compare a b); destruct (String.compare b c);
    destruct (String.compare a c); try reflexivity; try discriminate;
    exfalso; apply T; congruence.
Qed.

Lemma string_leb_false (a b : string) :
  String.leb a b = false -> String.leb b a = true.
Proof.
  intros H. destruct (String.leb_total a b) as [E|E]; congruence.
Qed.

(** Two items with different keys go into a list in either order. *)
Lemma insert_item_comm (x y : string * string) (l : list (string * string)) :
  fst x <> fst y ->
  insert_item x (insert_item y l) = insert_item y (insert_item x l).
Proof.
  intros Hxy. induction l as [|h t IH]; simpl.
  - destruct (String.leb (fst x) (fst y)) eqn:A, (String.leb (fst y) (fst x)) eqn:B;
      try reflexivity.
    + elim Hxy. now apply String.leb_antisym.
    + apply string_leb_false in A. congruence.
  - destruct (String.leb (fst y) (fst h)) eqn:Yh,
             (String.leb (fst x) (fst h)) eqn:Xh; simpl;
      rewrite ?Yh, ?Xh;
      destruct (String.leb (fst x) (fst y)) eqn:A,
               (String.leb (fst y) (fst x)) eqn:B;
      rewrite ?Yh, ?Xh; try reflexivity;
      try (elim Hxy; now apply String.leb_antisym);
      try (apply string_leb_false in A; congruence);
      try (rewrite (string_leb_trans _ _ _ A Yh) in Xh; discriminate);
      try (rewrite (string_leb_trans _ _ _ B Xh) in Yh; discriminate);
      try (f_equal; exact IH).
Qed.

Lemma sort_items_perm (l l' : list (string * string)) :
  Permutation l l' ->
  NoDup (map fst l) ->
  sort_items l = sort_items l'.
Proof.
  induction 1 as [|x l l' HP IH|x y l|l l' l'' HP1 IH1 HP2 IH2]; intros Hn.
  - reflexivity.
  - simpl. inversion Hn; subst. now rewrite IH.
  - simpl. apply insert_item_comm.
    inversion Hn as [|? ? Hy _]; subst. intros E. apply Hy. left. now symmetry.
  - rewrite IH1 by assumption. apply IH2.
    eapply Permutation_NoDup; [|exact Hn]. now apply Permutation_map.
Qed.

Lemma json_ind_nested (P : json -> Prop) :
  P JNull ->
  (forall b, P (JBool b)) ->
  (forall z, P (JInt z)) ->
  (forall r, P (JFloat r)) ->
  (forall t, P (JString t)) ->
  (forall l, Forall P l -> P (JList l)) ->
  (forall items, Forall (fun kv => P (snd kv)) items -> P (JDict items)) ->
  forall v, P v.
Proof.
  intros Hn Hb Hi Hf Hs Hl Hd.
  fix IH 1.
  intros [| b | z | r | t | l | items];
    [apply Hn|apply Hb|apply Hi|apply Hf|apply Hs| |].
  - apply Hl. induction l as [|x l IHl]; constructor; [apply IH|exact IHl].
  - apply Hd. induction items as [|[k x] items IHi]; constructor;
      [apply IH|exact IHi].
Qed.

(** The items of a mapping with their values rendered. *)
Lemma dumps_dict (sk : bool) (items : list (string * json)) :
  dumps sk (JDict items)
  = "{" ++ PyStr.join ", "
             (map render_item
                (if sk
                 then sort_items (map (fun kv => (fst kv, dumps sk (snd kv))) items)
                 else map (fun kv => (fst kv, dumps sk (snd kv))) items))
        ++ "}".
Proof.
  simpl.
  assert (E : (fix go (l : list (string * json)) : list (string * string) :=
                 match l with
                 | [] => []
                 | (k, x) :: r => (k, dumps sk x) :: go r
                 end) items
              = map (fun kv => (fst kv, dumps sk (snd kv))) items).
  { induction items as [|[k x] r IHr]; [reflexivity|]. now rewrite IHr. }
  now rewrite E.
Qed.

Lemma json_wf_dict (items : list (string * json)) :
  json_wf (JDict items)
  = nodup_keys (map fst items) && forallb (fun kv => json_wf (snd kv)) items.
Proof.
  simpl. f_equal.
  induction items as [|[k x] r IHr]; [reflexivity|]. simpl. now rewrite IHr.
Qed.

Lemma json_same_dict (da db : list (string * json)) :
  json_same (JDict da) (JDict db)
  = (List.length da =? List.length db)%nat
    && forallb (fun kv => match dict_get db (fst kv) with
                          | Some y => json_same (snd kv) y
                          | None => false
                          end) da.
Proof.
  simpl. f_equal.
  induction da as [|[k x] r IHr]; [reflexivity|]. simpl. now rewrite IHr.
Qed.

Lemma nodup_keys_NoDup (ks : list string) : nodup_keys ks = true -> NoDup ks.
Proof.
  induction ks as [|k r IH]; simpl; intros H; constructor.
  - apply andb_prop in H. destruct H as [H _]. apply negb_true_iff in H.
    intros Hin.
    assert (existsb (String.eqb k) r = true); [|congruence].
    apply existsb_exists. exists k. split; [exact Hin|apply String.eqb_refl].
  - apply andb_prop in H. now apply IH.
Qed.

Lemma dict_get_In (d : dict) (k : string) (v : json) :
  dict_get d k = Some v -> In (k, v) d.
Proof.
  induction d as [|[k' v'] r IH]; simpl; [discriminate|].
  destruct (String.eqb k' k) eqn:E.
  - intros H. inversion H; subst. apply String.eqb_eq in E. subst. now left.
  - intros H. right. now apply IH.
Qed.

Lemma json_same_list (la lb : list json) :
  json_same (JList la) (JList lb) = true ->
  List.length la = List.length lb
  /\ forall x y, In (x, y) (combine la lb) -> json_same x y = true.
Proof.
  simpl. revert lb.
  induction la as [|x la IH]; intros [|y lb] H; try discriminate.
  - split; [reflexivity|]. intros ? ? [].
  - apply andb_prop in H. destruct H as [Hxy H].
    destruct (IH lb H) as [Hlen Hall]. split; [simpl; now rewrite Hlen|].
    intros a b [E|Hin]; [now inversion E; subst|now apply Hall].
Qed.

(** Payloads that are equal up to the order of their keys have the same
    canonical text. *)
Lemma dumps_sorted_same :
  forall a b : json,
    json_wf a = true -> json_wf b = true -> json_same a b = true ->
    dumps true a = dumps true b.
Proof.
  intros a. pattern a. apply json_ind_nested; clear a.
  - intros [] _ _ H; try discriminate. reflexivity.
  - intros x [|y| | | | |] _ _ H; try discriminate.
    simpl in H. apply Bool.eqb_prop in H. now subst.
  - intros x [| |y| | | |] _ _ H; try discriminate.
    simpl in H. apply Z.eqb_eq in H. now subst.
  - intros x [| | |y| | |] _ _ H; try discriminate.
    simpl in H. apply String.eqb_eq in H. now subst.
  - intros x [| | | |y| |] _ _ H; try discriminate.
    simpl in H. apply String.eqb_eq in H. now subst.
  - intros la IH [| | | | |lb|] Wa Wb H; try discriminate.
    destruct (json_same_list la lb H) as [Hlen Hall]. clear H.
    simpl in Wa, Wb.
    assert (E : map (dumps true) la = map (dumps true) lb).
    { revert lb Wb Hlen Hall.
      induction la as [|x la IHla]; intros [|y lb] Wb Hlen Hall;
        try discriminate; [reflexivity|].
      simpl in Wa, Wb. apply andb_prop in Wa, Wb.
      destruct Wa as [Wx Wa], Wb as [Wy Wb].
      inversion IH as [|? ? Px Pla]; subst.
      simpl. f_equal.
      + apply Px; [assumption|assumption|]. apply Hall. now left.
      + apply IHla; try assumption.
        * now inversion Hlen.
        * intros u v Hin. apply Hall. now right. }
    simpl. now rewrite E.
  - intros da IH [| | | | | |db] Wa Wb H; try discriminate.
    rewrite json_wf_dict in Wa, Wb. rewrite json_same_dict in H.
    apply andb_prop in Wa, Wb, H.
    destruct Wa as [Na Wa], Wb as [Nb Wb], H as [Hlen H].
    apply Nat.eqb_eq in Hlen.
    rewrite forallb_forall in Wa, Wb, H. rewrite Forall_forall in IH.
    rewrite !dumps_dict. do 4 f_equal.
    set (render := fun kv : string * json => (fst kv, dumps true (snd kv))).
    assert (Hkeys : forall l, map fst (map render l) = map fst l).
    { intros l. rewrite map_map. apply map_ext. reflexivity. }
    assert (Nra : NoDup (map fst (map render da))).
    { rewrite Hkeys. now apply nodup_keys_NoDup. }
    apply sort_items_perm; [|exact Nra].
    apply NoDup_Permutation_bis.
    + eapply NoDup_map_inv. exact Nra.
    + rewrite !length_map. lia.
    + intros [k t] Hin. apply in_map_iff in Hin.
      destruct Hin as ([k' x] & E & Hin). unfold render in E. simpl in E.
      inversion E; subst k' t. clear E.
      pose proof (H _ Hin) as Hk. simpl in Hk.
      destruct (dict_get db k) as [y|] eqn:G; [|discriminate].
      apply dict_get_In in G.
      pose proof (IH _ Hin y (Wa _ Hin) (Wb _ G) Hk) as Ed.
      simpl in Ed. rewrite Ed.
      apply in_map_iff. exists (k, y). split; [reflexivity|exact G].
Qed.

Lemma le_bytes_length (n : nat) : forall x, List.length (MD5.le_bytes n x) = n.
Proof. induction n as [|n IH]; intros x; simpl; [reflexivity|now rewrite IH]. Qed.

Lemma le_bytes_range (n : nat) :
  forall x, Forall (fun b => 0 <= b < 256) (MD5.le_bytes n x).
Proof.
  induction n as [|n IH]; intros x; simpl; constructor; [|apply IH].
  change 255 with (Z.ones 8). rewrite Z.land_ones by lia.
  apply Z.mod_pos_bound. reflexivity.
Qed.

Lemma digest_length (msg : list Z) : List.length (MD5.digest msg) = 16%nat.
Proof. unfold MD5.digest. now rewrite !length_app, !le_bytes_length. Qed.

Lemma digest_range (msg : list Z) :
  Forall (fun b => 0 <= b < 256) (MD5.digest msg).
Proof.
  unfold MD5.digest.
  apply Forall_app; split; [apply le_bytes_range|].
  apply Forall_app; split; [apply le_bytes_range|].
  apply Forall_app; split; apply le_bytes_range.
Qed.

Lemma hex_cons (b : Z) (r : list Z) :
  MD5.hex (b :: r)
  = String (hex_digit (Z.to_N b / 16))
      (String (hex_digit (Z.to_N b mod 16)) (MD5.hex r)).
Proof. cbn [MD5.hex]. unfold hex2. cbn [append]. reflexivity. Qed.

Lemma hex_length (bs : list Z) :
  String.length (MD5.hex bs) = (2 * List.length bs)%nat.
Proof.
  induction bs as [|b r IH]; [reflexivity|].
  rewrite hex_cons. cbn [String.length List.length]. rewrite IH. lia.
Qed.

Lemma hex_digit_is_hex (n : N) : (n < 16)%N -> is_hex (hex_digit n) = true.
Proof.
  intros H. rewrite <- (Stdlib.NArith.Nnat.N2Nat.id n).
  assert (Hk : (N.to_nat n < 16)%nat) by lia.
  revert Hk. generalize (N.to_nat n). intros k Hk.
  do 16 (destruct k as [|k]; [reflexivity|]). lia.
Qed.

Lemma hex_chars (bs : list Z) :
  Forall (fun b => 0 <= b < 256) bs -> all_chars is_hex (MD5.hex bs) = true.
Proof.
  induction 1 as [|b r Hb _ IH]; [reflexivity|].
  rewrite hex_cons. cbn [all_chars]. rewrite IH, andb_true_r.
  assert (Hn : (Z.to_N b < 256)%N) by lia.
  rewrite !hex_digit_is_hex; [reflexivity| |].
  - apply N.mod_lt. discriminate.
  - apply N.Div0.div_lt_upper_bound. exact Hn.
Qed.

(** C1: two payloads that are equal up to the order of the keys of their
    mappings, at every level, have the same content hash; the hash is a
    function of the payload, 32 characters long, all of them lower-case
    hexadecimal digits. *)
Theorem compute_hash_key_order (d1 d2 : json) :
  json_wf d1 = true -> json_wf d2 = true -> json_same d1 d2 = true ->
  compute_hash d1 = compute_hash d2
  /\ String.length (compute_hash d1) = 32%nat
  /\ all_chars is_hex (compute_hash d1) = true.
Proof.
  intros W1 W2 H. unfold compute_hash. split; [|split].
  - now rewrite (dumps_sorted_same d1 d2 W1 W2 H).
  - unfold MD5.hexdigest. now rewrite hex_length, digest_length.
  - unfold MD5.hexdigest. apply hex_chars, digest_range.
Qed.

Lemma compute_hash_key_order_witness :
  compute_hash payload_a = compute_hash payload_b
  /\ String.length (compute_hash payload_a) = 32%nat
  /\ all_chars is_hex (compute_hash payload_a) = true.
Proof.
  apply (compute_hash_key_order payload_a payload_b); reflexivity.
Defined.

End ContentHash.

(* ================================================================== *)
(** * Further properties of the code *)

(* ------------------------------------------------------------------ *)
(** ** The constructor of the client and its URL validator *)

Section ClientConstruction.

Import MoodleAPIClient.

Lemma prefix_app (p s t : string) :
  String.prefix p s = true -> String.prefix p (s ++ t) = true.
Proof.
  revert s. induction p as [|a p IH]; intros s H; [now destruct (s ++ t)|].
  destruct s as [|b s]; [discriminate H|].
  simpl in *. destruct (ascii_dec a b); [now apply IH|discriminate H].
Qed.

(** What [rstrip] returns is the start of its argument. *)
Lemma rstrip_by_prefix (p : ascii -> bool) (s : string) :
  exists t, s = PyStr.rstrip_by p s ++ t.
Proof.
  induction s as [|c r [t IH]]; [now exists ""|].
  rewrite rstrip_by_cons.
  destruct (PyStr.rstrip_by p r) as [|c' r'] eqn:E.
  - destruct (p c).
    + now exists (String c r).
    + exists t. simpl in *. now rewrite <- IH.
  - exists t. simpl in *. now rewrite <- IH.
Qed.

Lemma startswith_rstrip (p : ascii -> bool) (s pre : string) :
  PyStr.startswith (PyStr.rstrip_by p s) pre = true ->
  PyStr.startswith s pre = true.
Proof.
  unfold PyStr.startswith. intros H.
  destruct (rstrip_by_prefix p s) as [t Ht].
  rewrite Ht. now apply prefix_app.
Qed.

Lemma https_excludes_http (s : string) :
  PyStr.startswith s "https://" = true -> PyStr.startswith s "http://" = false.
Proof.
  intros H. destruct (startswith_https_inv _ H) as [r ->]. reflexivity.
Qed.

(** The trailing slashes of a text behind [https://]: those of the scheme
    go too when nothing else is left. *)
Lemma rstrip_https (s : string) :
  PyStr.rstrip_char "/" ("https://" ++ s)
  = match PyStr.rstrip_char "/" s with
    | EmptyString => "https:"
    | t => "https://" ++ t
    end.
Proof.
  unfold PyStr.rstrip_char. cbn [append PyStr.rstrip_by].
  destruct (PyStr.rstrip_by (PyStr.is_char "/") s); reflexivity.
Qed.



(** X2: the last test of the validator compares the scheme as written,
    while the tests before it compare it in lower case: a URL whose
    [https://] is not all in lower case passes those and is refused as
    malformed, with no other effect. *)
Theorem validate_url_scheme_case_sensitive (u : string) (w : world) :
  PyStr.truthy u = true ->
  PyStr.startswith (PyStr.lower (PyStr.strip u)) "https://" = true ->
  PyStr.startswith (PyStr.strip u) "https://" = false ->
  _validate_url u w
  = (Raise (ValueError ("Invalid Moodle URL format: "
                        ++ PyStr.rstrip_char "/" (PyStr.strip u))), w).
Proof.
  intros Ht Hl Hs. unfold _validate_url.
  rewrite Ht, (https_excludes_http _ Hl), Hl.
  cbn [negb]. cbv iota. unfold bind, ret. cbv beta iota.
  destruct (PyStr.startswith (PyStr.rstrip_char "/" (PyStr.strip u)) "https://")
    eqn:E.
  - apply startswith_rstrip in E. congruence.
  - reflexivity.
Qed.

Lemma validate_url_scheme_case_sensitive_witness :
  _validate_url "HTTPS://moodle.example.com/" quiet_world
  = (Raise (ValueError "Invalid Moodle URL format: HTTPS://moodle.example.com"),
     quiet_world).
Proof.
  apply (validate_url_scheme_case_sensitive "HTTPS://moodle.example.com/"
           quiet_world); reflexivity.
Defined.

(** X3: a text that names no scheme - it starts, in any case of the
    letters, with neither [http://] nor [https://] - gets [https://] in
    front of it, which is logged once; the blanks around it and the slashes
    at its end are dropped.  The result is refused when fewer than four
    characters are left behind the scheme, and when nothing is left the
    slashes of the scheme are gone as well. *)
Theorem validate_url_adds_https (u : string) (w : world) :
  PyStr.truthy u = true ->
  PyStr.startswith (PyStr.lower (PyStr.strip u)) "http://" = false ->
  PyStr.startswith (PyStr.lower (PyStr.strip u)) "https://" = false ->
  _validate_url u w
  = (match PyStr.rstrip_char "/" (PyStr.strip u) with
     | EmptyString => Raise (ValueError "Invalid Moodle URL format: https:")
     | host =>
         if PyStr.len host <? 4 then
           Raise (ValueError ("Invalid Moodle URL format: https://" ++ host))
         else Return ("https://" ++ host)
     end,
     snd (log INFO ("Added https:// protocol to URL: https://" ++ PyStr.strip u)
            w)).
Proof.
  intros Ht H1 H2. unfold _validate_url.
  rewrite Ht, H1, H2. cbn [negb]. cbv iota.
  unfold bind, ret, log, emit. cbv beta iota. cbn [snd].
  rewrite rstrip_https.
  destruct (PyStr.rstrip_char "/" (PyStr.strip u)) as [|c r]; [reflexivity|].
  set (host := String c r).
  replace (PyStr.startswith ("https://" ++ host) "https://") with true
    by reflexivity.
  cbn [negb orb].
  replace (PyStr.len ("https://" ++ host) <? MIN_HTTPS_URL_LENGTH)
    with (PyStr.len host <? 4).
  - destruct (PyStr.len host <? 4); reflexivity.
  - unfold PyStr.len, MIN_HTTPS_URL_LENGTH.
    change (String.length ("https://" ++ host))
      with (8 + String.length host)%nat.
    destruct (Z.ltb_spec (Z.of_nat (String.length host)) 4);
      destruct (Z.ltb_spec (Z.of_nat (8 + String.length host)) 12);
      try reflexivity; lia.
Qed.

Lemma validate_url_adds_https_witness :
  fst (_validate_url " moodle.example.com// " quiet_world)
  = Return "https://moodle.example.com"
  /\ fst (_validate_url "a.b" quiet_world)
     = Raise (ValueError "Invalid Moodle URL format: https://a.b").
Proof.
  split.
  - rewrite (validate_url_adds_https " moodle.example.com// " quiet_world);
      reflexivity.
  - rewrite (validate_url_adds_https "a.b" quiet_world); reflexivity.
Defined.

End ClientConstruction.

(* ------------------------------------------------------------------ *)
(** ** The requests and the log of the executor *)

Section ExecutorTrace.

Import MoodleAPIClient.


Lemma not_in_forcelist (st : Z) :
  400 <= st < 500 -> st <> 429 -> in_forcelist st = false.
Proof.
  intros Hst H429. unfold in_forcelist, status_forcelist. cbn [existsb].
  repeat match goal with
         | |- context [st =? ?c] =>
             let E := fresh in destruct (Z.eqb_spec st c) as [E|E]; [lia|]
         end.
  reflexivity.
Qed.

(** X5: a status from 400 to 499 is an error the session does not try
    again, unless it is 429, or 413 in an answer that has the header
    [Retry-After] while retries are left.  Of a client with a positive
    timeout the executor then sends the request once, and raises the
    transport error of the status, which it logs at ERROR; it performs no
    delay. *)
Theorem call_api_client_error (self : client) (function : string)
  (params : option dict) (w : world) (st : Z) (reason : string)
  (retry_after : retry_after_header) (body : option json) :
  0 < timeout self ->
  w_net w (w_sent w) (api_request self function params)
  = HttpReply st reason retry_after body ->
  400 <= st < 500 -> st <> 429 ->
  (st = 413 ->
   has_retry_after retry_after = false \/ max_retries self = 0%nat) ->
  exists msg,
    fst (_call_api self function params w)
    = Raise (RequestException HTTPError msg)
    /\ w_sent (snd (_call_api self function params w)) = Datatypes.S (w_sent w)
    /\ w_trace (snd (_call_api self function params w))
       = (w_trace w
          ++ [Log INFO ("Calling Moodle API: " ++ function);
              Post (api_request self function params);
              Log ERROR ("API call failed for " ++ function ++ ": " ++ msg)])%list.
Proof.
  intros Ht Hnet Hst H429 H413.
  assert (Hretry : is_retry (max_retries self) st (has_retry_after retry_after)
                   = false).
  { unfold is_retry. rewrite (not_in_forcelist st Hst H429). cbn [orb].
    destruct (max_retries self) as [|n] eqn:En; [reflexivity|].
    destruct (has_retry_after retry_after) eqn:Eh; [|reflexivity].
    cbn [Nat.eqb negb andb RETRY_AFTER_STATUS_CODES existsb].
    destruct (Z.eqb_spec st 413) as [E|_].
    { destruct (H413 E); discriminate. }
    destruct (Z.eqb_spec st 429) as [E|_]; [lia|].
    destruct (Z.eqb_spec st 503) as [E|_]; [lia|reflexivity]. }
  destruct (_call_api self function params w) as [o w'] eqn:H.
  cbn [fst snd]. revert H.
  unfold _call_api. fold (api_request self function params).
  set (rq := api_request self function params) in *.
  unfold try_except, bind at 1, log.
  destruct (emit_events (Log INFO ("Calling Moodle API: " ++ function)) w)
    as (w1 & Hw1 & Hev1 & Hs1 & Hn1).
  rewrite Hw1. unfold events_since in Hev1.
  assert (Hnet1 : w_net w1 (w_sent w1) rq = HttpReply st reason retry_after body).
  { rewrite Hn1, Hs1. exact Hnet. }
  unfold bind at 1.
  rewrite (session_post_first (max_retries self) rq w1 st reason retry_after
             body Ht Hnet1 Hretry).
  destruct (wire_events rq w1) as (w2 & Hw2 & Hev2 & Hs2 & _).
  rewrite Hw2. unfold events_since in Hev2. cbn [snd].
  unfold bind at 1. unfold raise_for_status. cbn [status_code].
  replace ((400 <=? st) && (st <? 500)) with true
    by (symmetry; apply andb_true_iff; split;
        [apply Z.leb_le|apply Z.ltb_lt]; lia).
  unfold raise, bind, emit. cbn [is_RequestException]. cbv beta iota.
  intros H; inversion H; subst; clear H.
  eexists. split; [reflexivity|].
  cbn [w_sent w_trace exn_str].
  split; [congruence|].
  rewrite Hev2, Hev1, <- !app_assoc. reflexivity.
Qed.

Lemma call_api_client_error_witness :
  exists msg,
    fst (_call_api sample_client "core_course_get_courses" None
           (world_with (fun _ _ => HttpReply 403 "Forbidden" NoRetryAfter None)))
    = Raise (RequestException HTTPError msg).
Proof.
  destruct (call_api_client_error sample_client "core_course_get_courses" None
              (world_with (fun _ _ => HttpReply 403 "Forbidden" NoRetryAfter None))
              403 "Forbidden" NoRetryAfter None eq_refl eq_refl)
    as (msg & H & _); [lia|lia|intros E; discriminate E|].
  exists msg. exact H.
Defined.

End ExecutorTrace.

(* ------------------------------------------------------------------ *)
(** ** The retries of the session *)

Section Retries.

Import MoodleAPIClient.



End Retries.

(* ------------------------------------------------------------------ *)
(** ** The methods of the client *)

Section ClientMethods.

Import MoodleAPIClient.

(** The search criteria are turned into form fields without any effect;
    the first criterion without a [key] or a [value] stops it. *)
Lemma criteria_params_bad (criteria : list dict) :
  existsb (fun c => negb (dict_has c "key") || negb (dict_has c "value"))
    criteria = true ->
  forall (idx : Z) (params : dict) (w : world),
    exists k,
      (k = "key" \/ k = "value")
      /\ criteria_params idx criteria params w = (Raise (KeyError k), w).
Proof.
  induction criteria as [|c r IH]; intros H idx params w; [discriminate H|].
  cbn [existsb] in H. cbn [criteria_params].
  unfold bind at 1. unfold dict_getitem at 1. unfold dict_has in H.
  destruct (dict_get c "key") as [k|].
  - unfold ret at 1. unfold bind at 1. unfold dict_getitem at 1.
    destruct (dict_get c "value") as [v|].
    + unfold ret at 1. cbn [negb orb] in H. apply IH. exact H.
    + exists "value". split; [now right|reflexivity].
  - exists "key". split; [now left|reflexivity].
Qed.

(** X7: the three methods that are written to take a list out of a
    wrapping object never do: what they return is what the executor
    returned, a list, and nothing else happens.  Their result is that of the
    plain call of their function with their parameters. *)
Theorem wrapped_getters_are_plain_calls (self : client)
  (criteria : option (list dict)) (course_id user_id : json) (w : world) :
  get_users self criteria w
  = (params <- match criteria with
               | Some (c :: r) => criteria_params 0 (c :: r) []
               | _ => ret []
               end ;;
     _call_api self "core_user_get_users" (Some params)) w
  /\ get_course_grade_items self course_id w
     = _call_api self "gradereport_user_get_grade_items"
         (Some [("courseid", course_id)]) w
  /\ get_grades self course_id user_id w
     = _call_api self "gradereport_user_get_grades_table"
         (Some (if py_truthy user_id
                then [("courseid", course_id); ("userid", user_id)]
                else [("courseid", course_id)])) w.
Proof.
  assert (Hplain : forall key function params w0,
             (result <- _call_api self function params ;;
              ret (unwrap key result)) w0
             = _call_api self function params w0).
  { intros key function params w0. unfold bind, ret.
    destruct (_call_api self function params w0) as [[v|e] w1] eqn:E;
      [|reflexivity].
    now rewrite (unwrap_after_call_api key _ _ _ _ _ _ E). }
  split; [|split].
  - unfold get_users. unfold bind at 1.
    unfold bind at 2.
    destruct (match criteria with
              | Some (c :: r) => criteria_params 0 (c :: r) []
              | _ => ret []
              end w) as [[params|e] w1]; [apply Hplain|reflexivity].
  - unfold get_course_grade_items. apply Hplain.
  - unfold get_grades. rewrite Hplain.
    destruct (py_truthy user_id); reflexivity.
Qed.



(** X9: a search criterion without the key [key] or the key [value] makes
    [get_users] raise [KeyError] before anything is logged or sent. *)
Theorem get_users_bad_criterion (self : client) (criteria : list dict)
  (w : world) :
  existsb (fun c => negb (dict_has c "key") || negb (dict_has c "value"))
    criteria = true ->
  exists k,
    (k = "key" \/ k = "value")
    /\ get_users self (Some criteria) w = (Raise (KeyError k), w).
Proof.
  intros H. destruct criteria as [|c r]; [discriminate H|].
  destruct (criteria_params_bad _ H 0 [] w) as (k & Hk & E).
  exists k. split; [exact Hk|].
  unfold get_users. unfold bind at 1. rewrite E. reflexivity.
Qed.

Lemma get_users_bad_criterion_witness :
  exists k,
    get_users sample_client
      (Some [[("key", JString "email"); ("value", JString "a@b.c")];
             [("key", JString "id")]])
      quiet_world
    = (Raise (KeyError k), quiet_world).
Proof.
  destruct (get_users_bad_criterion sample_client
              [[("key", JString "email"); ("value", JString "a@b.c")];
               [("key", JString "id")]]
              quiet_world eq_refl) as (k & _ & E).
  exists k. exact E.
Defined.

End ClientMethods.

(* ------------------------------------------------------------------ *)
(** ** Schema validation and the configuration of an instance *)

Section Configuration.

Import MoodleAPIClient.

Lemma check_fields_cases (d : dict) (entity : string) (fs : list string) :
  if forallb (dict_has d) fs then check_fields d entity fs = Return true
  else
    exists pre f post,
      fs = (pre ++ f :: post)%list
      /\ forallb (dict_has d) pre = true
      /\ dict_has d f = false
      /\ check_fields d entity fs
         = Raise (ValueError ("Missing required field '" ++ f
                              ++ "' for entity '" ++ entity ++ "'")).
Proof.
  induction fs as [|f r IH]; [reflexivity|].
  cbn [forallb check_fields].
  destruct (dict_has d f) eqn:Hf; cbn [negb andb].
  - destruct (forallb (dict_has d) r); [exact IH|].
    destruct IH as (pre & g & post & -> & Hpre & Hg & E).
    exists (f :: pre), g, post. cbn [forallb]. rewrite Hf, Hpre.
    repeat split; assumption.
  - exists [], f, r. repeat split; assumption.
Qed.

(** X10: the schema check has two outcomes only.  It returns [True] for an
    entity it has no fields for, whatever the payload, and for a payload
    that has every required field of its entity; otherwise it raises the
    [ValueError] that names the first required field the payload lacks.  It
    never returns [False]. *)
Theorem validate_json_schema_outcomes (d : dict) (entity : string) :
  validate_json_schema d entity <> Return false
  /\ match lookup_fields required_fields entity with
     | None => validate_json_schema d entity = Return true
     | Some fs =>
         if forallb (dict_has d) fs then
           validate_json_schema d entity = Return true
         else
           exists pre f post,
             fs = (pre ++ f :: post)%list
             /\ forallb (dict_has d) pre = true
             /\ dict_has d f = false
             /\ validate_json_schema d entity
                = Raise (ValueError ("Missing required field '" ++ f
                                     ++ "' for entity '" ++ entity ++ "'"))
     end.
Proof.
  unfold validate_json_schema.
  destruct (lookup_fields required_fields entity) as [fs|];
    [|split; [discriminate|reflexivity]].
  pose proof (check_fields_cases d entity fs) as H.
  destruct (forallb (dict_has d) fs).
  - split; [rewrite H; discriminate|exact H].
  - split; [|exact H].
    destruct H as (pre & f & post & _ & _ & _ & E). rewrite E. discriminate.
Qed.

(** The text of an [int] tells the [int]. *)
Lemma string_of_int_inv (d : Decimal.signed_int) :
  exists d', NilZero.int_of_string (NilZero.string_of_int d) = Some d'
             /\ Z.of_int d' = Z.of_int d.
Proof.
  destruct d as [u|u]; destruct u;
    try (eexists; split; [apply NilZero.isi; discriminate|reflexivity]).
  - eexists. split; [apply NilZero.isi_posnil|reflexivity].
  - eexists. split; [apply NilZero.isi_negnil|reflexivity].
Qed.

Lemma of_int_inj (a b : Z) : PyStr.of_int a = PyStr.of_int b -> a = b.
Proof.
  unfold PyStr.of_int. intros H.
  destruct (string_of_int_inv (Z.to_int a)) as (da & Ha & Hza).
  destruct (string_of_int_inv (Z.to_int b)) as (db & Hb & Hzb).
  rewrite H, Hb in Ha. inversion Ha; subst.
  rewrite DecimalZ.of_to in Hza, Hzb. congruence.
Qed.

Lemma instance_name_inj (a b : Z) :
  "moodle" ++ PyStr.of_int a = "moodle" ++ PyStr.of_int b -> a = b.
Proof. cbn [append]. intros H. inversion H. now apply of_int_inj. Qed.

(** The parser returns the numbered configurations of the paired fields,
    or raises a [ValueError]. *)
Lemma parse_moodle_config_cases (urls_str tokens_str : string) :
  (List.length (csv_fields urls_str) = List.length (csv_fields tokens_str)
   /\ csv_fields urls_str <> []
   /\ parse_moodle_config urls_str tokens_str
      = Return (numbered_configs 0
                  (combine (csv_fields urls_str) (csv_fields tokens_str))))
  \/ ((List.length (csv_fields urls_str) <> List.length (csv_fields tokens_str)
       \/ csv_fields urls_str = [])
      /\ exists msg, parse_moodle_config urls_str tokens_str
                     = Raise (ValueError msg)).
Proof.
  unfold parse_moodle_config.
  destruct (PyStr.truthy urls_str) eqn:Hu; cbn [negb orb].
  2:{ right. apply truthy_false_empty in Hu. subst.
      split; [now right|eexists; reflexivity]. }
  destruct (PyStr.truthy tokens_str) eqn:Ht; cbn [negb].
  2:{ right. apply truthy_false_empty in Ht. subst.
      split; [|eexists; reflexivity].
      destruct (csv_fields urls_str); [now right|left; discriminate]. }
  destruct (Nat.eqb_spec (List.length (csv_fields urls_str))
              (List.length (csv_fields tokens_str))) as [Hlen|Hlen];
    cbn [negb].
  2:{ right. split; [now left|eexists; reflexivity]. }
  destruct (csv_fields urls_str) as [|u0 us] eqn:Eu.
  { right. split; [now right|eexists; reflexivity]. }
  left. split; [exact Hlen|]. split; [discriminate|].
  rewrite build_configs_ok; [reflexivity|].
  apply Forall_forall. intros [u t] Hin. cbn [fst snd].
  pose proof (csv_fields_truthy urls_str) as Fu.
  pose proof (csv_fields_truthy tokens_str) as Ft.
  rewrite Forall_forall in Fu, Ft. rewrite Eu in Fu.
  split; [apply Fu; eapply in_combine_l|apply Ft; eapply in_combine_r]; eauto.
Qed.

(** The search for a name among numbered configurations finds the
    configuration at the position of the name. *)
Lemma find_numbered_hit (pairs : list (string * string)) :
  forall (i : Z) (k : nat) (u t : string),
    nth_error pairs k = Some (u, t) ->
    find (fun c => String.eqb (cfg_instance c)
                     ("moodle" ++ PyStr.of_int (i + Z.of_nat k + 1)))
      (numbered_configs i pairs)
    = Some (mk_config u t ("moodle" ++ PyStr.of_int (i + Z.of_nat k + 1))).
Proof.
  induction pairs as [|[u' t'] r IH]; intros i k u t H.
  - destruct k; discriminate.
  - destruct k as [|k].
    + cbn [nth_error] in H. inversion H; subst.
      cbn [numbered_configs find cfg_instance].
      rewrite Z.add_0_r, String.eqb_refl. reflexivity.
    + cbn [nth_error] in H.
      cbn [numbered_configs find cfg_instance].
      destruct (String.eqb_spec ("moodle" ++ PyStr.of_int (i + 1))
                  ("moodle" ++ PyStr.of_int (i + Z.of_nat (Datatypes.S k) + 1)))
        as [E|_].
      * apply instance_name_inj in E. lia.
      * replace (i + Z.of_nat (Datatypes.S k) + 1)
          with (i + 1 + Z.of_nat k + 1) by lia.
        apply IH, H.
Qed.

Lemma find_numbered_miss (id : string) (pairs : list (string * string)) :
  forall i : Z,
    (forall k, (k < List.length pairs)%nat ->
               id <> "moodle" ++ PyStr.of_int (i + Z.of_nat k + 1)) ->
    find (fun c => String.eqb (cfg_instance c) id) (numbered_configs i pairs)
    = None.
Proof.
  induction pairs as [|[u t] r IH]; intros i H; [reflexivity|].
  cbn [numbered_configs find cfg_instance].
  destruct (String.eqb_spec ("moodle" ++ PyStr.of_int (i + 1)) id) as [E|_].
  - exfalso. apply (H 0%nat); [cbn [List.length]; lia|].
    rewrite Z.add_0_r. now symmetry.
  - apply IH. intros k Hk.
    replace (i + 1 + Z.of_nat k + 1)
      with (i + Z.of_nat (Datatypes.S k) + 1) by lia.
    apply H. cbn [List.length]. lia.
Qed.

(** X11: the configuration of an instance is found by its position.  When
    the URLs and the tokens have as many fields, the name [moodle] followed
    by a position from one to that number gives the configuration with the
    URL and the token at that position, while a name that is none of those
    gives a [ValueError]. *)
Theorem get_moodle_instance_config_by_position (urls_str tokens_str : string) :
  List.length (csv_fields urls_str) = List.length (csv_fields tokens_str) ->
  (forall k : nat,
     (k < List.length (csv_fields urls_str))%nat ->
     get_moodle_instance_config ("moodle" ++ PyStr.of_int (Z.of_nat k + 1))
       urls_str tokens_str
     = Return (mk_config (nth k (csv_fields urls_str) "")
                 (nth k (csv_fields tokens_str) "")
                 ("moodle" ++ PyStr.of_int (Z.of_nat k + 1))))
  /\ (forall id : string,
        (forall k : nat,
           (k < List.length (csv_fields urls_str))%nat ->
           id <> "moodle" ++ PyStr.of_int (Z.of_nat k + 1)) ->
        exists msg,
          get_moodle_instance_config id urls_str tokens_str
          = Raise (ValueError msg)).
Proof.
  intros Hlen. unfold get_moodle_instance_config.
  destruct (parse_moodle_config_cases urls_str tokens_str)
    as [(_ & Hne & ->)|([Hbad|Hnil] & msg & ->)].
  - split.
    + intros k Hk. change (Z.of_nat k + 1) with (0 + Z.of_nat k + 1).
      rewrite (find_numbered_hit _ 0 k _ _
                 (combine_nth_error _ _ Hlen k "" "" Hk)).
      reflexivity.
    + intros id Hid. rewrite find_numbered_miss; [eexists; reflexivity|].
      intros k Hk. apply Hid.
      rewrite length_combine, <- Hlen, Nat.min_id in Hk. exact Hk.
  - contradiction.
  - split.
    + intros k Hk. rewrite Hnil in Hk. cbn [List.length] in Hk. lia.
    + intros id _. exists msg. reflexivity.
Qed.

Lemma get_moodle_instance_config_by_position_witness :
  get_moodle_instance_config "moodle2" "https://m1.com, https://m2.com" "t1,t2"
  = Return (mk_config "https://m2.com" "t2" "moodle2").
Proof.
  apply (proj1 (get_moodle_instance_config_by_position
                  "https://m1.com, https://m2.com" "t1,t2" eq_refl) 1%nat).
  vm_compute. lia.
Defined.

(** X12: whatever its arguments, [get_moodle_instance_config] returns a
    configuration of the parsed lists that has the name asked for, or
    raises a [ValueError]: no other exception, and no configuration of
    another name. *)
Theorem get_moodle_instance_config_outcomes (id urls_str tokens_str : string) :
  match get_moodle_instance_config id urls_str tokens_str with
  | Return c =>
      cfg_instance c = id
      /\ exists configs,
           parse_moodle_config urls_str tokens_str = Return configs
           /\ In c configs
  | Raise e => exists msg, e = ValueError msg
  end.
Proof.
  unfold get_moodle_instance_config.
  destruct (parse_moodle_config_cases urls_str tokens_str)
    as [(_ & _ & ->)|(_ & msg & ->)]; [|now exists msg].
  destruct (find _ _) as [c|] eqn:E; [|eexists; reflexivity].
  apply find_some in E. destruct E as [Hin Heq].
  apply String.eqb_eq in Heq.
  split; [exact Heq|]. eexists. split; [reflexivity|exact Hin].
Qed.

Lemma Variable_get_cases (key : string) (w : world) :
  (exists v, Variable_get key w = (Return v, w))
  \/ Variable_get key w
     = (Raise (KeyError ("Variable " ++ key ++ " does not exist")), w).
Proof.
  unfold Variable_get. destruct (find _ _) as [kv|]; [left; eexists|right];
    reflexivity.
Qed.

Lemma Variable_get_missing (key : string) (w : world) :
  (forall v, fst (Variable_get key w) <> Return v) ->
  Variable_get key w
  = (Raise (KeyError ("Variable " ++ key ++ " does not exist")), w).
Proof.
  intros H. destruct (Variable_get_cases key w) as [[v E]|E]; [|exact E].
  exfalso. apply (H v). now rewrite E.
Qed.

Lemma Variable_get_found (key : string) (w : world) (v : string) :
  fst (Variable_get key w) = Return v -> Variable_get key w = (Return v, w).
Proof.
  destruct (Variable_get_cases key w) as [[v' E]|E]; rewrite E; cbn [fst];
    intros H; [now inversion H|discriminate H].
Qed.

(** X13: the two Variables of the instance come first.  When both exist,
    the client is built from them - after one line of the log - whatever
    the comma-separated lists hold. *)
Theorem get_moodle_client_individual (w : world) (u t : string) :
  fst (Variable_get "moodle4_url" w) = Return u ->
  fst (Variable_get "moodle4_token" w) = Return t ->
  get_moodle_client w
  = new_default u t (snd (log INFO "Using individual variables for moodle4" w)).
Proof.
  intros Hu Ht. apply Variable_get_found in Hu, Ht.
  unfold get_moodle_client.
  change (MOODLE_INSTANCE ++ "_url") with "moodle4_url".
  change (MOODLE_INSTANCE ++ "_token") with "moodle4_token".
  change ("Using individual variables for " ++ MOODLE_INSTANCE)
    with "Using individual variables for moodle4".
  unfold bind at 1. unfold try_except at 1.
  unfold bind at 1. rewrite Hu.
  unfold bind at 1. rewrite Ht.
  unfold bind, log, emit, ret. reflexivity.
Qed.

Lemma get_moodle_client_individual_witness :
  fst (get_moodle_client three_courses_world) = Return sample_client.
Proof.
  rewrite (get_moodle_client_individual three_courses_world
             "https://moodle.example.com" "token123" eq_refl eq_refl).
  reflexivity.
Defined.

(** The handler of the missing Variables of the instance. *)
Lemma get_moodle_client_fallback (w : world) :
  (forall u, fst (Variable_get "moodle4_url" w) <> Return u)
  \/ (forall t, fst (Variable_get "moodle4_token" w) <> Return t) ->
  get_moodle_client w
  = (cfg <- try_except
              (urls_str <- Variable_get "MOODLE_URLS" ;;
               tokens_str <- Variable_get "MOODLE_TOKENS" ;;
               config <- lift (get_moodle_instance_config MOODLE_INSTANCE
                                 urls_str tokens_str) ;;
               log INFO ("Using comma-separated configuration for "
                         ++ MOODLE_INSTANCE) ;;
               ret (cfg_url config, cfg_token config))
              is_KeyError
              (fun _ =>
                 raise (ValueError
                          ("Missing Moodle configuration for " ++ MOODLE_INSTANCE
                           ++ ". Please configure either:" ++ String "010"
                           ("1. Individual variables: " ++ MOODLE_INSTANCE
                            ++ "_url and " ++ MOODLE_INSTANCE ++ "_token"
                            ++ String "010"
                            "2. Comma-separated lists: MOODLE_URLS and MOODLE_TOKENS")))) ;;
     new_default (fst cfg) (snd cfg)) w.
Proof.
  intros H. unfold get_moodle_client.
  change (MOODLE_INSTANCE ++ "_url") with "moodle4_url".
  change (MOODLE_INSTANCE ++ "_token") with "moodle4_token".
  unfold bind at 1. unfold try_except at 1. unfold bind at 1.
  destruct (Variable_get_cases "moodle4_url" w) as [[u Eu]|Eu]; rewrite Eu.
  - destruct H as [H|H]; [exfalso; apply (H u); now rewrite Eu|].
    unfold bind at 1. rewrite (Variable_get_missing _ _ H).
    cbn [is_KeyError]. reflexivity.
  - cbn [is_KeyError]. reflexivity.
Qed.

(** X14: the comma-separated lists are the fallback, and the instance of
    this DAG is the fourth of them.  When a Variable of the instance is
    missing and the two lists have as many fields, the client is built from
    the fourth URL and the fourth token, after one line of the log; with
    fewer than four fields the task fails with a [ValueError] and nothing
    is logged. *)
Theorem get_moodle_client_from_lists (w : world) (urls_str tokens_str : string) :
  (forall u, fst (Variable_get "moodle4_url" w) <> Return u)
  \/ (forall t, fst (Variable_get "moodle4_token" w) <> Return t) ->
  fst (Variable_get "MOODLE_URLS" w) = Return urls_str ->
  fst (Variable_get "MOODLE_TOKENS" w) = Return tokens_str ->
  List.length (csv_fields urls_str) = List.length (csv_fields tokens_str) ->
  if (List.length (csv_fields urls_str) <? 4)%nat then
    exists msg, get_moodle_client w = (Raise (ValueError msg), w)
  else
    get_moodle_client w
    = new_default (nth 3 (csv_fields urls_str) "")
        (nth 3 (csv_fields tokens_str) "")
        (snd (log INFO "Using comma-separated configuration for moodle4" w)).
Proof.
  intros Hind Hu Ht Hlen. apply Variable_get_found in Hu, Ht.
  destruct (Nat.ltb_spec (List.length (csv_fields urls_str)) 4) as [Hn|Hn];
    destruct (parse_moodle_config_cases urls_str tokens_str)
      as [(_ & Hne & Hp)|([Hbad|Hnil] & msg & Hp)];
    try contradiction;
    try (rewrite Hnil in Hn; cbn [List.length] in Hn; lia);
    try eexists;
    rewrite (get_moodle_client_fallback _ Hind);
    unfold bind at 1; unfold try_except at 1;
    unfold bind at 1; rewrite Hu;
    unfold bind at 1; rewrite Ht;
    unfold bind at 1; unfold lift at 1;
    unfold get_moodle_instance_config; rewrite Hp.
  - rewrite find_numbered_miss.
    + cbn [is_KeyError]. reflexivity.
    + intros k Hk E.
      change MOODLE_INSTANCE
        with ("moodle" ++ PyStr.of_int (0 + Z.of_nat 3 + 1)) in E.
      apply instance_name_inj in E.
      rewrite length_combine, <- Hlen, Nat.min_id in Hk. lia.
  - cbn [is_KeyError]. reflexivity.
  - change (fun c => String.eqb (cfg_instance c) MOODLE_INSTANCE)
      with (fun c => String.eqb (cfg_instance c)
                       ("moodle" ++ PyStr.of_int (0 + Z.of_nat 3 + 1))).
    rewrite (find_numbered_hit _ 0 3 _ _
               (combine_nth_error _ _ Hlen 3%nat "" "" Hn)).
    unfold bind, log, emit, ret. reflexivity.
Qed.

Lemma get_moodle_client_from_lists_witness :
  exists c,
    fst (get_moodle_client lists_world) = Return c
    /\ base_url c = "https://m4.example.com" /\ token c = "t4".
Proof.
  assert (Hmiss : forall u,
             fst (Variable_get "moodle4_url" lists_world) <> Return u)
    by (intros u E; vm_compute in E; discriminate E).
  pose proof (get_moodle_client_from_lists lists_world
                "https://m1.example.com,https://m2.example.com,https://m3.example.com,https://m4.example.com"
                "t1,t2,t3,t4" (or_introl Hmiss) eq_refl eq_refl eq_refl) as H.
  assert (E : (List.length
                 (csv_fields
                    "https://m1.example.com,https://m2.example.com,https://m3.example.com,https://m4.example.com")
               <? 4)%nat = false) by reflexivity.
  rewrite E in H. rewrite H.
  eexists. split; [reflexivity|]. split; reflexivity.
Defined.

(** X15: with a Variable of the instance missing and a list missing too,
    the task fails with the [ValueError] that tells how to configure the
    instance; the [KeyError] of the missing Variable does not get out, and
    nothing is logged. *)
Theorem get_moodle_client_unconfigured (w : world) :
  (forall u, fst (Variable_get "moodle4_url" w) <> Return u)
  \/ (forall t, fst (Variable_get "moodle4_token" w) <> Return t) ->
  (forall v, fst (Variable_get "MOODLE_URLS" w) <> Return v)
  \/ (forall v, fst (Variable_get "MOODLE_TOKENS" w) <> Return v) ->
  exists rest,
    get_moodle_client w
    = (Raise (ValueError ("Missing Moodle configuration for moodle4" ++ rest)),
       w).
Proof.
  intros Hind Hlists.
  rewrite (get_moodle_client_fallback _ Hind).
  unfold bind at 1. unfold try_except at 1. unfold bind at 1.
  destruct (Variable_get_cases "MOODLE_URLS" w) as [[u Eu]|Eu]; rewrite Eu.
  - destruct Hlists as [H|H]; [exfalso; apply (H u); now rewrite Eu|].
    unfold bind at 1. rewrite (Variable_get_missing _ _ H).
    cbn [is_KeyError]. eexists. reflexivity.
  - cbn [is_KeyError]. eexists. reflexivity.
Qed.

Lemma get_moodle_client_unconfigured_witness :
  exists msg, get_moodle_client quiet_world = (Raise (ValueError msg), quiet_world).
Proof.
  destruct (get_moodle_client_unconfigured quiet_world) as [rest E].
  - left. intros u E. vm_compute in E. discriminate E.
  - left. intros u E. vm_compute in E. discriminate E.
  - eexists. exact E.
Defined.

End Configuration.

(* ------------------------------------------------------------------ *)
(** ** The extraction tasks and XCom *)

Section ExtractionTasks.

Import MoodleAPIClient.

(** A line of the log changes the trace only. *)
Lemma log_step (lv : level) (msg : string) (w : world) :
  exists w1,
    log lv msg w = (Return tt, w1)
    /\ w_trace w1 = (w_trace w ++ [Log lv msg])%list
    /\ w_sent w1 = w_sent w
    /\ w_xcom w1 = w_xcom w
    /\ w_clock w1 = w_clock w /\ w_ticks w1 = w_ticks w
    /\ w_db w1 = w_db w /\ w_db_txn w1 = w_db_txn w
    /\ w_db_fault w1 = w_db_fault w /\ w_db_ops w1 = w_db_ops w
    /\ w_sql_integer w1 = w_sql_integer w.
Proof. eexists. split; [reflexivity|]. repeat split. Qed.

Lemma framed_tag_items (items course_id : json) :
  framed (tag_items items course_id).
Proof.
  unfold tag_items. apply framed_bind; [apply framed_py_iter|].
  intros l. apply framed_for_each. intros x acc.
  apply framed_bind; [apply framed_py_setitem|intros; apply framed_ret].
Qed.

Lemma framed_per_course (what : string) (method : json -> M json)
  (course : json) (all : list json) :
  (forall id, framed (method id)) -> framed (per_course what method course all).
Proof.
  intros Hm. unfold per_course.
  apply framed_bind; [apply framed_py_get|]. intros id.
  destruct (py_truthy id); [|apply framed_ret].
  apply framed_try_except.
  - apply framed_bind; [apply Hm|]. intros items.
    apply framed_bind; [apply framed_tag_items|intros; apply framed_ret].
  - intros e. apply framed_bind; [apply framed_log|intros; apply framed_ret].
Qed.

Lemma framed_get_course_completion (c : client) (course_id user_id : json) :
  framed (get_course_completion c course_id user_id).
Proof.
  unfold get_course_completion.
  apply framed_bind; [apply framed_call_api|intros; apply framed_ret].
Qed.

Lemma framed_per_enrolment (c : client) (enrolment : json) (all : list json) :
  framed (per_enrolment c enrolment all).
Proof.
  unfold per_enrolment.
  apply framed_bind; [apply framed_py_get|]. intros course_id.
  apply framed_bind; [apply framed_py_get|]. intros user_id.
  destruct (py_truthy course_id && py_truthy user_id); [|apply framed_ret].
  apply framed_try_except.
  - apply framed_bind; [apply framed_get_course_completion|]. intros x.
    apply framed_bind; [apply framed_py_setitem|]. intros y.
    apply framed_bind; [apply framed_py_setitem|intros; apply framed_ret].
  - intros e. apply framed_bind; [apply framed_log|intros; apply framed_ret].
Qed.

(** The tasks that extract a whole list. *)
Lemma extract_list_pushes (what : string) (method : client -> M json)
  (w : world) :
  (forall c, framed (method c)) ->
  (forall c w0 v w1, method c w0 = (Return v, w1) -> exists l, v = JList l) ->
  pushes_list (extract_list what method) what w.
Proof.
  intros Hf Hl. unfold pushes_list.
  destruct (extract_list what method w) as [o w'] eqn:H.
  cbn [fst snd]. revert H. unfold extract_list.
  destruct (log_step INFO ("Extracting " ++ what ++ " from " ++ MOODLE_INSTANCE) w)
    as (w1 & E1 & _ & _ & Hx1 & _).
  rewrite (bind_return _ _ _ _ _ E1).
  destruct (get_moodle_client w1) as [[c|e] w2] eqn:Ec;
    pose proof (framed_get_moodle_client _ _ _ Ec) as (_ & Hx2 & _).
  2:{ rewrite (bind_raise _ _ _ _ _ Ec). intros H; inversion H; subst.
      congruence. }
  rewrite (bind_return _ _ _ _ _ Ec).
  destruct (method c w2) as [[v|e] w3] eqn:Em;
    pose proof (Hf c _ _ _ Em) as (_ & Hx3 & _).
  2:{ rewrite (bind_raise _ _ _ _ _ Em). intros H; inversion H; subst.
      congruence. }
  rewrite (bind_return _ _ _ _ _ Em).
  destruct (Hl _ _ _ _ Em) as [l ->].
  unfold bind, py_len, ret, log, emit, xcom_push. cbv beta iota.
  intros H; inversion H; subst; clear H. cbn [w_xcom].
  exists l. split; [reflexivity|]. rewrite Hx3, Hx2, Hx1. reflexivity.
Qed.

(** The tasks that extract the records of every course. *)
Lemma extract_per_course_pushes (what key : string)
  (method : client -> json -> M json) (w : world) :
  (forall c id, framed (method c id)) ->
  pushes_list (extract_per_course what key method) key w.
Proof.
  intros Hf. unfold pushes_list.
  destruct (extract_per_course what key method w) as [o w'] eqn:H.
  cbn [fst snd]. revert H. unfold extract_per_course.
  destruct (log_step INFO ("Extracting " ++ what ++ " from " ++ MOODLE_INSTANCE) w)
    as (w1 & E1 & _ & _ & Hx1 & _).
  rewrite (bind_return _ _ _ _ _ E1).
  destruct (get_moodle_client w1) as [[c|e] w2] eqn:Ec;
    pose proof (framed_get_moodle_client _ _ _ Ec) as (_ & Hx2 & _).
  2:{ rewrite (bind_raise _ _ _ _ _ Ec). intros H; inversion H; subst.
      congruence. }
  rewrite (bind_return _ _ _ _ _ Ec).
  destruct (xcom_pull "extract_courses" "courses" w2) as [[courses|e] w3] eqn:Ep;
    pose proof (framed_xcom_pull _ _ _ _ _ Ep) as (_ & Hx3 & _).
  2:{ rewrite (bind_raise _ _ _ _ _ Ep). intros H; inversion H; subst.
      congruence. }
  rewrite (bind_return _ _ _ _ _ Ep).
  destruct (py_iter courses w3) as [[cs|e] w4] eqn:Ei;
    pose proof (framed_py_iter _ _ _ _ Ei) as (_ & Hx4 & _).
  2:{ rewrite (bind_raise _ _ _ _ _ Ei). intros H; inversion H; subst.
      congruence. }
  rewrite (bind_return _ _ _ _ _ Ei).
  destruct (for_each cs (per_course what (method c)) [] w4)
    as [[all|e] w5] eqn:El;
    pose proof (framed_for_each cs (per_course what (method c))
                  (fun x acc => framed_per_course what (method c) x acc (Hf c))
                  [] _ _ _ El) as (_ & Hx5 & _).
  2:{ rewrite (bind_raise _ _ _ _ _ El). intros H; inversion H; subst.
      congruence. }
  rewrite (bind_return _ _ _ _ _ El).
  unfold bind, ret, log, emit, xcom_push. cbv beta iota.
  intros H; inversion H; subst; clear H. cbn [w_xcom].
  exists all. split; [reflexivity|]. rewrite Hx5, Hx4, Hx3, Hx2, Hx1. reflexivity.
Qed.

Lemma extract_completions_pushes (w : world) :
  pushes_list extract_completions "completions" w.
Proof.
  unfold pushes_list.
  destruct (extract_completions w) as [o w'] eqn:H.
  cbn [fst snd]. revert H. unfold extract_completions.
  destruct (log_step INFO ("Extracting completions from " ++ MOODLE_INSTANCE) w)
    as (w1 & E1 & _ & _ & Hx1 & _).
  rewrite (bind_return _ _ _ _ _ E1).
  destruct (get_moodle_client w1) as [[c|e] w2] eqn:Ec;
    pose proof (framed_get_moodle_client _ _ _ Ec) as (_ & Hx2 & _).
  2:{ rewrite (bind_raise _ _ _ _ _ Ec). intros H; inversion H; subst.
      congruence. }
  rewrite (bind_return _ _ _ _ _ Ec).
  destruct (xcom_pull "extract_enrolments" "enrolments" w2)
    as [[es|e] w3] eqn:Ep;
    pose proof (framed_xcom_pull _ _ _ _ _ Ep) as (_ & Hx3 & _).
  2:{ rewrite (bind_raise _ _ _ _ _ Ep). intros H; inversion H; subst.
      congruence. }
  rewrite (bind_return _ _ _ _ _ Ep).
  destruct (py_iter es w3) as [[l|e] w4] eqn:Ei;
    pose proof (framed_py_iter _ _ _ _ Ei) as (_ & Hx4 & _).
  2:{ rewrite (bind_raise _ _ _ _ _ Ei). intros H; inversion H; subst.
      congruence. }
  rewrite (bind_return _ _ _ _ _ Ei).
  destruct (for_each l (per_enrolment c) [] w4) as [[all|e] w5] eqn:El;
    pose proof (framed_for_each l (per_enrolment c) (framed_per_enrolment c)
                  [] _ _ _ El) as (_ & Hx5 & _).
  2:{ rewrite (bind_raise _ _ _ _ _ El). intros H; inversion H; subst.
      congruence. }
  rewrite (bind_return _ _ _ _ _ El).
  unfold bind, ret, log, emit, xcom_push. cbv beta iota.
  intros H; inversion H; subst; clear H. cbn [w_xcom].
  exists all. split; [reflexivity|]. rewrite Hx5, Hx4, Hx3, Hx2, Hx1. reflexivity.
Qed.

(** X16: every extraction task hands over its records in the same way.  A
    task that returns has added one entry to XCom, under the task id
    [extract_] followed by its key and under that key - where the load
    task of the key reads - holding a list, and it returns the length of
    that list; a task that raises has added nothing. *)
Theorem extraction_tasks_push (w : world) :
  pushes_list extract_users "users" w
  /\ pushes_list extract_courses "courses" w
  /\ pushes_list extract_roles "roles" w
  /\ pushes_list extract_enrolments "enrolments" w
  /\ pushes_list extract_enrolment_methods "enrolment_methods" w
  /\ pushes_list extract_grade_items "grade_items" w
  /\ pushes_list extract_grades "grades" w
  /\ pushes_list extract_completions "completions" w.
Proof.
  assert (Hu : forall c criteria, framed (get_users c criteria)).
  { intros c criteria. unfold get_users.
    apply framed_bind.
    - destruct criteria as [[|x r]|]; try apply framed_ret.
      generalize 0 ([] : dict). generalize (x :: r). clear.
      intros l. induction l as [|y l IH]; intros idx params.
      + apply framed_ret.
      + cbn [criteria_params]. unfold dict_getitem.
        apply framed_bind;
          [destruct (dict_get y "key"); [apply framed_ret|apply framed_raise]|].
        intros k. apply framed_bind;
          [destruct (dict_get y "value"); [apply framed_ret|apply framed_raise]|].
        intros v. apply IH.
    - intros params. apply framed_bind; [apply framed_call_api|].
      intros; apply framed_ret. }
  assert (Hl : forall function params c w0 v w1,
             _call_api c function params w0 = (Return v, w1) ->
             exists l, v = JList l).
  { intros function params c w0 v w1 H.
    eapply call_api_returns_list; exact H. }
  split; [|split; [|split; [|split; [|split; [|split; [|split]]]]]].
  - apply extract_list_pushes; [intros c; apply Hu|].
    intros c w0 v w1. unfold get_users. unfold bind at 1. unfold ret at 1.
    unfold bind.
    destruct (_call_api c "core_user_get_users" (Some []) w0)
      as [[r|e] w2] eqn:E; [|discriminate].
    destruct (Hl _ _ _ _ _ _ E) as [l ->]. unfold ret. cbn [unwrap].
    intros H; inversion H; subst. now exists l.
  - apply extract_list_pushes; [intros c; apply framed_call_api|].
    intros c. apply Hl.
  - apply extract_list_pushes; [intros c; apply framed_call_api|].
    intros c. apply Hl.
  - apply extract_per_course_pushes. intros c id. apply framed_call_api.
  - apply extract_per_course_pushes. intros c id. apply framed_call_api.
  - apply extract_per_course_pushes. intros c id.
    unfold get_course_grade_items.
    apply framed_bind; [apply framed_call_api|intros; apply framed_ret].
  - apply extract_per_course_pushes. intros c id.
    unfold get_grades.
    apply framed_bind; [apply framed_call_api|intros; apply framed_ret].
  - apply extract_completions_pushes.
Qed.

(** X17: a task over the courses that finds no courses in XCom - the task
    of the courses raised, or has not run - fails at its loop with the
    [TypeError] of iterating [None]: it pushes nothing, and no request is
    made for any course. *)
Theorem extract_per_course_without_courses (what key : string)
  (method : client -> json -> M json) (w : world) (c : client) (w2 : world) :
  fst (xcom_pull "extract_courses" "courses" w) = Return JNull ->
  get_moodle_client
    (snd (log INFO ("Extracting " ++ what ++ " from " ++ MOODLE_INSTANCE) w))
  = (Return c, w2) ->
  extract_per_course what key method w
  = (Raise (TypeError "'NoneType' object is not iterable"), w2).
Proof.
  intros Hpull Hc. unfold extract_per_course.
  destruct (log_step INFO ("Extracting " ++ what ++ " from " ++ MOODLE_INSTANCE) w)
    as (w1 & E1 & _ & _ & Hx1 & _).
  rewrite E1 in Hc. cbn [snd] in Hc.
  rewrite (bind_return _ _ _ _ _ E1), (bind_return _ _ _ _ _ Hc).
  pose proof (framed_get_moodle_client _ _ _ Hc) as (_ & Hx2 & _).
  assert (Ep : xcom_pull "extract_courses" "courses" w2 = (Return JNull, w2)).
  { rewrite (xcom_pull_same _ _ w w2) by congruence. now rewrite Hpull. }
  rewrite (bind_return _ _ _ _ _ Ep). reflexivity.
Qed.

Lemma extract_per_course_without_courses_witness :
  exists w2,
    extract_grades
      (snd (xcom_push "extract_courses" "courses" JNull three_courses_world))
    = (Raise (TypeError "'NoneType' object is not iterable"), w2).
Proof.
  eexists.
  apply (extract_per_course_without_courses "grades" "grades"
           (fun c course_id => get_grades c course_id JNull)
           (snd (xcom_push "extract_courses" "courses" JNull three_courses_world))
           sample_client).
  - reflexivity.
  - reflexivity.
Defined.

End ExtractionTasks.

(* ------------------------------------------------------------------ *)
(** ** The load task *)

Section LoadTask.

(** The preparation of one mapping: its record goes last, whether or not
    the mapping passes the schema check; the clock is read once and the
    database is not touched. *)
Lemma prepare_item_step (entity : string) (d : dict)
  (records : list raw_record) (w : world) :
  exists w',
    prepare_item entity (JDict d) records w
    = (Return (records ++ [record_of entity (w_clock w (w_ticks w)) d])%list, w')
    /\ w_ticks w' = Datatypes.S (w_ticks w) /\ w_clock w' = w_clock w
    /\ w_db w' = w_db w /\ w_db_txn w' = w_db_txn w
    /\ w_db_fault w' = w_db_fault w /\ w_db_ops w' = w_db_ops w
    /\ w_sql_integer w' = w_sql_integer w
    /\ w_xcom w' = w_xcom w.
Proof.
  unfold prepare_item, record_of, moodle_id_of, py_or.
  cbn [py_get]. unfold bind at 1. unfold ret at 1.
  unfold bind at 1.
  destruct (py_truthy (dict_get_default d "id" JNull)) eqn:Hid;
    unfold ret at 1;
    unfold bind at 1; unfold try_except, bind at 1, lift;
    (destruct (validate_json_schema d (singular entity)) as [b|e] eqn:Ev;
     [|rewrite (validate_json_schema_raises _ _ _ Ev)]);
    unfold bind, ret, log, emit, prepare_raw_record, utcnow;
    cbv beta iota;
    (eexists; split; [reflexivity|]; repeat split).
Qed.

Lemma prepare_loop (entity : string) (ds : list dict) :
  forall (acc : list raw_record) (w : world),
    exists w',
      for_each (map JDict ds) (prepare_item entity) acc w
      = (Return (acc ++ records_of entity (w_clock w) (w_ticks w) ds)%list, w')
      /\ w_db w' = w_db w /\ w_db_txn w' = w_db_txn w
      /\ w_db_fault w' = w_db_fault w /\ w_db_ops w' = w_db_ops w
      /\ w_sql_integer w' = w_sql_integer w
      /\ w_xcom w' = w_xcom w /\ w_clock w' = w_clock w
      /\ w_ticks w' = (w_ticks w + List.length ds)%nat.
Proof.
  induction ds as [|d r IH]; intros acc w.
  - exists w. cbn [map for_each records_of List.length].
    rewrite app_nil_r, Nat.add_0_r. repeat split.
  - cbn [map for_each records_of List.length].
    destruct (prepare_item_step entity d acc w)
      as (w1 & E & Ht & Hc & Hdb & Htx & Hf & Ho & Hs & Hx).
    rewrite (bind_return _ _ _ _ _ E).
    destruct (IH (acc ++ [record_of entity (w_clock w (w_ticks w)) d])%list w1)
      as (w2 & E2 & Hdb2 & Htx2 & Hf2 & Ho2 & Hs2 & Hx2 & Hc2 & Ht2).
    exists w2. rewrite E2, Hc, Ht, <- app_assoc.
    split; [reflexivity|]. repeat split; try congruence. lia.
Qed.

Lemma records_of_length (entity : string) (clock : nat -> datetime)
  (ds : list dict) :
  forall tick, List.length (records_of entity clock tick ds) = List.length ds.
Proof.
  induction ds as [|d r IH]; intros tick; [reflexivity|].
  cbn [records_of List.length]. now rewrite IH.
Qed.

Lemma records_of_ids (entity : string) (clock : nat -> datetime)
  (ds : list dict) :
  forall tick r,
    In r (records_of entity clock tick ds) ->
    exists d, In d ds /\ rec_moodle_id r = moodle_id_of d.
Proof.
  induction ds as [|d ds IH]; intros tick r H; [contradiction|].
  cbn [records_of] in H. destruct H as [<-|H].
  - exists d. split; [now left|reflexivity].
  - destruct (IH _ _ H) as (d' & Hin & E). exists d'. split; [now right|exact E].
Qed.

(** What the inserts of a batch leave: the table, with rows of the batch
    behind it. *)
Lemma fold_insert_appends (rows : list raw_row) :
  forall table : list raw_row,
    exists added,
      fold_left insert_on_conflict_do_nothing rows table = (table ++ added)%list
      /\ (List.length added <= List.length rows)%nat
      /\ incl added rows.
Proof.
  induction rows as [|r rows IH]; intros table.
  - exists []. cbn [fold_left]. rewrite app_nil_r.
    repeat split; [apply Nat.le_refl|intros x []].
  - cbn [fold_left]. unfold insert_on_conflict_do_nothing at 2.
    destruct (existsb (conflicts r) table).
    + destruct (IH table) as (added & E & Hl & Hi).
      exists added. split; [exact E|]. split; [cbn [List.length]; lia|].
      intros x Hx. right. now apply Hi.
    + destruct (IH (table ++ [r])%list) as (added & E & Hl & Hi).
      exists (r :: added). rewrite E, <- app_assoc.
      split; [reflexivity|]. split; [cbn [List.length]; lia|].
      intros x [<-|Hx]; [now left|right; now apply Hi].
Qed.

Lemma fold_insert_unique (rows : list raw_row) :
  forall table : list raw_row,
    unique_keys table = true ->
    unique_keys (fold_left insert_on_conflict_do_nothing rows table) = true.
Proof.
  induction rows as [|r rows IH]; intros table H; [exact H|].
  cbn [fold_left]. apply IH. now apply unique_keys_insert.
Qed.

(** The committed rows after a bulk insert: those before it, or those with
    the inserts of the whole batch. *)
Lemma bulk_insert_rows (entity : string) (records : list raw_record)
  (w : world) :
  w_db_txn w = None ->
  w_db (snd (bulk_insert entity records w)) = w_db w
  \/ w_db (snd (bulk_insert entity records w))
     = fold_left insert_on_conflict_do_nothing (map (row_of w) records) (w_db w).
Proof.
  intros Htxn.
  destruct (bulk_insert_outcome entity records w Htxn)
    as (o & w' & E & _ & _ & Hm).
  rewrite E. cbn [snd].
  destruct (w_db_fault w (w_db_ops w)); [left; apply Hm|].
  destruct (insert_all (w_db_fault w) (w_sql_integer w)
              (Datatypes.S (w_db_ops w)) (w_db w) records) as [view|] eqn:Ei;
    [|left; apply Hm].
  destruct (w_db_fault w (Datatypes.S (w_db_ops w) + List.length records)%nat);
    [left; apply Hm|].
  right. destruct Hm as [_ ->]. eapply insert_all_value. exact Ei.
Qed.

(** X18: a bulk insert only adds.  Whatever its outcome, the rows committed
    before it are still there, unchanged and in their order, followed by
    rows made of records of the batch, at most one for each record. *)
Theorem bulk_insert_append_only (entity : string) (records : list raw_record)
  (w : world) :
  w_db_txn w = None ->
  exists added,
    w_db (snd (bulk_insert entity records w)) = (w_db w ++ added)%list
    /\ (List.length added <= List.length records)%nat
    /\ incl added (map (row_of w) records).
Proof.
  intros Htxn. destruct (bulk_insert_rows entity records w Htxn) as [E|E];
    rewrite E.
  - exists []. rewrite app_nil_r. repeat split; [apply Nat.le_0_l|intros x []].
  - destruct (fold_insert_appends (map (row_of w) records) (w_db w))
      as (added & Ea & Hl & Hi).
    exists added. rewrite length_map in Hl. repeat split; assumption.
Qed.

Lemma bulk_insert_append_only_witness :
  exists added,
    w_db (snd (bulk_insert "users" [sample_record 1; sample_record 2] faulty_world))
    = (w_db faulty_world ++ added)%list.
Proof.
  destruct (bulk_insert_append_only "users" [sample_record 1; sample_record 2]
              faulty_world eq_refl) as (added & E & _).
  exists added. exact E.
Defined.

(** X19: the unique index of the key holds.  When no two committed rows
    conflict before a bulk insert - no two have the same instance, entity
    and time of extraction and the same identifier, rows without an
    identifier conflicting with none - then none do after it, whatever the
    batch holds and whatever the outcome. *)
Theorem bulk_insert_keeps_keys_unique (entity : string)
  (records : list raw_record) (w : world) :
  w_db_txn w = None ->
  unique_keys (w_db w) = true ->
  unique_keys (w_db (snd (bulk_insert entity records w))) = true.
Proof.
  intros Htxn Hu. destruct (bulk_insert_rows entity records w Htxn) as [E|E];
    rewrite E; [exact Hu|now apply fold_insert_unique].
Qed.

Lemma bulk_insert_keeps_keys_unique_witness :
  unique_keys
    (w_db (snd (bulk_insert "users" [sample_record 7; sample_record 7]
                  quiet_world))) = true.
Proof.
  apply (bulk_insert_keeps_keys_unique "users" [sample_record 7; sample_record 7]
           quiet_world); reflexivity.
Defined.

(** X20: a load task with nothing to load - nothing in XCom under its
    key, or an empty list - returns 0 after two lines of the log, and does
    not open a connection to the database. *)
Theorem load_raw_data_no_data (entity : string) (w : world) (data : json) :
  fst (xcom_pull ("extract_" ++ entity) entity w) = Return data ->
  py_truthy data = false ->
  fst (load_raw_data entity w) = Return 0
  /\ w_trace (snd (load_raw_data entity w))
     = (w_trace w
        ++ [Log INFO ("Loading " ++ entity ++ " data to moodle_raw");
            Log WARNING ("No " ++ entity ++ " data to load")])%list
  /\ w_db_ops (snd (load_raw_data entity w)) = w_db_ops w
  /\ w_db (snd (load_raw_data entity w)) = w_db w.
Proof.
  intros Hpull Hfalsy.
  destruct (load_raw_data entity w) as [o w'] eqn:H.
  cbn [fst snd]. revert H. unfold load_raw_data.
  destruct (log_step INFO ("Loading " ++ entity ++ " data to moodle_raw") w)
    as (w1 & E1 & Ht1 & _ & Hx1 & _ & _ & Hdb1 & _ & _ & Ho1 & _).
  rewrite (bind_return _ _ _ _ _ E1).
  assert (Ep : xcom_pull ("extract_" ++ entity) entity w1 = (Return data, w1)).
  { rewrite (xcom_pull_same _ _ w w1 Hx1). now rewrite Hpull. }
  rewrite (bind_return _ _ _ _ _ Ep). rewrite Hfalsy. cbn [negb].
  destruct (log_step WARNING ("No " ++ entity ++ " data to load") w1)
    as (w2 & E2 & Ht2 & _ & _ & _ & _ & Hdb2 & _ & _ & Ho2 & _).
  rewrite (bind_return _ _ _ _ _ E2). unfold ret.
  intros H; inversion H; subst; clear H.
  split; [reflexivity|]. split; [|split; congruence].
  rewrite Ht2, Ht1, <- app_assoc. reflexivity.
Qed.

Lemma load_raw_data_no_data_witness :
  fst (load_raw_data "roles" one_user_world) = Return 0.
Proof.
  apply (load_raw_data_no_data "roles" one_user_world JNull); reflexivity.
Defined.

Lemma keeps_clock_ret {A : Type} (a : A) : keeps_clock (ret a).
Proof. intros w o w' H. inversion H. repeat split. Qed.

Lemma keeps_clock_raise {A : Type} (e : exn) : keeps_clock (@raise A e).
Proof. intros w o w' H. inversion H. repeat split. Qed.

Lemma keeps_clock_bind {A B : Type} (m : M A) (k : A -> M B) :
  keeps_clock m -> (forall a, keeps_clock (k a)) -> keeps_clock (bind m k).
Proof.
  intros Hm Hk w o w' H. unfold bind in H.
  destruct (m w) as [[a|e] w1] eqn:E.
  - destruct (Hm _ _ _ E) as (A1 & A2 & A3).
    destruct (Hk _ _ _ _ H) as (B1 & B2 & B3).
    repeat split; congruence.
  - inversion H; subst. eapply Hm; eassumption.
Qed.

Lemma keeps_clock_try_except {A : Type} (body : M A) (E : exn -> bool)
  (handler : exn -> M A) :
  keeps_clock body -> (forall e, keeps_clock (handler e)) ->
  keeps_clock (try_except body E handler).
Proof.
  intros Hb Hh w o w' H. unfold try_except in H.
  destruct (body w) as [[a|e] w1] eqn:Eb.
  - inversion H; subst. eapply Hb; eassumption.
  - destruct (Hb _ _ _ Eb) as (A1 & A2 & A3).
    destruct (E e).
    + destruct (Hh _ _ _ _ H) as (B1 & B2 & B3). repeat split; congruence.
    + inversion H; subst. repeat split; assumption.
Qed.

Lemma keeps_clock_try_finally {A : Type} (body : M A) (cleanup : M unit) :
  keeps_clock body -> keeps_clock cleanup ->
  keeps_clock (try_finally body cleanup).
Proof.
  intros Hb Hc w o w' H. unfold try_finally in H.
  destruct (body w) as [r w1] eqn:Eb.
  destruct (Hb _ _ _ Eb) as (A1 & A2 & A3).
  destruct (cleanup w1) as [[u|e] w2] eqn:Ec;
    destruct (Hc _ _ _ Ec) as (B1 & B2 & B3);
    inversion H; subst; repeat split; congruence.
Qed.

Lemma keeps_clock_for_each {A S : Type} (l : list A) (body : A -> S -> M S) :
  (forall x acc, keeps_clock (body x acc)) ->
  forall acc, keeps_clock (for_each l body acc).
Proof.
  intros Hb. induction l as [|x l IH]; intros acc; cbn [for_each].
  - apply keeps_clock_ret.
  - apply keeps_clock_bind; [apply Hb|exact IH].
Qed.

Lemma keeps_clock_log (lv : level) (msg : string) : keeps_clock (log lv msg).
Proof. intros w o w' H. inversion H. repeat split. Qed.

Lemma keeps_clock_db_op : keeps_clock db_op.
Proof.
  intros w o w' H. unfold db_op in H.
  destruct (w_db_fault w (w_db_ops w)); inversion H; repeat split.
Qed.

Lemma keeps_clock_execute_insert (r : raw_record) :
  keeps_clock (execute_insert r).
Proof.
  unfold execute_insert. apply keeps_clock_bind; [apply keeps_clock_db_op|].
  intros _ w o w' H.
  destruct (w_sql_integer w (rec_moodle_id r)); inversion H; repeat split.
Qed.

Lemma keeps_clock_bulk_insert (entity : string) (records : list raw_record) :
  keeps_clock (bulk_insert entity records).
Proof.
  unfold bulk_insert, get_conn.
  apply keeps_clock_bind; [apply keeps_clock_db_op|]. intros _.
  apply keeps_clock_bind; [|intros; apply keeps_clock_ret].
  apply keeps_clock_try_finally.
  - apply keeps_clock_try_except.
    + apply keeps_clock_bind.
      * apply keeps_clock_for_each. intros r acc.
        apply keeps_clock_execute_insert.
      * intros _. apply keeps_clock_bind.
        -- unfold commit. apply keeps_clock_bind; [apply keeps_clock_db_op|].
           intros _ w o w' H. inversion H. repeat split.
        -- intros _. apply keeps_clock_log.
    + intros e. apply keeps_clock_bind.
      * intros w o w' H. inversion H. repeat split.
      * intros _. apply keeps_clock_bind; [apply keeps_clock_log|].
        intros _. apply keeps_clock_raise.
  - intros w o w' H. inversion H. repeat split.
Qed.

(** A run of the load task that finds mappings and a database that does
    not fail: what it returns and the world it leaves. *)
Lemma load_raw_data_run (entity : string) (ds : list dict) (w : world) :
  ds <> [] ->
  fst (xcom_pull ("extract_" ++ entity) entity w) = Return (JList (map JDict ds)) ->
  w_db_txn w = None ->
  (forall k, w_db_fault w k = None) ->
  (forall d, In d ds -> w_sql_integer w (moodle_id_of d) <> None) ->
  exists w',
    load_raw_data entity w = (Return (Z.of_nat (List.length ds)), w')
    /\ w_db w'
       = fold_left insert_on_conflict_do_nothing
           (map (row_of w) (records_of entity (w_clock w) (w_ticks w) ds))
           (w_db w)
    /\ w_db_txn w' = None
    /\ w_db_fault w' = w_db_fault w /\ w_sql_integer w' = w_sql_integer w
    /\ w_xcom w' = w_xcom w /\ w_clock w' = w_clock w
    /\ w_ticks w' = (w_ticks w + List.length ds)%nat.
Proof.
  intros Hne Hpull Htxn Hfault Hids.
  unfold load_raw_data.
  destruct (log_step INFO ("Loading " ++ entity ++ " data to moodle_raw") w)
    as (w1 & E1 & _ & _ & Hx1 & Hc1 & Hk1 & Hdb1 & Htx1 & Hf1 & Ho1 & Hs1).
  rewrite (bind_return _ _ _ _ _ E1).
  assert (Ep : xcom_pull ("extract_" ++ entity) entity w1
               = (Return (JList (map JDict ds)), w1)).
  { rewrite (xcom_pull_same _ _ w w1 Hx1). now rewrite Hpull. }
  rewrite (bind_return _ _ _ _ _ Ep).
  replace (py_truthy (JList (map JDict ds))) with true
    by (destruct ds; [now elim Hne|reflexivity]).
  cbn [negb py_iter]. unfold bind at 1. unfold ret at 1.
  destruct (prepare_loop entity ds [] w1)
    as (w2 & E2 & Hdb2 & Htx2 & Hf2 & Ho2 & Hs2 & Hx2 & Hc2 & Hk2).
  rewrite (bind_return _ _ _ _ _ E2). cbn [app].
  rewrite Hc1, Hk1.
  set (records := records_of entity (w_clock w) (w_ticks w) ds).
  assert (Htxn2 : w_db_txn w2 = None) by congruence.
  destruct (bulk_insert_outcome entity records w2 Htxn2)
    as (o2 & w3 & E3 & Htx3 & (Hf3 & Hs3) & Hm).
  pose proof (keeps_clock_bulk_insert entity records _ _ _ E3)
    as (Hx3 & Hc3 & Hk3).
  rewrite E3. exists w3.
  rewrite Hf2, Hf1, Hs2, Hs1, Hdb2, Hdb1 in Hm.
  rewrite !Hfault in Hm.
  destruct (insert_all_ok (w_db_fault w) (w_sql_integer w) records
              (Datatypes.S (w_db_ops w2)) (w_db w)) as [view Ev].
  { intros i _. apply Hfault. }
  { intros r Hr. destruct (records_of_ids _ _ _ _ _ Hr) as (d & Hin & ->).
    now apply Hids. }
  rewrite Ev in Hm. destruct Hm as [-> ->].
  split; [unfold records; now rewrite records_of_length|].
  split; [eapply insert_all_value; exact Ev|].
  split; [exact Htx3|].
  repeat split; congruence.
Qed.

(** X21: the load task, end to end.  With a non-empty list of mappings
    under its key in XCom, a database that does not fail and identifiers
    the [integer] column takes, the task returns the number of mappings and
    commits, for every mapping in turn, the insert of its record: the
    instance of the DAG, the entity without its final [s], the [id] of the
    mapping or else its [course_id], the mapping as JSON text, the time of
    its own reading of the clock and the hash of the mapping.  A mapping
    that fails the schema check is loaded like any other. *)
Theorem load_raw_data_inserts (entity : string) (ds : list dict) (w : world) :
  ds <> [] ->
  fst (xcom_pull ("extract_" ++ entity) entity w) = Return (JList (map JDict ds)) ->
  w_db_txn w = None ->
  (forall k, w_db_fault w k = None) ->
  (forall d, In d ds -> w_sql_integer w (moodle_id_of d) <> None) ->
  fst (load_raw_data entity w) = Return (Z.of_nat (List.length ds))
  /\ w_db (snd (load_raw_data entity w))
     = fold_left insert_on_conflict_do_nothing
         (map (row_of w) (records_of entity (w_clock w) (w_ticks w) ds))
         (w_db w)
  /\ w_db_txn (snd (load_raw_data entity w)) = None.
Proof.
  intros Hne Hpull Htxn Hfault Hids.
  destruct (load_raw_data_run entity ds w Hne Hpull Htxn Hfault Hids)
    as (w' & E & Hdb & Htx & _).
  rewrite E. cbn [fst snd].
  split; [reflexivity|]. split; [exact Hdb|exact Htx].
Qed.

Lemma load_raw_data_inserts_witness :
  fst (load_raw_data "users" one_user_world) = Return 1
  /\ List.length (w_db (snd (load_raw_data "users" one_user_world))) = 1%nat.
Proof.
  destruct (load_raw_data_inserts "users"
              [[("id", JInt 7); ("username", JString "ana")]] one_user_world)
    as (H1 & H2 & _).
  - discriminate.
  - reflexivity.
  - reflexivity.
  - intros k. reflexivity.
  - intros d [<-|[]]. vm_compute. discriminate.
  - split; [exact H1|]. rewrite H2. reflexivity.
Defined.

(** X22: the time of extraction is part of the key, and it is read when a
    record is prepared: a second run of the load task over the same data
    stores it again.  Over an empty table and one mapping in XCom, two runs
    leave two rows with the same content and hash when the two readings of
    the clock print differently; when they print the same, they leave one
    row if the mapping has an identifier, and two rows if it has none: rows
    without an identifier never conflict. *)
Theorem load_raw_data_again (entity : string) (d : dict) (w : world) :
  fst (xcom_pull ("extract_" ++ entity) entity w) = Return (JList [JDict d]) ->
  w_db_txn w = None ->
  (forall k, w_db_fault w k = None) ->
  w_sql_integer w (moodle_id_of d) <> None ->
  w_db w = [] ->
  w_db (snd (load_raw_data entity (snd (load_raw_data entity w))))
  = if match w_sql_integer w (moodle_id_of d) with
       | Some (Some _) => true
       | _ => false
       end
       && String.eqb (isoformat (w_clock w (w_ticks w)))
            (isoformat (w_clock w (Datatypes.S (w_ticks w))))
    then [row_of w (record_of entity (w_clock w (w_ticks w)) d)]
    else [row_of w (record_of entity (w_clock w (w_ticks w)) d);
          row_of w (record_of entity (w_clock w (Datatypes.S (w_ticks w))) d)].
Proof.
  intros Hpull Htxn Hfault Hid Hempty.
  assert (Hids : forall d', In d' [d] -> w_sql_integer w (moodle_id_of d') <> None)
    by (intros d' [<-|[]]; exact Hid).
  destruct (load_raw_data_run entity [d] w ltac:(discriminate) Hpull Htxn
              Hfault Hids)
    as (w1 & E1 & Hdb1 & Htx1 & Hf1 & Hs1 & Hx1 & Hc1 & Hk1).
  rewrite E1. cbn [snd].
  destruct (load_raw_data_run entity [d] w1 ltac:(discriminate))
    as (w2 & E2 & Hdb2 & _).
  - rewrite (xcom_pull_same _ _ w w1 Hx1). now rewrite Hpull.
  - exact Htx1.
  - intros k. rewrite Hf1. apply Hfault.
  - intros d' [<-|[]]. rewrite Hs1. exact Hid.
  - rewrite E2. cbn [snd]. rewrite Hdb2, Hdb1, Hempty, Hc1, Hk1.
    cbn [records_of map fold_left List.length].
    replace (w_ticks w + 1)%nat with (Datatypes.S (w_ticks w)) by lia.
    replace (row_of w1 (record_of entity (w_clock w (Datatypes.S (w_ticks w))) d))
      with (row_of w (record_of entity (w_clock w (Datatypes.S (w_ticks w))) d))
      by (unfold row_of; now rewrite Hs1).
    unfold insert_on_conflict_do_nothing. cbn [existsb app].
    unfold conflicts, sql_integer_eqb, row_of, record_of.
    cbn [row_instance row_entity row_moodle_id row_ts_extract
         rec_instance rec_entity rec_moodle_id rec_ts_extract
         rec_data_json rec_hash_content].
    rewrite !String.eqb_refl.
    destruct (w_sql_integer w (moodle_id_of d)) as [[z|]|];
      [|reflexivity|now elim Hid].
    rewrite Z.eqb_refl. cbn [andb orb]. rewrite String.eqb_sym.
    destruct (String.eqb _ _); reflexivity.
Qed.

Lemma load_raw_data_again_witness :
  List.length
    (w_db (snd (load_raw_data "users" (snd (load_raw_data "users" ticking_world)))))
  = 2%nat.
Proof.
  rewrite (load_raw_data_again "users"
             [("id", JInt 7); ("username", JString "ana")] ticking_world).
  - reflexivity.
  - reflexivity.
  - reflexivity.
  - intros k. reflexivity.
  - vm_compute. discriminate.
  - reflexivity.
Defined.

End LoadTask.
